(** * EasyPeek backend: seed service and news handlers

    A shallow embedding of [internal/services/seed_service.go] and of the
    parameter handling of [internal/api/news_hander.go], with the
    properties of the ingestion pipeline, the batch writer, the bootstrap
    operations and the pagination policy proved over it.

    Go values are modelled as follows: [int] and [int64] as [Z], [string]
    as [string] (a sequence of bytes), [float64] as [Q] (the values reach
    the program through [encoding/json], which only yields finite numbers,
    and the program copies and compares them, nothing else), slices as
    lists, [error] as the inductive [error] below with [nil] as [None]. *)

From Stdlib Require Import ZArith QArith List String Ascii Bool Lia Arith.
From Stdlib Require Import Sorting.Sorted.
Import ListNotations.
Local Open Scope string_scope.
Local Open Scope list_scope.
Local Open Scope Z_scope.

(** ** Errors *)

(** The error values the two files build or compare.  [fmt_Errorf p e] is
    [fmt.Errorf(p + ": %w", e)]: every wrapping call of the source has
    that shape.  [storage_fault c] stands for any error of the database
    driver other than [gorm.ErrRecordNotFound]. *)
Inductive error : Type :=
| errors_New (msg : string)
| fmt_Errorf (prefix : string) (cause : error)
| ErrRecordNotFound
| storage_fault (code : nat)
| os_ReadFile_error (path : string)
| json_Unmarshal_error.

(** ** [strconv.Atoi] *)

Module strconv.

Definition maxInt : Z := 9223372036854775807.
Definition minInt : Z := -9223372036854775808.

Definition digit (a : ascii) : option Z :=
  let n := Z.of_N (N_of_ascii a) in
  if (48 <=? n) && (n <=? 57) then Some (n - 48) else None.

Fixpoint digits (s : string) (acc : Z) : option Z :=
  match s with
  | EmptyString => Some acc
  | String a r =>
      match digit a with
      | Some d => digits r (acc * 10 + d)
      | None => None
      end
  end.

(** [Atoi s] is [Some n] when Go returns [(n, nil)] and [None] when it
    returns an error (syntax or range): an optional sign, then at least
    one decimal digit and nothing else, the value within [int]. *)
Definition Atoi (s : string) : option Z :=
  match s with
  | EmptyString => None
  | String a r =>
      let neg := Ascii.eqb a "-" in
      let body := if neg || Ascii.eqb a "+" then r else s in
      match body with
      | EmptyString => None
      | _ =>
          match digits body 0 with
          | None => None
          | Some n =>
              let v := if neg then - n else n in
              if (minInt <=? v) && (v <=? maxInt) then Some v else None
          end
      end
  end.

End strconv.

(** ** The news record *)

Inductive NewsType : Type := NewsTypeManual | NewsTypeRSS.

(** [time.Time], as seconds since the epoch. *)
Definition Time : Type := Z.

(** [NewsJSONData]: one element of the [news_items] array. *)
Record NewsJSONData : Type := mkNewsJSONData {
  j_Title : string;
  j_Content : string;
  j_Summary : string;
  j_Description : string;
  j_Source : string;
  j_Category : string;
  j_PublishedAt : string;
  j_CreatedBy : option Z;
  j_IsActive : bool;
  j_SourceType : string;
  j_RSSSourceID : option Z;
  j_Link : string;
  j_GUID : string;
  j_Author : string;
  j_ImageURL : string;
  j_Tags : string;
  j_Language : string;
  j_ViewCount : Z;
  j_LikeCount : Z;
  j_CommentCount : Z;
  j_ShareCount : Z;
  j_HotnessScore : Q;
  j_Status : string;
  j_IsProcessed : bool
}.

(** [models.News], with the fields [SeedNewsFromJSON] sets.  The
    identifier column is assigned by the store and read by no operation
    of these files; rows are kept in insertion order instead. *)
Record News : Type := mkNews {
  Title : string;
  Content : string;
  Summary : string;
  Description : string;
  Source : string;
  Category : string;
  PublishedAt : Time;
  CreatedBy : option Z;
  IsActive : bool;
  SourceType : NewsType;
  RSSSourceID : option Z;
  Link : string;
  GUID : string;
  Author : string;
  ImageURL : string;
  Tags : string;
  Language : string;
  ViewCount : Z;
  LikeCount : Z;
  CommentCount : Z;
  ShareCount : Z;
  HotnessScore : Q;
  Status : string;
  IsProcessed : bool
}.

(** [models.User] and [models.RSSSource], with the fields the seed
    service sets. *)
Record User : Type := mkUser {
  Username : string;
  Email : string;
  Password : string;
  Role : string;
  UStatus : string
}.

Record RSSSource : Type := mkRSSSource {
  RName : string;
  RURL : string;
  RCategory : string;
  RLanguage : string;
  RIsActive : bool;
  RDescription : string;
  RPriority : Z;
  RUpdateFreq : Z
}.

(** ** The world the seed service runs in *)

(** What a path holds for [os.ReadFile] followed by [json.Unmarshal] into
    the [news_items] wrapper. *)
Inductive FileContent : Type :=
| Unreadable
| Malformed
| NewsItems (items : list NewsJSONData).

(** Operations issued to the collaborators, in order. *)
Inductive Event : Type :=
| EvCountNews
| EvCountAdmins
| EvCountRSS
| EvReadFile (path : string)
| EvFirstNews (guid link : string)
| EvFirstUser (email username : string)
| EvBegin
| EvCommit
| EvRollback
| EvCreateNews (rows : list News)
| EvCreateUser (u : User)
| EvCreateRSS (s : RSSSource).

(** The lines written through [log.Printf] and [log.Println], with the
    values they are formatted from. *)
Inductive LogEntry : Type :=
| LogImportStart (path : string)
| LogImportSkipped (count : Z)
| LogParsed (n : Z)
| LogBadTime (index : Z)
| LogDuplicate (title : string)
| LogLookupError (e : error)
| LogImportDone (imported skipped : Z)
| LogSeedStart
| LogNewsDone
| LogSeedDone
| LogAdminExists
| LogAdminCreated (username email password : string)
| LogRSSExist
| LogRSSFailed (name : string) (e : error)
| LogRSSCreated (name : string).

(** The store, the file system, the environment and the clock, with the
    record of what was asked of them.  [fault n] is the driver error, if
    any, that the store answers to the operation number [n]; [ops] counts
    the storage operations issued so far.  The clock is read, never
    advanced: no property below depends on the time substituted for an
    unparsable timestamp. *)
Record World : Type := mkWorld {
  news_table : list News;
  user_table : list User;
  rss_table : list RSSSource;
  fault : nat -> option nat;
  ops : nat;
  trace : list Event;
  logs : list LogEntry;
  files : string -> FileContent;
  environ : string -> string;
  now : Time
}.

Definition set_news (t : list News) (w : World) : World :=
  mkWorld t (user_table w) (rss_table w) (fault w) (ops w) (trace w)
          (logs w) (files w) (environ w) (now w).

Definition set_users (t : list User) (w : World) : World :=
  mkWorld (news_table w) t (rss_table w) (fault w) (ops w) (trace w)
          (logs w) (files w) (environ w) (now w).

Definition set_rss (t : list RSSSource) (w : World) : World :=
  mkWorld (news_table w) (user_table w) t (fault w) (ops w) (trace w)
          (logs w) (files w) (environ w) (now w).

(** The tables of [snapshot] put back into [w]: what a rollback does. *)
Definition restore (snapshot w : World) : World :=
  mkWorld (news_table snapshot) (user_table snapshot) (rss_table snapshot)
          (fault w) (ops w) (trace w) (logs w) (files w) (environ w) (now w).

Definition log_Printf (l : LogEntry) (w : World) : World :=
  mkWorld (news_table w) (user_table w) (rss_table w) (fault w) (ops w)
          (trace w) (logs w ++ [l]) (files w) (environ w) (now w).

(** One event on the trace that is not a storage operation. *)
Definition record (e : Event) (w : World) : World :=
  mkWorld (news_table w) (user_table w) (rss_table w) (fault w) (ops w)
          (trace w ++ [e]) (logs w) (files w) (environ w) (now w).

(** One storage operation: it is recorded, numbered, and the store's
    answer for that number (a driver error or none) is returned. *)
Definition issue (e : Event) (w : World) : option nat * World :=
  (fault w (ops w),
   mkWorld (news_table w) (user_table w) (rss_table w) (fault w)
           (S (ops w)) (trace w ++ [e]) (logs w) (files w) (environ w)
           (now w)).

Inductive result (A : Type) : Type :=
| Ok (a : A)
| Err (e : error).
Arguments Ok {A} a.
Arguments Err {A} e.

(** ** The calls into [gorm] *)

Module gorm.

(** [db.Model(&models.News{}).Count(&count)] *)
Definition CountNews (w : World) : result Z * World :=
  let (f, w1) := issue EvCountNews w in
  match f with
  | Some c => (Err (storage_fault c), w1)
  | None => (Ok (Z.of_nat (List.length (news_table w1))), w1)
  end.

Definition is_admin (u : User) : bool := String.eqb (Role u) "admin".

(** [db.Model(&models.User{}).Where("role = ?", "admin").Count(&n)] *)
Definition CountAdmins (w : World) : result Z * World :=
  let (f, w1) := issue EvCountAdmins w in
  match f with
  | Some c => (Err (storage_fault c), w1)
  | None => (Ok (Z.of_nat (List.length (filter is_admin (user_table w1)))), w1)
  end.

(** [db.Model(&models.RSSSource{}).Count(&n)] *)
Definition CountRSS (w : World) : result Z * World :=
  let (f, w1) := issue EvCountRSS w in
  match f with
  | Some c => (Err (storage_fault c), w1)
  | None => (Ok (Z.of_nat (List.length (rss_table w1))), w1)
  end.

(** The condition [guid = ? OR link = ?] on a row. *)
Definition same_identity (guid link : string) (r : News) : bool :=
  String.eqb (GUID r) guid || String.eqb (Link r) link.

(** [db.Where("guid = ? OR link = ?", guid, link).First(&existing)] *)
Definition FirstNews (guid link : string) (w : World)
  : result News * World :=
  let (f, w1) := issue (EvFirstNews guid link) w in
  match f with
  | Some c => (Err (storage_fault c), w1)
  | None =>
      match find (same_identity guid link) (news_table w1) with
      | Some r => (Ok r, w1)
      | None => (Err ErrRecordNotFound, w1)
      end
  end.

Definition same_account (email username : string) (u : User) : bool :=
  String.eqb (Email u) email || String.eqb (Username u) username.

(** [db.Where("email = ? OR username = ?", e, u).First(&existing)] *)
Definition FirstUser (email username : string) (w : World)
  : result User * World :=
  let (f, w1) := issue (EvFirstUser email username) w in
  match f with
  | Some c => (Err (storage_fault c), w1)
  | None =>
      match find (same_account email username) (user_table w1) with
      | Some r => (Ok r, w1)
      | None => (Err ErrRecordNotFound, w1)
      end
  end.

(** [db.Create(user)]; [stored] is the row after the model's
    [BeforeCreate] hook. *)
Definition CreateUser (u stored : User) (w : World)
  : option error * World :=
  let (f, w1) := issue (EvCreateUser u) w in
  match f with
  | Some c => (Some (storage_fault c), w1)
  | None => (None, set_users (user_table w1 ++ [stored]) w1)
  end.

(** [db.Create(&source)] *)
Definition CreateRSS (s : RSSSource) (w : World) : option error * World :=
  let (f, w1) := issue (EvCreateRSS s) w in
  match f with
  | Some c => (Some (storage_fault c), w1)
  | None => (None, set_rss (rss_table w1 ++ [s]) w1)
  end.

(** The sub-slices [s[i:min(i+size,len)]] for [i = 0, size, 2*size, ...]
    that [CreateInBatches] walks through. *)
Fixpoint slices_fuel {A : Type} (fuel : nat) (size : nat) (l : list A)
  : list (list A) :=
  match fuel with
  | O => []
  | S fuel' =>
      match l with
      | [] => []
      | _ => firstn size l :: slices_fuel fuel' size (skipn size l)
      end
  end.

Definition slices {A : Type} (size : nat) (l : list A) : list (list A) :=
  slices_fuel (List.length l) size l.

(** The loop of [CreateInBatches]: one insert per sub-slice, stopping
    at the first that fails. *)
Fixpoint create_each (chunks : list (list News)) (w : World)
  : option error * World :=
  match chunks with
  | [] => (None, w)
  | c :: rest =>
      let (f, w1) := issue (EvCreateNews c) w in
      match f with
      | Some code => (Some (storage_fault code), w1)
      | None => create_each rest (set_news (news_table w1 ++ c) w1)
      end
  end.

(** [tx.CreateInBatches(rows, size)] *)
Definition CreateInBatches (rows : list News) (size : nat) (w : World)
  : option error * World :=
  create_each (slices size rows) w.

(** [db.Transaction(fc)]: begin, run [fc], then commit when it returns
    [nil] and roll back (returning its error) otherwise.  A begin that
    fails runs nothing; a commit that fails leaves nothing written. *)
Definition Transaction (fc : World -> option error * World) (w : World)
  : option error * World :=
  let (f, w1) := issue EvBegin w in
  match f with
  | Some c => (Some (storage_fault c), w1)
  | None =>
      let (r, w2) := fc w1 in
      match r with
      | Some e =>
          let (_, w3) := issue EvRollback w2 in (Some e, restore w w3)
      | None =>
          let (f', w3) := issue EvCommit w2 in
          match f' with
          | Some c => (Some (storage_fault c), restore w w3)
          | None => (None, w3)
          end
      end
  end.

End gorm.

(** ** The seed service *)

(** The functions of packages that are outside these sources:
    [time.Parse], the validators of [utils], and the password hashing
    that the [BeforeCreate] hook of [models.User] applies. *)
Record Externals : Type := mkExternals {
  time_Parse : string -> string -> option Time;
  IsValidEmail : string -> bool;
  IsValidPassword : string -> bool;
  IsValidUsername : string -> bool;
  hashPassword : string -> string
}.

Inductive DB : Type := gormDB.

Record SeedService : Type := mkSeedService {
  db : option DB
}.

(** The variables of the loop of [SeedNewsFromJSON]. *)
Record Acc : Type := mkAcc {
  newsList : list News;
  importedCount : Z;
  skippedCount : Z
}.

(** How one turn of the loop ends: with [continue] or at the end of the
    body ([Next]), or with [return] of an error ([Abort]). *)
Inductive Turn : Type :=
| Next (a : Acc) (w : World)
| Abort (e : error) (a : Acc) (w : World).

Definition layout : string := "2006-01-02 15:04:05".

(** [batchInsertNews] *)
Definition batchInsertNews (newsList : list News) (w : World)
  : option error * World :=
  if (List.length newsList =? 0)%nat then (None, w)
  else
    gorm.Transaction
      (fun tx =>
         match gorm.CreateInBatches newsList 50 tx with
         | (Some err, tx') => (Some err, tx')
         | (None, tx') => (None, tx')
         end) w.

Section Seed.

Variable X : Externals.

(** The record built from one element of the file. *)
Definition toNews (newsData : NewsJSONData) (publishedAt : Time) : News :=
  let sourceType :=
    if String.eqb (j_SourceType newsData) "rss"
    then NewsTypeRSS else NewsTypeManual in
  mkNews (j_Title newsData) (j_Content newsData) (j_Summary newsData)
         (j_Description newsData) (j_Source newsData)
         (j_Category newsData) publishedAt (j_CreatedBy newsData)
         (j_IsActive newsData) sourceType (j_RSSSourceID newsData)
         (j_Link newsData) (j_GUID newsData) (j_Author newsData)
         (j_ImageURL newsData) (j_Tags newsData) (j_Language newsData)
         (j_ViewCount newsData) (j_LikeCount newsData)
         (j_CommentCount newsData) (j_ShareCount newsData)
         (j_HotnessScore newsData) (j_Status newsData)
         (j_IsProcessed newsData).

(** The publication time of an element: parsed, or the current time
    when parsing fails. *)
Definition publishedAt_of (newsData : NewsJSONData) (w : World) : Time :=
  match time_Parse X layout (j_PublishedAt newsData) with
  | Some t => t
  | None => now w
  end.

(** The body of the [for i, newsData := range newsDataList] loop. *)
Definition import_turn (i : Z) (newsData : NewsJSONData) (a : Acc)
           (w : World) : Turn :=
  let w1 :=
    match time_Parse X layout (j_PublishedAt newsData) with
    | Some _ => w
    | None => log_Printf (LogBadTime (i + 1)) w
    end in
  let publishedAt := publishedAt_of newsData w in
  let (r, w2) := gorm.FirstNews (j_GUID newsData) (j_Link newsData) w1 in
  match r with
  | Ok _ =>
      Next (mkAcc (newsList a) (importedCount a) (skippedCount a + 1))
           (log_Printf (LogDuplicate (j_Title newsData)) w2)
  | Err ErrRecordNotFound =>
      let news := toNews newsData publishedAt in
      let newsList' := newsList a ++ [news] in
      let importedCount' := importedCount a + 1 in
      if (100 <=? List.length newsList')%nat then
        match batchInsertNews newsList' w2 with
        | (Some err, w3) =>
            Abort (fmt_Errorf "failed to batch insert news" err)
                  (mkAcc newsList' importedCount' (skippedCount a)) w3
        | (None, w3) =>
            Next (mkAcc [] importedCount' (skippedCount a)) w3
        end
      else Next (mkAcc newsList' importedCount' (skippedCount a)) w2
  | Err err =>
      Next a (log_Printf (LogLookupError err) w2)
  end.

Fixpoint import_loop (i : Z) (newsDataList : list NewsJSONData) (a : Acc)
         (w : World) : Turn :=
  match newsDataList with
  | [] => Next a w
  | newsData :: rest =>
      match import_turn i newsData a w with
      | Next a' w' => import_loop (i + 1) rest a' w'
      | Abort e a' w' => Abort e a' w'
      end
  end.

(** [SeedNewsFromJSON] *)
Definition SeedNewsFromJSON (s : SeedService) (jsonFilePath : string)
           (w : World) : option error * World :=
  let w := log_Printf (LogImportStart jsonFilePath) w in
  match db s with
  | None => (Some (errors_New "database connection not initialized"), w)
  | Some _ =>
      match gorm.CountNews w with
      | (Err err, w) =>
          (Some (fmt_Errorf "failed to check existing news count" err), w)
      | (Ok count, w) =>
          if 0 <? count then (None, log_Printf (LogImportSkipped count) w)
          else
            let w := record (EvReadFile jsonFilePath) w in
            match files w jsonFilePath with
            | Unreadable =>
                (Some (fmt_Errorf "failed to read JSON file"
                                  (os_ReadFile_error jsonFilePath)), w)
            | Malformed =>
                (Some (fmt_Errorf "failed to parse JSON data"
                                  json_Unmarshal_error), w)
            | NewsItems newsDataList =>
                let w :=
                  log_Printf
                    (LogParsed (Z.of_nat (List.length newsDataList))) w in
                match import_loop 0 newsDataList (mkAcc [] 0 0) w with
                | Abort e _ w => (Some e, w)
                | Next a w =>
                    let finish (w : World) :=
                      (None,
                       log_Printf (LogImportDone (importedCount a)
                                                 (skippedCount a)) w) in
                    if (0 <? List.length (newsList a))%nat then
                      match batchInsertNews (newsList a) w with
                      | (Some err, w) =>
                          (Some (fmt_Errorf
                                   "failed to insert remaining news" err),
                           w)
                      | (None, w) => finish w
                      end
                    else finish w
                end
            end
      end
  end.

(** [SeedAllData] *)
Definition SeedAllData (s : SeedService) (w : World)
  : option error * World :=
  let w := log_Printf LogSeedStart w in
  match SeedNewsFromJSON s "converted_news_data.json" w with
  | (Some err, w) => (Some (fmt_Errorf "failed to seed news data" err), w)
  | (None, w) => (None, log_Printf LogSeedDone (log_Printf LogNewsDone w))
  end.

(** [os.Getenv(key)], with the default the source substitutes for the
    empty string. *)
Definition getenv_or (key default : string) (w : World) : string :=
  if String.eqb (environ w key) "" then default else environ w key.

(** [SeedInitialAdmin] *)
Definition SeedInitialAdmin (s : SeedService) (w : World)
  : option error * World :=
  match db s with
  | None => (Some (errors_New "database connection not initialized"), w)
  | Some _ =>
      match gorm.CountAdmins w with
      | (Err err, w) => (Some err, w)
      | (Ok adminCount, w) =>
          if 0 <? adminCount then (None, log_Printf LogAdminExists w)
          else
            let adminEmail := getenv_or "ADMIN_EMAIL" "admin@easypeek.com" w in
            let adminPassword := getenv_or "ADMIN_PASSWORD" "admin123456" w in
            let adminUsername := getenv_or "ADMIN_USERNAME" "admin" w in
            if negb (IsValidEmail X adminEmail) then
              (Some (errors_New "invalid admin email format"), w)
            else if negb (IsValidPassword X adminPassword) then
              (Some (errors_New
                 "admin password must contain at least one letter and one number"),
               w)
            else if negb (IsValidUsername X adminUsername) then
              (Some (errors_New "invalid admin username format"), w)
            else
              match gorm.FirstUser adminEmail adminUsername w with
              | (Ok _, w) =>
                  (Some (errors_New "admin email or username already exists"),
                   w)
              | (Err _, w) =>
                  let adminUser :=
                    mkUser adminUsername adminEmail adminPassword
                           "admin" "active" in
                  let stored :=
                    mkUser adminUsername adminEmail
                           (hashPassword X adminPassword) "admin" "active" in
                  match gorm.CreateUser adminUser stored w with
                  | (Some err, w) => (Some err, w)
                  | (None, w) =>
                      (None,
                       log_Printf (LogAdminCreated adminUsername adminEmail
                                                   adminPassword) w)
                  end
              end
      end
  end.

(** [SeedDefaultData] *)
Definition SeedDefaultData (s : SeedService) (w : World)
  : option error * World :=
  match SeedInitialAdmin s w with
  | (Some err, w) => (Some err, w)
  | (None, w) => (None, w)
  end.

End Seed.

(** The two sources of [SeedRSSources]; the names and descriptions are
    kept as the bytes of their UTF-8 text. *)
Definition defaultSources : list RSSSource :=
  [ mkRSSSource "新浪新闻" "http://rss.sina.com.cn/news/china/focus15.xml"
                "国内新闻" "zh" true "新浪网国内新闻RSS源" 1 60;
    mkRSSSource "网易科技" "http://rss.163.com/rss/tech_index.xml"
                "科技" "zh" true "网易科技新闻RSS源" 1 60 ].

(** The [for _, source := range defaultSources] loop. *)
Fixpoint create_sources (sources : list RSSSource) (w : World) : World :=
  match sources with
  | [] => w
  | source :: rest =>
      match gorm.CreateRSS source w with
      | (Some err, w) =>
          create_sources rest (log_Printf (LogRSSFailed (RName source) err) w)
      | (None, w) =>
          create_sources rest (log_Printf (LogRSSCreated (RName source)) w)
      end
  end.

(** [SeedRSSources] *)
Definition SeedRSSources (s : SeedService) (w : World)
  : option error * World :=
  match db s with
  | None => (Some (errors_New "database connection not initialized"), w)
  | Some _ =>
      match gorm.CountRSS w with
      | (Err err, w) => (Some err, w)
      | (Ok rssCount, w) =>
          if 0 <? rssCount then (None, log_Printf LogRSSExist w)
          else (None, create_sources defaultSources w)
      end
  end.

(** ** The news handlers *)

Module gin.

(** The part of [gin.Context] the handlers read: the query string as
    its key/value pairs in order, and the path parameters. *)
Record Context : Type := mkContext {
  query : list (string * string);
  params : list (string * string)
}.

Fixpoint lookup (key : string) (l : list (string * string))
  : option string :=
  match l with
  | [] => None
  | (k, v) :: rest => if String.eqb k key then Some v else lookup key rest
  end.

(** [c.Query(key)]: the first value of the key, or the empty string. *)
Definition Query (c : Context) (key : string) : string :=
  match lookup key (query c) with
  | Some v => v
  | None => ""
  end.

(** [c.DefaultQuery(key, defaultValue)] *)
Definition DefaultQuery (c : Context) (key defaultValue : string)
  : string :=
  match lookup key (query c) with
  | Some v => v
  | None => defaultValue
  end.

(** [c.Param(key)] *)
Definition Param (c : Context) (key : string) : string :=
  match lookup key (params c) with
  | Some v => v
  | None => ""
  end.

End gin.

(** The methods of [services.NewsService] the listing handlers call.  The
    service is outside these sources; the handlers are modelled over any
    implementation of it. *)
Record NewsService : Type := mkNewsService {
  svc_GetAllNews : Z -> Z -> result (list News * Z);
  svc_SearchNews : string -> Z -> Z -> result (list News * Z);
  svc_GetNewsByCategory : string -> Z -> Z -> result (list News * Z);
  svc_GetUnlinkedNews : Z -> Z -> result (list News * Z);
  svc_GetHotNews : Z -> result (list News)
}.

(** What a handler writes through [utils]; [InternalServerError e] is
    [utils.InternalServerError(c, e.Error())]. *)
Inductive Response (R : Type) : Type :=
| BadRequest (msg : string)
| InternalServerError (e : error)
| Success (data : list R)
| SuccessWithPagination (data : list R) (total page size : Z).
Arguments BadRequest {R} msg.
Arguments InternalServerError {R} e.
Arguments Success {R} data.
Arguments SuccessWithPagination {R} data total page size.

Section Handlers.

Variable NewsResponse : Type.
Variable ToResponse : News -> NewsResponse.
Variable newsService : NewsService.

(** [GetAllNews] *)
Definition GetAllNews (c : gin.Context) : Response NewsResponse :=
  let pageStr := gin.DefaultQuery c "page" "1" in
  let sizeStr := gin.DefaultQuery c "size" "10" in
  let page :=
    match strconv.Atoi pageStr with
    | Some page => if page <? 1 then 1 else page
    | None => 1
    end in
  let size :=
    match strconv.Atoi sizeStr with
    | Some size => if (size <? 1) || (100 <? size) then 10 else size
    | None => 10
    end in
  match svc_GetAllNews newsService page size with
  | Err err => InternalServerError err
  | Ok (newsList, total) =>
      SuccessWithPagination (map ToResponse newsList) total page size
  end.

(** [SearchNews] *)
Definition SearchNews (c : gin.Context) : Response NewsResponse :=
  let queryStr := gin.Query c "query" in
  if String.eqb queryStr "" then BadRequest "Search query cannot be empty"
  else
    let pageStr := gin.DefaultQuery c "page" "1" in
    let sizeStr := gin.DefaultQuery c "size" "10" in
    let page :=
      match strconv.Atoi pageStr with
      | Some page => if page <? 1 then 1 else page
      | None => 1
      end in
    let size :=
      match strconv.Atoi sizeStr with
      | Some size => if (size <? 1) || (100 <? size) then 10 else size
      | None => 10
      end in
    match svc_SearchNews newsService queryStr page size with
    | Err err => InternalServerError err
    | Ok (newsList, total) =>
        SuccessWithPagination (map ToResponse newsList) total page size
    end.

(** [GetNewsByCategory] *)
Definition GetNewsByCategory (c : gin.Context) : Response NewsResponse :=
  let category := gin.Param c "category" in
  if String.eqb category "" then BadRequest "Category is required"
  else
    let pageStr := gin.DefaultQuery c "page" "1" in
    let sizeStr := gin.DefaultQuery c "size" "10" in
    let page :=
      match strconv.Atoi pageStr with
      | Some page => if page <? 1 then 1 else page
      | None => 1
      end in
    let size :=
      match strconv.Atoi sizeStr with
      | Some size => if (size <? 1) || (100 <? size) then 10 else size
      | None => 10
      end in
    match svc_GetNewsByCategory newsService category page size with
    | Err err => InternalServerError err
    | Ok (newsList, total) =>
        SuccessWithPagination (map ToResponse newsList) total page size
    end.

(** [GetUnlinkedNews] *)
Definition GetUnlinkedNews (c : gin.Context) : Response NewsResponse :=
  let pageStr := gin.DefaultQuery c "page" "1" in
  let sizeStr := gin.DefaultQuery c "size" "10" in
  let page :=
    match strconv.Atoi pageStr with
    | Some page => if page <? 1 then 1 else page
    | None => 1
    end in
  let size :=
    match strconv.Atoi sizeStr with
    | Some size => if (size <? 1) || (100 <? size) then 10 else size
    | None => 10
    end in
  match svc_GetUnlinkedNews newsService page size with
  | Err err => InternalServerError err
  | Ok (newsList, total) =>
      SuccessWithPagination (map ToResponse newsList) total page size
  end.

(** [GetHotNews] *)
Definition GetHotNews (c : gin.Context) : Response NewsResponse :=
  let limitStr := gin.DefaultQuery c "limit" "10" in
  let limit :=
    match strconv.Atoi limitStr with
    | Some limit => if (limit <=? 0) || (100 <? limit) then 10 else limit
    | None => 10
    end in
  match svc_GetHotNews newsService limit with
  | Err err => InternalServerError err
  | Ok newsList => Success (map ToResponse newsList)
  end.

End Handlers.

(** ** The pagination policy in the words of the specification *)

(** A parameter as the specification sees it: absent, present but not a
    number, or a number. *)
Inductive Param : Type :=
| Absent
| NotNumeric
| Number (n : Z).

(** The parameter [key] of a request, classified. *)
Definition param_of (c : gin.Context) (key : string) : Param :=
  match gin.lookup key (gin.query c) with
  | None => Absent
  | Some v =>
      match strconv.Atoi v with
      | None => NotNumeric
      | Some n => Number n
      end
  end.

(** "page defaults to 1 if absent/invalid (<1)" *)
Definition page_policy (p : Param) : Z :=
  match p with
  | Number n => if 1 <=? n then n else 1
  | _ => 1
  end.

(** "size defaults to 10 if absent/invalid (outside [1,100])" *)
Definition size_policy (p : Param) : Z :=
  match p with
  | Number n => if (1 <=? n) && (n <=? 100) then n else 10
  | _ => 10
  end.

(** "limit defaults to 10 if absent/invalid (<=0 or >100, clamp to 10)" *)
Definition limit_policy (p : Param) : Z :=
  match p with
  | Number n => if (n <=? 0) || (100 <? n) then 10 else n
  | _ => 10
  end.

(** "absent/invalid (<=0 or >100)" *)
Definition invalid_limit (p : Param) : Prop :=
  match p with
  | Number n => n <= 0 \/ 100 < n
  | _ => True
  end.

(** ** The hot list *)

(** Modelled from the spec: the [GetHotNews] method of
    [services.NewsService], which is not among these sources.  "Returns up
    to [limit] records ordered by descending hotness score", ties broken
    by identifier: the rows are held in identifier order and the sort is
    stable. *)
Fixpoint insert_by_score (n : News) (l : list News) : list News :=
  match l with
  | [] => [n]
  | h :: t =>
      if Qle_bool (HotnessScore h) (HotnessScore n) then n :: l
      else h :: insert_by_score n t
  end.

Definition sort_by_score (rows : list News) : list News :=
  fold_right insert_by_score [] rows.

Definition HotNews_spec (rows : list News) (limit : Z) : result (list News) :=
  Ok (firstn (Z.to_nat limit) (sort_by_score rows)).

(** Descending hotness: [a] may stand before [b]. *)
Definition score_desc (a b : News) : Prop :=
  (HotnessScore b <= HotnessScore a)%Q.

Definition has_score (v : Q) (r : News) : bool :=
  Qeq_bool (HotnessScore r) v.

(** A news service whose hot list is the one of the specification, over
    the rows of a store; the other methods are those of [base]. *)
Definition with_hot_list (rows : list News) (base : NewsService)
  : NewsService :=
  mkNewsService (svc_GetAllNews base) (svc_SearchNews base)
                (svc_GetNewsByCategory base) (svc_GetUnlinkedNews base)
                (HotNews_spec rows).

(** The response of a paginated handler once [page] and [size] are
    settled. *)
Definition paginated {R : Type} (ToResponse : News -> R)
           (call : Z -> Z -> result (list News * Z)) (page size : Z)
  : Response R :=
  match call page size with
  | Err err => InternalServerError err
  | Ok (newsList, total) =>
      SuccessWithPagination (map ToResponse newsList) total page size
  end.

(** The handlers that take [page] and [size]. *)
Definition listing_handlers (R : Type) (ToResponse : News -> R)
           (svc : NewsService) : list (gin.Context -> Response R) :=
  [ GetAllNews R ToResponse svc; SearchNews R ToResponse svc;
    GetNewsByCategory R ToResponse svc; GetUnlinkedNews R ToResponse svc ].

(** A request with one more query parameter, placed first. *)
Definition with_query (key value : string) (c : gin.Context) : gin.Context :=
  gin.mkContext ((key, value) :: gin.query c) (gin.params c).

(** ** Observations on a run *)

(** The world after [n] more storage operations that left the events
    [evs] and changed nothing else. *)
Definition advance (n : nat) (evs : list Event) (w : World) : World :=
  mkWorld (news_table w) (user_table w) (rss_table w) (fault w)
          (ops w + n) (trace w ++ evs) (logs w) (files w) (environ w)
          (now w).

(** The world in which the import loop starts: after the opening log
    line, the count query, the read of the file and the log line with
    the number of elements. *)
Definition import_ready (path : string) (items : list NewsJSONData)
           (w : World) : World :=
  log_Printf (LogParsed (Z.of_nat (List.length items)))
    (record (EvReadFile path)
       (snd (issue EvCountNews (log_Printf (LogImportStart path) w)))).

(** What [SeedNewsFromJSON] does after the loop. *)
Definition import_finish (t : Turn) : option error * World :=
  match t with
  | Abort e _ w => (Some e, w)
  | Next a w =>
      if (0 <? List.length (newsList a))%nat then
        match batchInsertNews (newsList a) w with
        | (Some err, w) =>
            (Some (fmt_Errorf "failed to insert remaining news" err), w)
        | (None, w) =>
            (None,
             log_Printf (LogImportDone (importedCount a) (skippedCount a)) w)
        end
      else
        (None,
         log_Printf (LogImportDone (importedCount a) (skippedCount a)) w)
  end.

(** The storage operations of one successful call of the batch writer on
    a non-empty list: one transaction around one insert per sub-slice of
    50. *)
Definition flush_events (batch : list News) : list Event :=
  [EvBegin] ++ map EvCreateNews (gorm.slices 50 batch) ++ [EvCommit].

(** The events that belong to writing news: transaction control and
    inserts. *)
Definition is_write (e : Event) : bool :=
  match e with
  | EvBegin | EvCommit | EvRollback | EvCreateNews _ => true
  | _ => false
  end.

Definition is_lookup_error (l : LogEntry) : bool :=
  match l with
  | LogLookupError _ => true
  | _ => false
  end.

(** The number of candidates dropped on a failed duplicate lookup, as the
    log shows them. *)
Definition lookup_errors (l : list LogEntry) : Z :=
  Z.of_nat (List.length (filter is_lookup_error l)).


(** What no operation of the service changes: the fault plan, the file
    system, the environment and the clock. *)
Definition same_setting (w w' : World) : Prop :=
  fault w' = fault w
  /\ files w' = files w
  /\ environ w' = environ w
  /\ now w' = now w.

(** The events that are storage operations: all but the read of the
    file. *)
Definition is_storage (e : Event) : bool :=
  match e with
  | EvReadFile _ => false
  | _ => true
  end.

Definition storage_ops (t : list Event) : list Event := filter is_storage t.

Definition is_lookup (e : Event) : bool :=
  match e with
  | EvFirstNews _ _ => true
  | _ => false
  end.

(** Between [w] and [w'] the storage operations were numbered in the
    order of the trace, and each one the store answered with a driver
    error was a duplicate lookup. *)
Definition only_lookups_failed (w w' : World) : Prop :=
  fault w' = fault w
  /\ exists new,
      trace w' = trace w ++ new
      /\ ops w' = (ops w + List.length (storage_ops new))%nat
      /\ forall k e,
          nth_error (storage_ops new) k = Some e ->
          fault w (ops w + k) <> None ->
          is_lookup e = true.

(** The accounts with role [admin]. *)
Definition admins (w : World) : list User :=
  filter gorm.is_admin (user_table w).

(** The tables of two worlds agree. *)
Definition same_tables (w w' : World) : Prop :=
  news_table w' = news_table w
  /\ user_table w' = user_table w
  /\ rss_table w' = rss_table w.

(** ** Concrete data for the examples *)

Module Sample.

Fixpoint has_at (s : string) : bool :=
  match s with
  | EmptyString => false
  | String a r => Ascii.eqb a "@" || has_at r
  end.

(** Externals for the examples: one timestamp parses, an address is
    valid when it has an at sign, every password and user name is
    accepted. *)
Definition externals : Externals :=
  mkExternals
    (fun _ value =>
       if String.eqb value "2024-01-02 03:04:05" then Some 1704164645
       else None)
    has_at (fun _ => true) (fun _ => true)
    (fun p => "hash:" ++ p)%string.

Definition service : SeedService := mkSeedService (Some gormDB).

Definition no_fault : nat -> option nat := fun _ => None.

(** A fault plan with the single fault [code] at operation [n]. *)
Definition fault_at (n code : nat) : nat -> option nat :=
  fun k => if Nat.eqb k n then Some code else None.

(** [n] in unary, to build distinct names. *)
Fixpoint tally (n : nat) : string :=
  match n with
  | O => ""
  | S k => String "i" (tally k)
  end.

Definition candidate (guid link : string) : NewsJSONData :=
  mkNewsJSONData "title" "content" "" "" "feed" "tech"
                 "2024-01-02 03:04:05" None true "rss" None link guid
                 "" "" "" "zh" 0 0 0 0 (0 # 1) "published" false.

Definition numbered (n : nat) : NewsJSONData :=
  candidate ("g" ++ tally n) ("http://l/" ++ tally n).

Definition numbered_upto (n : nat) : list NewsJSONData :=
  map numbered (seq 0 n).

Definition path : string := "converted_news_data.json".

(** A world with the given rows, fault plan, file and admin address. *)
Definition world (rows : list News) (plan : nat -> option nat)
           (items : list NewsJSONData) (email : string) : World :=
  mkWorld rows [] [] plan 0 [] []
          (fun p => if String.eqb p path then NewsItems items
                    else Unreadable)
          (fun k => if String.eqb k "ADMIN_EMAIL" then email else "")
          1700000000.

Definition stored (guid link : string) : News :=
  toNews (candidate guid link) 0.

Definition stored_upto (n : nat) : list News :=
  map (fun d => toNews d 0) (numbered_upto n).

Definition scored (guid : string) (score : Q) : News :=
  mkNews "t" "" "" "" "" "" 0 None true NewsTypeManual None guid guid
         "" "" "" "" 0 0 0 0 score "" false.

Definition idle_service : NewsService :=
  mkNewsService (fun _ _ => Ok ([], 0)) (fun _ _ _ => Ok ([], 0))
                (fun _ _ _ => Ok ([], 0)) (fun _ _ => Ok ([], 0))
                (fun _ => Ok []).

Definition request (key value : string) : gin.Context :=
  gin.mkContext [(key, value)] [].

End Sample.

(** ** The other news handlers *)

(** [uint(id)] for an [int] on a 64-bit platform. *)
Definition uint (n : Z) : Z := n mod 18446744073709551616.

(** [strconv.ParseUint(s, 10, 32)]: decimal digits only, no sign, at
    least one digit, the value at most [2^32 - 1]; [None] when Go returns
    an error. *)
Definition ParseUint32 (s : string) : option Z :=
  match s with
  | EmptyString => None
  | _ =>
      match strconv.digits s 0 with
      | None => None
      | Some n => if n <=? 4294967295 then Some n else None
      end
  end.

(** What a service method hands back: its value, or the text of its
    error ([err.Error()]), which is all the handlers look at. *)
Inductive outcome (A : Type) : Type :=
| Done (a : A)
| Failed (msg : string).
Arguments Done {A} a.
Arguments Failed {A} msg.

(** The result of [c.ShouldBindJSON(&req)]: the text of the binding error
    or the bound request. *)
Inductive Bind (B : Type) : Type :=
| BindError (msg : string)
| Bound (b : B).
Arguments BindError {B} msg.
Arguments Bound {B} b.

(** A value stored under a key of the context by a middleware: the only
    distinction [CreateNews] makes is whether it is a [uint]. *)
Inductive KeyValue : Type :=
| UintValue (n : Z)
| OtherValue.

(** The body of [UpdateNewsEventAssociation]'s request. *)
Record AssociationRequest : Type := mkAssociationRequest {
  NewsIDs : list Z;
  EventID : option Z
}.

(** A request with what the handlers below read beside the query and the
    path parameters: the outcome of binding the JSON body and the keys
    set by the middlewares. *)
Record Request (B : Type) : Type := mkRequest {
  ctx : gin.Context;
  body : Bind B;
  keys : string -> option KeyValue
}.
Arguments mkRequest {B} ctx body keys.
Arguments ctx {B} r.
Arguments body {B} r.
Arguments keys {B} r.

(** What these handlers write through [utils]. *)
Inductive Reply (R : Type) : Type :=
| ReplyBadRequest (msg : string)
| ReplyUnauthorized (msg : string)
| ReplyNotFound (msg : string)
| ReplyInternalServerError (msg : string)
| ReplySuccess (data : R)
| ReplySuccessList (data : list R)
| ReplySuccessMessage (message : string).
Arguments ReplyBadRequest {R} msg.
Arguments ReplyUnauthorized {R} msg.
Arguments ReplyNotFound {R} msg.
Arguments ReplyInternalServerError {R} msg.
Arguments ReplySuccess {R} data.
Arguments ReplySuccessList {R} data.
Arguments ReplySuccessMessage {R} message.

(** The remaining methods of [services.NewsService], over the request
    types [C] and [U] of [models].  [item_UpdateNews] returns the record
    as the service leaves it, since the service updates it in place. *)
Record NewsItemService (C U : Type) : Type := mkNewsItemService {
  item_CreateNews : C -> Z -> outcome News;
  item_GetNewsByID : Z -> outcome News;
  item_UpdateNews : News -> U -> outcome News;
  item_DeleteNews : Z -> option string;
  item_GetNewsByTitle : string -> outcome (list News);
  item_UpdateNewsEventAssociationByIDs : list Z -> option Z -> option string;
  item_GetNewsByEventID : Z -> outcome (list News)
}.
Arguments item_CreateNews {C U} n.
Arguments item_GetNewsByID {C U} n.
Arguments item_UpdateNews {C U} n.
Arguments item_DeleteNews {C U} n.
Arguments item_GetNewsByTitle {C U} n.
Arguments item_UpdateNewsEventAssociationByIDs {C U} n.
Arguments item_GetNewsByEventID {C U} n.

Definition nothing_updated : string :=
  "没有新闻被更新，请检查新闻ID是否正确".

Section ItemHandlers.

Variable C U R : Type.
Variable ToResponse : News -> R.
Variable newsService : NewsItemService C U.

(** [CreateNews] *)
Definition CreateNews (c : Request C) : Reply R :=
  match body c with
  | BindError msg => ReplyBadRequest ("Invalid request data: " ++ msg)
  | Bound req =>
      match keys c "user_id" with
      | None => ReplyUnauthorized "User not authenticated"
      | Some userID =>
          match userID with
          | UintValue creatorID =>
              match item_CreateNews newsService req creatorID with
              | Failed msg =>
                  if String.eqb msg "database connection not initialized"
                  then ReplyInternalServerError msg
                  else ReplyBadRequest msg
              | Done news => ReplySuccess (ToResponse news)
              end
          | OtherValue =>
              ReplyInternalServerError "Failed to get user ID from context"
          end
      end
  end.

(** [GetNewsByID] *)
Definition GetNewsByID (c : gin.Context) : Reply R :=
  let idStr := gin.Param c "id" in
  match strconv.Atoi idStr with
  | None => ReplyBadRequest "Invalid news ID"
  | Some id =>
      match item_GetNewsByID newsService (uint id) with
      | Failed msg =>
          if String.eqb msg "news not found" then ReplyNotFound msg
          else ReplyInternalServerError msg
      | Done news => ReplySuccess (ToResponse news)
      end
  end.

(** [UpdateNews] *)
Definition UpdateNews (c : Request U) : Reply R :=
  let idStr := gin.Param (ctx c) "id" in
  match strconv.Atoi idStr with
  | None => ReplyBadRequest "Invalid news ID"
  | Some id =>
      match body c with
      | BindError msg => ReplyBadRequest ("Invalid request data: " ++ msg)
      | Bound req =>
          match item_GetNewsByID newsService (uint id) with
          | Failed msg =>
              if String.eqb msg "news not found" then ReplyNotFound msg
              else ReplyInternalServerError msg
          | Done news =>
              match item_UpdateNews newsService news req with
              | Failed msg => ReplyInternalServerError msg
              | Done news => ReplySuccess (ToResponse news)
              end
          end
      end
  end.

(** [DeleteNews] *)
Definition DeleteNews (c : gin.Context) : Reply R :=
  let idStr := gin.Param c "id" in
  match strconv.Atoi idStr with
  | None => ReplyBadRequest "Invalid news ID"
  | Some id =>
      match item_DeleteNews newsService (uint id) with
      | Some msg =>
          if String.eqb msg "news not found or already deleted"
          then ReplyNotFound msg
          else ReplyInternalServerError msg
      | None => ReplySuccessMessage "News deleted successfully"
      end
  end.

(** [GetNewsByTitle] *)
Definition GetNewsByTitle (c : gin.Context) : Reply R :=
  let title := gin.Query c "title" in
  if String.eqb title "" then ReplyBadRequest "Title parameter is required"
  else
    match item_GetNewsByTitle newsService title with
    | Failed msg => ReplyInternalServerError msg
    | Done newsList => ReplySuccessList (map ToResponse newsList)
    end.

(** [UpdateNewsEventAssociation] *)
Definition UpdateNewsEventAssociation (c : Request AssociationRequest)
  : Reply R :=
  match body c with
  | BindError msg => ReplyBadRequest ("Invalid request data: " ++ msg)
  | Bound req =>
      if (List.length (NewsIDs req) =? 0)%nat
      then ReplyBadRequest "News IDs cannot be empty"
      else
        match item_UpdateNewsEventAssociationByIDs newsService
                (NewsIDs req) (EventID req) with
        | Some msg =>
            if String.eqb msg nothing_updated then ReplyBadRequest msg
            else ReplyInternalServerError msg
        | None =>
            let message :=
              match EventID req with
              | None => "News event association removed successfully"
              | Some _ => "News event association updated successfully"
              end in
            ReplySuccessMessage message
        end
  end.

(** [GetNewsByEventID] *)
Definition GetNewsByEventID (c : gin.Context) : Reply R :=
  let eventIDStr := gin.Param c "event_id" in
  match ParseUint32 eventIDStr with
  | None => ReplyBadRequest "Invalid event ID"
  | Some eventID =>
      match item_GetNewsByEventID newsService eventID with
      | Failed msg => ReplyInternalServerError msg
      | Done newsList => ReplySuccessList (map ToResponse newsList)
      end
  end.

End ItemHandlers.

(** ** The routes *)

Inductive Method : Type := GET | POST | PUT | DELETE.

(** The roles of [middleware]. *)
Inductive RoleName : Type := RoleAdmin | RoleSystem.

(** The middlewares: the two of [gin.Default()] and those of the
    [middleware] package, which are outside these sources. *)
Inductive Middleware : Type :=
| Logger
| Recovery
| CORSMiddleware
| AuthMiddleware
| RoleMiddleware (role : RoleName)
| RequireSystemOrAdmin
| AdminAuthMiddleware.

(** [gin.RouterGroup]: the base path and the middlewares that routes
    registered through the group receive. *)
Record RouterGroup : Type := mkRouterGroup {
  basePath : string;
  Handlers : list Middleware
}.

(** A registered route: the method, the absolute path, the middlewares
    in the order they run, and the name of the final handler. *)
Record Route : Type := mkRoute {
  route_method : Method;
  route_path : string;
  route_chain : list Middleware;
  route_handler : string
}.

(** [joinPaths] of gin, for the relative paths of [SetupRoutes]: empty,
    or clean and starting with a slash. *)
Definition joinPaths (absolutePath relativePath : string) : string :=
  if String.eqb relativePath "" then absolutePath
  else if String.eqb absolutePath "/" then relativePath
       else absolutePath ++ relativePath.

(** [gin.Default()] *)
Definition gin_Default : RouterGroup := mkRouterGroup "/" [Logger; Recovery].

(** [group.Group(relativePath)] *)
Definition Group (g : RouterGroup) (relativePath : string) : RouterGroup :=
  mkRouterGroup (joinPaths (basePath g) relativePath) (Handlers g).

(** [group.Use(m)], as the group it leaves. *)
Definition Use (g : RouterGroup) (m : Middleware) : RouterGroup :=
  mkRouterGroup (basePath g) (Handlers g ++ [m]).

(** [group.GET(relativePath, handler)] and the like, as the route they
    register. *)
Definition handle (m : Method) (g : RouterGroup) (relativePath : string)
           (handler : string) : Route :=
  mkRoute m (joinPaths (basePath g) relativePath) (Handlers g) handler.

(** [SetupRoutes], as the routes it registers, in order. *)
Definition SetupRoutes : list Route :=
  let r := Use gin_Default CORSMiddleware in
  let v1 := Group r "/api/v1" in
  let auth := Group v1 "/auth" in
  let user := Use (Group v1 "/user") AuthMiddleware in
  let news := Group v1 "/news" in
  let authNews := Use (Group news "") AuthMiddleware in
  let events := Group v1 "/events" in
  let authEvents := Use (Group events "") AuthMiddleware in
  let adminEvents :=
    Use (Use (Group events "") AuthMiddleware) (RoleMiddleware RoleAdmin) in
  let systemEvents :=
    Use (Use (Group events "") AuthMiddleware) RequireSystemOrAdmin in
  let rss := Group v1 "/rss" in
  let adminRSS :=
    Use (Use (Group rss "") AuthMiddleware) (RoleMiddleware RoleAdmin) in
  let admin :=
    Use (Use (Group v1 "/admin") AuthMiddleware) AdminAuthMiddleware in
  let users := Group admin "/users" in
  let adminEventsGroup := Group admin "/events" in
  let adminNews := Group admin "/news" in
  let rssAdmin := Group admin "/rss-sources" in
  let system :=
    Use (Use (Group v1 "/system") AuthMiddleware) (RoleMiddleware RoleSystem) in
  let systemUsers := Group system "/users" in
  [ handle GET r "/health" "health";
    handle POST auth "/register" "userHandler.Register";
    handle POST auth "/login" "userHandler.Login";
    handle GET user "/profile" "userHandler.GetProfile";
    handle PUT user "/profile" "userHandler.UpdateProfile";
    handle POST user "/change-password" "userHandler.ChangePassword";
    handle DELETE user "/me" "userHandler.DeleteSelf";
    handle GET news "" "newsHandler.GetAllNews";
    handle GET news "/:id" "newsHandler.GetNewsByID";
    handle GET news "/search" "newsHandler.SearchNews";
    handle GET news "/hot" "newsHandler.GetHotNews";
    handle GET news "/title" "newsHandler.GetNewsByTitle";
    handle GET news "/category/:category" "newsHandler.GetNewsByCategory";
    handle GET news "/unlinked" "newsHandler.GetUnlinkedNews";
    handle GET news "/event/:event_id" "newsHandler.GetNewsByEventID";
    handle POST authNews "" "newsHandler.CreateNews";
    handle PUT authNews "/:id" "newsHandler.UpdateNews";
    handle DELETE authNews "/:id" "newsHandler.DeleteNews";
    handle PUT authNews "/event-association"
           "newsHandler.UpdateNewsEventAssociation";
    handle GET events "" "eventHandler.GetEvents";
    handle GET events "/hot" "eventHandler.GetHotEvents";
    handle GET events "/trending" "eventHandler.GetTrendingEvents";
    handle GET events "/categories" "eventHandler.GetEventCategories";
    handle GET events "/category/:category"
           "eventHandler.GetEventsByCategory";
    handle GET events "/tags" "eventHandler.GetPopularTags";
    handle GET events "/:id" "eventHandler.GetEvent";
    handle GET events "/:id/news" "eventHandler.GetNewsByEventID";
    handle GET events "/:id/stats" "eventHandler.GetEventStats";
    handle GET events "/status/:status" "eventHandler.GetEventsByStatus";
    handle POST events "/:id/view" "eventHandler.IncrementViewCount";
    handle POST events "/:id/share" "eventHandler.ShareEvent";
    handle POST authEvents "" "eventHandler.CreateEvent";
    handle PUT authEvents "/:id" "eventHandler.UpdateEvent";
    handle DELETE authEvents "/:id" "eventHandler.DeleteEvent";
    handle POST authEvents "/:id/like" "eventHandler.LikeEvent";
    handle POST authEvents "/:id/comment" "eventHandler.AddComment";
    handle PUT adminEvents "/:id/tags" "eventHandler.UpdateEventTags";
    handle POST adminEvents "/generate"
           "eventHandler.GenerateEventsFromNews";
    handle PUT systemEvents "/:id/hotness"
           "eventHandler.UpdateEventHotness";
    handle GET rss "/news" "rssHandler.GetNews";
    handle GET rss "/news/hot" "rssHandler.GetHotNews";
    handle GET rss "/news/latest" "rssHandler.GetLatestNews";
    handle GET rss "/news/category/:category"
           "rssHandler.GetNewsByCategory";
    handle GET rss "/news/:id" "rssHandler.GetNewsItem";
    handle GET adminRSS "/sources" "rssHandler.GetRSSSources";
    handle POST adminRSS "/sources" "rssHandler.CreateRSSSource";
    handle PUT adminRSS "/sources/:id" "rssHandler.UpdateRSSSource";
    handle DELETE adminRSS "/sources/:id" "rssHandler.DeleteRSSSource";
    handle POST adminRSS "/sources/:id/fetch" "rssHandler.FetchRSSFeed";
    handle POST adminRSS "/fetch-all" "rssHandler.FetchAllRSSFeeds";
    handle GET admin "/stats" "adminHandler.GetSystemStats";
    handle GET users "" "adminHandler.GetAllUsers";
    handle GET users "/active" "userHandler.GetActiveUsers";
    handle GET users "/:id" "adminHandler.GetUserByID";
    handle PUT users "/:id" "adminHandler.UpdateUser";
    handle DELETE users "/:id" "adminHandler.DeleteUser";
    handle PUT users "/:id/role" "userHandler.UpdateUserRole";
    handle PUT users "/:id/status" "userHandler.UpdateUserStatus";
    handle GET adminEventsGroup "" "adminHandler.GetAllEvents";
    handle PUT adminEventsGroup "/:id" "adminHandler.UpdateEvent";
    handle DELETE adminEventsGroup "/:id" "adminHandler.DeleteEvent";
    handle GET adminNews "" "adminHandler.GetAllNews";
    handle PUT adminNews "/:id" "adminHandler.UpdateNews";
    handle DELETE adminNews "/:id" "adminHandler.DeleteNews";
    handle GET rssAdmin "" "adminHandler.GetAllRSSSources";
    handle POST rssAdmin "" "adminHandler.CreateRSSSource";
    handle PUT rssAdmin "/:id" "adminHandler.UpdateRSSSource";
    handle DELETE rssAdmin "/:id" "adminHandler.DeleteRSSSource";
    handle POST rssAdmin "/:id/fetch" "adminHandler.FetchRSSFeed";
    handle POST rssAdmin "/fetch-all" "adminHandler.FetchAllRSSFeeds";
    handle PUT systemUsers "/:id/role" "userHandler.UpdateUserRole" ].

Definition Method_eqb (a b : Method) : bool :=
  match a, b with
  | GET, GET | POST, POST | PUT, PUT | DELETE, DELETE => true
  | _, _ => false
  end.

Definition is_auth (m : Middleware) : bool :=
  match m with
  | AuthMiddleware => true
  | _ => false
  end.

Definition is_role_check (m : Middleware) : bool :=
  match m with
  | RoleMiddleware _ | RequireSystemOrAdmin | AdminAuthMiddleware => true
  | _ => false
  end.

(** The route is registered under the same method and path as [r]. *)
Definition same_endpoint (r r' : Route) : bool :=
  Method_eqb (route_method r) (route_method r')
  && String.eqb (route_path r) (route_path r').

(** The middlewares of a route up to, not including, the first role
    check. *)
Fixpoint before_role_check (chain : list Middleware) : list Middleware :=
  match chain with
  | [] => []
  | m :: rest => if is_role_check m then [] else m :: before_role_check rest
  end.

(** ** More observations on a run *)

(** The record comes from an element of the file. *)
Definition from_file (items : list NewsJSONData) (n : News) : Prop :=
  exists d t, In d items /\ n = toNews d t.

(** The elements a world holds under a path, none when the file is
    unreadable or malformed. *)
Definition items_of (w : World) (path : string) : list NewsJSONData :=
  match files w path with
  | NewsItems items => items
  | _ => []
  end.

(** No stored row has the GUID or the link of [n]. *)
Definition fresh (stored : list News) (n : News) : Prop :=
  forall r, In r stored -> GUID r <> GUID n /\ Link r <> Link n.

(** Each batch holds only records that are fresh with respect to the
    rows stored before it: the initial rows and the earlier batches. *)
Fixpoint cross_fresh (stored : list News) (bs : list (list News)) : Prop :=
  match bs with
  | [] => True
  | b :: rest => Forall (fresh stored) b /\ cross_fresh (stored ++ b) rest
  end.

Module Fixture.

Definition item_service : NewsItemService unit unit :=
  mkNewsItemService unit unit
                    (fun _ _ => Failed "unused")
                    (fun n => if n =? 7 then Done (Sample.stored "g" "l")
                              else Failed "news not found")
                    (fun n _ => Done n)
                    (fun _ => None)
                    (fun _ => Done [])
                    (fun _ _ => None)
                    (fun _ => Done []).

Definition with_param (key value : string) : gin.Context :=
  gin.mkContext [] [(key, value)].

Definition account (name email : string) : User :=
  mkUser name email "x" "user" "active".

(** A world with the given accounts and RSS sources and no news. *)
Definition world (accounts : list User) (sources : list RSSSource)
           (plan : nat -> option nat) (file : FileContent) : World :=
  mkWorld [] accounts sources plan 0 [] []
          (fun p => if String.eqb p Sample.path then file else Unreadable)
          (fun _ => "") 1700000000.

End Fixture.

(** * Properties *)

(** ** Pagination *)

Section Pagination.

Variable R : Type.
Variable ToResponse : News -> R.
Variable svc : NewsService.

Lemma page_of_query (c : gin.Context) :
  match strconv.Atoi (gin.DefaultQuery c "page" "1") with
  | Some page => if page <? 1 then 1 else page
  | None => 1
  end = page_policy (param_of c "page").
Proof.
  unfold gin.DefaultQuery, param_of.
  destruct (gin.lookup "page" (gin.query c)) as [v|]; [|reflexivity].
  destruct (strconv.Atoi v) as [n|]; [|reflexivity].
  unfold page_policy.
  destruct (Z.ltb_spec n 1), (Z.leb_spec 1 n); lia || reflexivity.
Qed.

Lemma size_of_query (c : gin.Context) :
  match strconv.Atoi (gin.DefaultQuery c "size" "10") with
  | Some size => if (size <? 1) || (100 <? size) then 10 else size
  | None => 10
  end = size_policy (param_of c "size").
Proof.
  unfold gin.DefaultQuery, param_of.
  destruct (gin.lookup "size" (gin.query c)) as [v|]; [|reflexivity].
  destruct (strconv.Atoi v) as [n|]; [|reflexivity].
  unfold size_policy.
  destruct (Z.ltb_spec n 1), (Z.ltb_spec 100 n), (Z.leb_spec 1 n),
    (Z.leb_spec n 100); simpl; lia || reflexivity.
Qed.

Lemma limit_of_query (c : gin.Context) :
  match strconv.Atoi (gin.DefaultQuery c "limit" "10") with
  | Some limit => if (limit <=? 0) || (100 <? limit) then 10 else limit
  | None => 10
  end = limit_policy (param_of c "limit").
Proof.
  unfold gin.DefaultQuery, param_of.
  destruct (gin.lookup "limit" (gin.query c)) as [v|]; [|reflexivity].
  destruct (strconv.Atoi v) as [n|]; reflexivity.
Qed.

Lemma GetAllNews_policy (c : gin.Context) :
  GetAllNews R ToResponse svc c =
  paginated ToResponse (svc_GetAllNews svc)
            (page_policy (param_of c "page"))
            (size_policy (param_of c "size")).
Proof.
  unfold GetAllNews; cbv zeta.
  rewrite page_of_query, size_of_query. reflexivity.
Qed.

Lemma SearchNews_policy (c : gin.Context) :
  SearchNews R ToResponse svc c =
  if String.eqb (gin.Query c "query") ""
  then BadRequest "Search query cannot be empty"
  else paginated ToResponse (svc_SearchNews svc (gin.Query c "query"))
                 (page_policy (param_of c "page"))
                 (size_policy (param_of c "size")).
Proof.
  unfold SearchNews; cbv zeta.
  rewrite page_of_query, size_of_query. reflexivity.
Qed.

Lemma GetNewsByCategory_policy (c : gin.Context) :
  GetNewsByCategory R ToResponse svc c =
  if String.eqb (gin.Param c "category") ""
  then BadRequest "Category is required"
  else paginated ToResponse
                 (svc_GetNewsByCategory svc (gin.Param c "category"))
                 (page_policy (param_of c "page"))
                 (size_policy (param_of c "size")).
Proof.
  unfold GetNewsByCategory; cbv zeta.
  rewrite page_of_query, size_of_query. reflexivity.
Qed.

Lemma GetUnlinkedNews_policy (c : gin.Context) :
  GetUnlinkedNews R ToResponse svc c =
  paginated ToResponse (svc_GetUnlinkedNews svc)
            (page_policy (param_of c "page"))
            (size_policy (param_of c "size")).
Proof.
  unfold GetUnlinkedNews; cbv zeta.
  rewrite page_of_query, size_of_query. reflexivity.
Qed.

Lemma GetHotNews_policy (c : gin.Context) :
  GetHotNews R ToResponse svc c =
  match svc_GetHotNews svc (limit_policy (param_of c "limit")) with
  | Err err => InternalServerError err
  | Ok newsList => Success (map ToResponse newsList)
  end.
Proof.
  unfold GetHotNews; cbv zeta.
  rewrite limit_of_query. reflexivity.
Qed.

End Pagination.

Lemma param_of_with_query_same (k v : string) (c : gin.Context) :
  param_of (with_query k v c) k =
  match strconv.Atoi v with
  | None => NotNumeric
  | Some n => Number n
  end.
Proof.
  unfold param_of, with_query; cbn [gin.query gin.lookup].
  rewrite String.eqb_refl. reflexivity.
Qed.

Lemma param_of_with_query_other (k v k' : string) (c : gin.Context) :
  String.eqb k k' = false ->
  param_of (with_query k v c) k' = param_of c k'.
Proof.
  intros H. unfold param_of, with_query; cbn [gin.query gin.lookup].
  rewrite H. reflexivity.
Qed.

Lemma Query_with_query_other (k v k' : string) (c : gin.Context) :
  String.eqb k k' = false ->
  gin.Query (with_query k v c) k' = gin.Query c k'.
Proof.
  intros H. unfold gin.Query, with_query; cbn [gin.query gin.lookup].
  rewrite H. reflexivity.
Qed.

Lemma Param_with_query (k v k' : string) (c : gin.Context) :
  gin.Param (with_query k v c) k' = gin.Param c k'.
Proof. reflexivity. Qed.

(** The four paginated handlers answer a request exactly as they answer
    it with [page] and [size] replaced by the values of the policy. *)
Ltac same_policy :=
  rewrite ?GetAllNews_policy, ?SearchNews_policy, ?GetNewsByCategory_policy,
    ?GetUnlinkedNews_policy;
  rewrite ?Param_with_query;
  rewrite ?param_of_with_query_same;
  rewrite ?param_of_with_query_other by reflexivity;
  rewrite ?Query_with_query_other by reflexivity;
  reflexivity.

(** C8. Every listing, search, category and unlinked-news handler calls
    its service with the page of the policy (1 when the parameter is
    absent, not a number or below 1) and the size of the policy (10 when
    the parameter is absent, not a number or outside 1..100), and reports
    the same page and size; so [page=0] is answered as [page=1], and
    [size=500] and [size=-1] as [size=10]. *)
Theorem pagination_clamp :
  forall (R : Type) (ToResponse : News -> R) (svc : NewsService)
         (c : gin.Context),
    let page := page_policy (param_of c "page") in
    let size := size_policy (param_of c "size") in
    (GetAllNews R ToResponse svc c =
       paginated ToResponse (svc_GetAllNews svc) page size
     /\ SearchNews R ToResponse svc c =
        (if String.eqb (gin.Query c "query") ""
         then BadRequest "Search query cannot be empty"
         else paginated ToResponse
                (svc_SearchNews svc (gin.Query c "query")) page size)
     /\ GetNewsByCategory R ToResponse svc c =
        (if String.eqb (gin.Param c "category") ""
         then BadRequest "Category is required"
         else paginated ToResponse
                (svc_GetNewsByCategory svc (gin.Param c "category"))
                page size)
     /\ GetUnlinkedNews R ToResponse svc c =
        paginated ToResponse (svc_GetUnlinkedNews svc) page size)
    /\ (page_policy Absent = 1 /\ page_policy NotNumeric = 1
        /\ (forall n, page_policy (Number n) = if n <? 1 then 1 else n)
        /\ size_policy Absent = 10 /\ size_policy NotNumeric = 10
        /\ (forall n, size_policy (Number n) =
                      if (n <? 1) || (100 <? n) then 10 else n))
    /\ Forall
         (fun h : gin.Context -> Response R =>
            h (with_query "page" "0" c) = h (with_query "page" "1" c)
            /\ h (with_query "size" "500" c) = h (with_query "size" "10" c)
            /\ h (with_query "size" "-1" c) = h (with_query "size" "10" c))
         (listing_handlers R ToResponse svc).
Proof.
  intros R ToResponse svc c page size. subst page size.
  split; [|split].
  - repeat split.
    + apply GetAllNews_policy.
    + apply SearchNews_policy.
    + apply GetNewsByCategory_policy.
    + apply GetUnlinkedNews_policy.
  - repeat split; intros n; cbn [page_policy size_policy].
    + destruct (Z.ltb_spec n 1), (Z.leb_spec 1 n); lia || reflexivity.
    + destruct (Z.ltb_spec n 1), (Z.ltb_spec 100 n), (Z.leb_spec 1 n),
        (Z.leb_spec n 100); simpl; lia || reflexivity.
  - unfold listing_handlers.
    repeat (constructor; [repeat split; same_policy|]). constructor.
Qed.

(** ** The hot list *)

Lemma Forall_insert_by_score (P : News -> Prop) (n : News) (l : list News) :
  P n -> Forall P l -> Forall P (insert_by_score n l).
Proof.
  intros Hn. induction 1 as [|h t Hh Ht IH]; cbn [insert_by_score].
  - auto.
  - destruct (Qle_bool (HotnessScore h) (HotnessScore n)); auto.
Qed.

Lemma insert_by_score_sorted (n : News) (l : list News) :
  StronglySorted score_desc l ->
  StronglySorted score_desc (insert_by_score n l).
Proof.
  induction 1 as [|h t Hs IH Hh]; cbn [insert_by_score].
  - repeat constructor.
  - destruct (Qle_bool (HotnessScore h) (HotnessScore n)) eqn:E.
    + apply Qle_bool_iff in E.
      constructor; [constructor; assumption|].
      constructor; [exact E|].
      eapply Forall_impl; [|exact Hh].
      intros r Hr. unfold score_desc in *. eapply Qle_trans; eassumption.
    + constructor; [exact IH|].
      apply Forall_insert_by_score; [|exact Hh].
      unfold score_desc. apply Qlt_le_weak, Qnot_le_lt.
      intros H. apply Qle_bool_iff in H. congruence.
Qed.

Lemma sort_by_score_sorted (rows : list News) :
  StronglySorted score_desc (sort_by_score rows).
Proof.
  induction rows as [|r rows IH]; cbn; [constructor|].
  apply insert_by_score_sorted, IH.
Qed.

Lemma In_insert_by_score (r n : News) (l : list News) :
  In r (insert_by_score n l) -> r = n \/ In r l.
Proof.
  induction l as [|h t IH]; cbn [insert_by_score In].
  - intuition.
  - destruct (Qle_bool (HotnessScore h) (HotnessScore n)); cbn [In];
      intuition.
Qed.

Lemma In_sort_by_score (r : News) (rows : list News) :
  In r (sort_by_score rows) -> In r rows.
Proof.
  induction rows as [|h t IH]; cbn; [tauto|].
  intros H. apply In_insert_by_score in H. intuition.
Qed.

Lemma length_insert_by_score (n : News) (l : list News) :
  List.length (insert_by_score n l) = S (List.length l).
Proof.
  induction l as [|h t IH]; cbn [insert_by_score]; [reflexivity|].
  destruct (Qle_bool (HotnessScore h) (HotnessScore n)); cbn; congruence.
Qed.

Lemma length_sort_by_score (rows : list News) :
  List.length (sort_by_score rows) = List.length rows.
Proof.
  induction rows as [|h t IH]; [reflexivity|].
  change (sort_by_score (h :: t)) with (insert_by_score h (sort_by_score t)).
  rewrite length_insert_by_score, IH. reflexivity.
Qed.

(** Rows of equal score keep the order they have in the store. *)
Lemma filter_insert_by_score (v : Q) (n : News) (l : list News) :
  filter (has_score v) (insert_by_score n l) =
  filter (has_score v) (n :: l).
Proof.
  induction l as [|h t IH]; cbn [insert_by_score]; [reflexivity|].
  destruct (Qle_bool (HotnessScore h) (HotnessScore n)) eqn:E;
    [reflexivity|].
  cbn [filter] in *. rewrite IH.
  destruct (has_score v n) eqn:En, (has_score v h) eqn:Eh; try reflexivity.
  exfalso. unfold has_score in *.
  apply Qeq_bool_iff in En, Eh.
  assert (H : Qle_bool (HotnessScore h) (HotnessScore n) = true).
  { apply Qle_bool_iff. rewrite En, Eh. apply Qle_refl. }
  congruence.
Qed.

Lemma sort_by_score_stable (v : Q) (rows : list News) :
  filter (has_score v) (sort_by_score rows) = filter (has_score v) rows.
Proof.
  induction rows as [|h t IH]; cbn [sort_by_score fold_right];
    [reflexivity|].
  rewrite filter_insert_by_score. cbn [filter].
  fold (sort_by_score t). rewrite IH. reflexivity.
Qed.

Lemma firstn_StronglySorted {A : Type} (R : A -> A -> Prop) (n : nat)
      (l : list A) :
  StronglySorted R l -> StronglySorted R (firstn n l).
Proof.
  intros H. revert n.
  induction H as [|h t Hs IH Hh]; intros [|n]; cbn; try constructor.
  - apply IH.
  - apply Forall_forall. intros x Hx.
    rewrite Forall_forall in Hh. apply Hh.
    rewrite <- (firstn_skipn n t). apply in_or_app. left. exact Hx.
Qed.

Lemma invalid_limit_policy (p : Param) :
  invalid_limit p -> limit_policy p = 10.
Proof.
  destruct p as [| |n]; cbn; try reflexivity.
  intros H.
  destruct (Z.leb_spec n 0), (Z.ltb_spec 100 n); cbn; lia || reflexivity.
Qed.

(** C9. When the [limit] parameter is absent, not a number, at most 0 or
    above 100, the hot-news handler asks its service for 10 records; with
    the hot list of the specification it answers with at most 10 stored
    rows, the first 10 of the rows in descending order of hotness, rows
    of equal score in store order. *)
Theorem hot_news_limit :
  forall (R : Type) (ToResponse : News -> R) (base : NewsService)
         (rows : list News) (c : gin.Context),
    invalid_limit (param_of c "limit") ->
    (forall svc : NewsService,
        GetHotNews R ToResponse svc c =
        match svc_GetHotNews svc 10 with
        | Err err => InternalServerError err
        | Ok newsList => Success (map ToResponse newsList)
        end)
    /\ exists hot : list News,
        GetHotNews R ToResponse (with_hot_list rows base) c =
        Success (map ToResponse hot)
        /\ hot = firstn 10 (sort_by_score rows)
        /\ (List.length hot <= 10)%nat
        /\ StronglySorted score_desc hot
        /\ (forall r, In r hot -> In r rows)
        /\ (forall v, filter (has_score v) (sort_by_score rows) =
                      filter (has_score v) rows).
Proof.
  intros R ToResponse base rows c H.
  apply invalid_limit_policy in H.
  split.
  - intros svc. rewrite GetHotNews_policy, H. reflexivity.
  - exists (firstn 10 (sort_by_score rows)).
    split; [|split; [|split; [|split; [|split]]]].
    + rewrite GetHotNews_policy, H. reflexivity.
    + reflexivity.
    + apply firstn_le_length.
    + apply firstn_StronglySorted, sort_by_score_sorted.
    + intros r Hr. apply In_sort_by_score.
      rewrite <- (firstn_skipn 10 (sort_by_score rows)).
      apply in_or_app. left. exact Hr.
    + intros v. apply sort_by_score_stable.
Qed.

Lemma hot_news_limit_witness :
  invalid_limit (param_of (Sample.request "limit" "1000") "limit")
  /\ exists hot : list News,
      GetHotNews News (fun r => r)
        (with_hot_list [Sample.scored "a" (1 # 2); Sample.scored "b" (3 # 1)]
                       Sample.idle_service)
        (Sample.request "limit" "1000") = Success (map (fun r => r) hot)
      /\ (List.length hot <= 10)%nat.
Proof.
  assert (H : invalid_limit (param_of (Sample.request "limit" "1000") "limit")).
  { vm_compute. right. reflexivity. }
  split; [exact H|].
  destruct (hot_news_limit News (fun r => r) Sample.idle_service
              [Sample.scored "a" (1 # 2); Sample.scored "b" (3 # 1)]
              (Sample.request "limit" "1000") H) as [_ [hot [E [_ [L _]]]]].
  exists hot. split; assumption.
Defined.

(** ** The batch writer *)

Lemma slices_fuel_enough {A : Type} (size : nat) :
  (0 < size)%nat ->
  forall (fuel fuel' : nat) (l : list A),
    (List.length l <= fuel)%nat -> (List.length l <= fuel')%nat ->
    gorm.slices_fuel fuel size l = gorm.slices_fuel fuel' size l.
Proof.
  intros Hs. induction fuel as [|fuel IH]; intros fuel' l H H'.
  - destruct l; [|cbn in H; lia]. destruct fuel'; reflexivity.
  - destruct l as [|x l]; [destruct fuel'; reflexivity|].
    destruct fuel' as [|fuel']; [cbn in H'; lia|].
    cbn [gorm.slices_fuel]. f_equal.
    apply IH; rewrite length_skipn; cbn [List.length] in *; lia.
Qed.

(** The sub-slices, by the equation of the loop that walks them. *)
Lemma slices_step {A : Type} (size : nat) (l : list A) :
  (0 < size)%nat -> l <> [] ->
  gorm.slices size l = firstn size l :: gorm.slices size (skipn size l).
Proof.
  intros Hs Hl. unfold gorm.slices.
  destruct l as [|x l]; [congruence|].
  cbn [List.length gorm.slices_fuel]. f_equal.
  apply slices_fuel_enough; [exact Hs| |lia].
  rewrite length_skipn. cbn [List.length]. lia.
Qed.

Lemma slices_nil {A : Type} (size : nat) : gorm.slices size (@nil A) = [].
Proof. reflexivity. Qed.

Lemma slices_full {A : Type} (size : nat) (b rest : list A) :
  (0 < size)%nat -> List.length b = size ->
  gorm.slices size (b ++ rest) = b :: gorm.slices size rest.
Proof.
  intros Hs Hb. subst size. rewrite slices_step; [|exact Hs|].
  - rewrite firstn_app, skipn_app, Nat.sub_diag, firstn_all, skipn_all.
    cbn. rewrite app_nil_r. reflexivity.
  - destruct b; [cbn in Hs; lia|discriminate].
Qed.

Lemma slices_short {A : Type} (size : nat) (l : list A) :
  l <> [] -> (List.length l <= size)%nat -> gorm.slices size l = [l].
Proof.
  intros Hl H. rewrite slices_step; [| |exact Hl].
  - rewrite firstn_all2, skipn_all2 by exact H. reflexivity.
  - destruct l; [congruence|cbn in H; lia].
Qed.

Lemma list_length_ind {A : Type} (P : list A -> Prop) :
  (forall l, (forall l', (List.length l' < List.length l)%nat -> P l') -> P l) ->
  forall l, P l.
Proof.
  intros H l. apply (induction_ltof1 _ (@List.length A)).
  unfold ltof. exact H.
Qed.

Lemma slices_concat {A : Type} (size : nat) (l : list A) :
  (0 < size)%nat -> List.concat (gorm.slices size l) = l.
Proof.
  intros Hs.
  induction l as [l IH] using list_length_ind.
  destruct l as [|x l]; [reflexivity|].
  rewrite slices_step by (exact Hs || discriminate).
  cbn [List.concat]. rewrite IH.
  - apply firstn_skipn.
  - rewrite length_skipn. cbn [List.length]. lia.
Qed.

Lemma slices_bounded {A : Type} (size : nat) (l : list A) :
  (0 < size)%nat ->
  Forall (fun c => (0 < List.length c <= size)%nat) (gorm.slices size l).
Proof.
  intros Hs.
  induction l as [l IH] using list_length_ind.
  destruct l as [|x l]; [constructor|].
  rewrite slices_step by (exact Hs || discriminate).
  constructor.
  - rewrite length_firstn. cbn [List.length]. lia.
  - apply IH. rewrite length_skipn. cbn [List.length]. lia.
Qed.

Lemma create_each_ok (chunks : list (list News)) :
  forall w : World,
    (forall k, (k < List.length chunks)%nat -> fault w (ops w + k) = None) ->
    gorm.create_each chunks w =
    (None, set_news (news_table w ++ List.concat chunks)
                    (advance (List.length chunks)
                             (map EvCreateNews chunks) w)).
Proof.
  induction chunks as [|c rest IH]; intros w H.
  - destruct w. unfold set_news, advance. cbn.
    rewrite !app_nil_r, Nat.add_0_r. reflexivity.
  - cbn [gorm.create_each]. unfold issue.
    pose proof (H 0%nat ltac:(cbn; lia)) as H0.
    rewrite Nat.add_0_r in H0. rewrite H0.
    rewrite IH.
    + destruct w. unfold set_news, advance. cbn.
      rewrite <- !app_assoc. cbn. repeat f_equal. lia.
    + intros k Hk. destruct w. cbn in *.
      specialize (H (S k) ltac:(lia)).
      rewrite Nat.add_succ_r in H. exact H.
Qed.

Lemma create_each_inv (chunks : list (list News)) :
  forall w w' : World,
    gorm.create_each chunks w = (None, w') ->
    forall k, (k < List.length chunks)%nat -> fault w (ops w + k) = None.
Proof.
  induction chunks as [|c rest IH]; intros w w' E k Hk.
  - cbn in Hk. lia.
  - cbn [gorm.create_each] in E. unfold issue in E.
    destruct (fault w (ops w)) eqn:F; [discriminate|].
    destruct k as [|k]; [rewrite Nat.add_0_r; exact F|].
    specialize (IH _ _ E k ltac:(cbn in Hk; lia)).
    destruct w. cbn in *. rewrite Nat.add_succ_r. exact IH.
Qed.

Lemma create_each_err (chunks : list (list News)) :
  forall (w w' : World) (e : error),
    gorm.create_each chunks w = (Some e, w') ->
    exists k c, (k < List.length chunks)%nat
                /\ fault w (ops w + k) = Some c /\ e = storage_fault c.
Proof.
  induction chunks as [|c rest IH]; intros w w' e E.
  - discriminate.
  - cbn [gorm.create_each] in E. unfold issue in E.
    destruct (fault w (ops w)) as [code|] eqn:F.
    + injection E as <- _. exists 0%nat, code.
      rewrite Nat.add_0_r. cbn. repeat split; [lia|exact F].
    + apply IH in E. destruct E as (k & code & Hk & Hf & ->).
      exists (S k), code. destruct w. cbn in *.
      rewrite Nat.add_succ_r. repeat split; [lia|exact Hf].
Qed.

Lemma batchInsertNews_nil (w : World) : batchInsertNews [] w = (None, w).
Proof. reflexivity. Qed.

Lemma batchInsertNews_unfold (l : list News) (w : World) :
  l <> [] ->
  batchInsertNews l w = gorm.Transaction (gorm.CreateInBatches l 50) w.
Proof.
  intros Hl. unfold batchInsertNews.
  destruct l as [|x l]; [congruence|]. cbn [List.length Nat.eqb].
  unfold gorm.Transaction. destruct (issue EvBegin w) as [[c|] w1];
    [reflexivity|].
  destruct (gorm.CreateInBatches (x :: l) 50 w1) as [[e|] w2]; reflexivity.
Qed.

Lemma batchInsertNews_ok (l : list News) (w : World) :
  l <> [] ->
  (forall k, (k < List.length (gorm.slices 50 l) + 2)%nat ->
             fault w (ops w + k) = None) ->
  batchInsertNews l w =
  (None, set_news (news_table w ++ l)
                  (advance (List.length (gorm.slices 50 l) + 2)
                           (flush_events l) w)).
Proof.
  intros Hl H. rewrite batchInsertNews_unfold by exact Hl.
  unfold gorm.Transaction, gorm.CreateInBatches, issue.
  pose proof (H 0%nat ltac:(lia)) as H0. rewrite Nat.add_0_r in H0.
  rewrite H0. rewrite create_each_ok.
  - cbn [ops fault set_news advance].
    replace (S (ops w) + List.length (gorm.slices 50 l))%nat
      with (ops w + (List.length (gorm.slices 50 l) + 1))%nat by lia.
    rewrite H by lia.
    destruct w. unfold set_news, advance, flush_events. cbn.
    rewrite slices_concat by lia.
    rewrite <- !app_assoc. cbn. repeat f_equal. lia.
  - intros k Hk. cbn [fault ops].
    replace (S (ops w) + k)%nat with (ops w + S k)%nat by lia.
    apply H. lia.
Qed.

Lemma batchInsertNews_success_inv (l : list News) (w w' : World) :
  l <> [] ->
  batchInsertNews l w = (None, w') ->
  forall k, (k < List.length (gorm.slices 50 l) + 2)%nat ->
            fault w (ops w + k) = None.
Proof.
  intros Hl E. rewrite batchInsertNews_unfold in E by exact Hl.
  unfold gorm.Transaction, issue in E.
  destruct (fault w (ops w)) eqn:F0; [discriminate|].
  unfold gorm.CreateInBatches in E.
  match type of E with
  | context [gorm.create_each ?c ?w1] =>
      destruct (gorm.create_each c w1) as [[e|] w2] eqn:C
  end; [discriminate|].
  pose proof (create_each_inv _ _ _ C) as Hc.
  rewrite (create_each_ok _ _ Hc) in C. injection C as C'. subst w2.
  cbn [fault ops] in Hc.
  cbn [fault ops set_news advance] in E.
  destruct (fault w (S (ops w) + List.length (gorm.slices 50 l))) eqn:F1;
    [discriminate|].
  intros k Hk.
  destruct k as [|k]; [rewrite Nat.add_0_r; exact F0|].
  replace (ops w + S k)%nat with (S (ops w) + k)%nat by lia.
  destruct (Nat.eq_dec k (List.length (gorm.slices 50 l))) as [->|Hne].
  - exact F1.
  - apply Hc. lia.
Qed.

Lemma batchInsertNews_failure (l : list News) (w w' : World) (e : error) :
  batchInsertNews l w = (Some e, w') ->
  same_tables w w'
  /\ exists k c, (k < List.length (gorm.slices 50 l) + 2)%nat
                 /\ fault w (ops w + k) = Some c /\ e = storage_fault c.
Proof.
  intros E.
  assert (Hl : l <> []) by (intros ->; discriminate E).
  rewrite batchInsertNews_unfold in E by exact Hl.
  unfold gorm.Transaction, issue in E.
  destruct (fault w (ops w)) as [c0|] eqn:F0.
  - injection E as <- <-. split; [repeat split|].
    exists 0%nat, c0. rewrite Nat.add_0_r. repeat split; [lia|exact F0].
  - unfold gorm.CreateInBatches in E.
    match type of E with
    | context [gorm.create_each ?c ?w1] =>
        destruct (gorm.create_each c w1) as [[e1|] w2] eqn:C
    end.
    + injection E as <- <-. split; [repeat split|].
      apply create_each_err in C. destruct C as (k & c & Hk & Hf & ->).
      cbn [fault ops] in Hf. exists (S k), c.
      replace (ops w + S k)%nat with (S (ops w) + k)%nat by lia.
      repeat split; [lia|exact Hf].
    + pose proof (create_each_inv _ _ _ C) as Hc.
      rewrite (create_each_ok _ _ Hc) in C. injection C as C'. subst w2.
      cbn [fault ops] in Hc.
      cbn [fault ops set_news advance] in E.
      destruct (fault w (S (ops w) + List.length (gorm.slices 50 l)))
        as [c1|] eqn:F1; [|discriminate].
      injection E as <- <-. split; [repeat split|].
      exists (S (List.length (gorm.slices 50 l))), c1.
      replace (ops w + S (List.length (gorm.slices 50 l)))%nat
        with (S (ops w) + List.length (gorm.slices 50 l))%nat by lia.
      repeat split; [lia|exact F1].
Qed.

(** C5. The batch writer returns success on the empty list without
    touching the store.  On a non-empty list it dispatches the list to
    the insert primitive in consecutive sub-slices of 50 (the last one
    possibly shorter) inside one transaction; when every operation of
    that transaction is answered the whole list is appended and
    committed, and when any of them fails the call fails with the
    driver's error and the tables are as they were before the call. *)
Theorem batch_writer_atomic :
  forall (l : list News) (w : World),
    l <> [] ->
    batchInsertNews [] w = (None, w)
    /\ (List.concat (gorm.slices 50 l) = l
        /\ Forall (fun c => (0 < List.length c <= 50)%nat) (gorm.slices 50 l)
        /\ gorm.slices 50 l = firstn 50 l :: gorm.slices 50 (skipn 50 l))
    /\ match batchInsertNews l w with
       | (None, w') =>
           (forall k, (k < List.length (gorm.slices 50 l) + 2)%nat ->
                      fault w (ops w + k) = None)
           /\ w' = set_news (news_table w ++ l)
                            (advance (List.length (gorm.slices 50 l) + 2)
                                     (flush_events l) w)
       | (Some e, w') =>
           same_tables w w'
           /\ exists k c,
               (k < List.length (gorm.slices 50 l) + 2)%nat
               /\ fault w (ops w + k) = Some c /\ e = storage_fault c
       end.
Proof.
  intros l w Hl. split; [reflexivity|]. split.
  - split; [apply slices_concat; lia|].
    split; [apply slices_bounded; lia|].
    apply slices_step; [lia|exact Hl].
  - destruct (batchInsertNews l w) as [[e|] w'] eqn:E.
    + apply batchInsertNews_failure in E. exact E.
    + pose proof (batchInsertNews_success_inv _ _ _ Hl E) as H.
      split; [exact H|].
      rewrite (batchInsertNews_ok _ _ Hl H) in E. congruence.
Qed.

Lemma batch_writer_atomic_witness :
  Sample.stored_upto 60 <> []
  /\ same_tables
       (Sample.world [] (Sample.fault_at 2 7) [] "")
       (snd (batchInsertNews (Sample.stored_upto 60)
                             (Sample.world [] (Sample.fault_at 2 7) [] ""))).
Proof.
  split; [discriminate|].
  pose proof (batch_writer_atomic (Sample.stored_upto 60)
                (Sample.world [] (Sample.fault_at 2 7) [] "")
                ltac:(discriminate)) as (_ & _ & H).
  destruct (batchInsertNews (Sample.stored_upto 60)
              (Sample.world [] (Sample.fault_at 2 7) [] "")) as [[e|] w'].
  - exact (proj1 H).
  - destruct H as [H _]. specialize (H 2%nat).
    assert (L : (2 < List.length (gorm.slices 50 (Sample.stored_upto 60)) + 2)%nat)
      by (vm_compute; lia).
    specialize (H L). vm_compute in H. discriminate H.
Defined.

Example batch_writer_sixty :
  batchInsertNews (Sample.stored_upto 60)
                  (Sample.world [] Sample.no_fault [] "") =
  (None,
   mkWorld (Sample.stored_upto 60) [] [] Sample.no_fault 4
           [EvBegin; EvCreateNews (firstn 50 (Sample.stored_upto 60));
            EvCreateNews (skipn 50 (Sample.stored_upto 60)); EvCommit]
           [] (files (Sample.world [] Sample.no_fault [] ""))
           (environ (Sample.world [] Sample.no_fault [] "")) 1700000000).
Proof. vm_compute. reflexivity. Qed.

(** ** The import loop *)

Lemma lookup_errors_app (l l' : list LogEntry) :
  lookup_errors (l ++ l') = lookup_errors l + lookup_errors l'.
Proof.
  unfold lookup_errors. rewrite filter_app, length_app. lia.
Qed.

Lemma lookup_errors_snoc (l : list LogEntry) (x : LogEntry) :
  lookup_errors (l ++ [x]) =
  lookup_errors l + (if is_lookup_error x then 1 else 0).
Proof.
  rewrite lookup_errors_app. unfold lookup_errors at 2. cbn.
  destruct (is_lookup_error x); reflexivity.
Qed.

Lemma lookup_errors_nonneg (l : list LogEntry) : 0 <= lookup_errors l.
Proof. unfold lookup_errors. lia. Qed.

Lemma create_each_frame (chunks : list (list News)) :
  forall (w w' : World) (r : option error),
    gorm.create_each chunks w = (r, w') ->
    same_setting w w' /\ logs w' = logs w
    /\ user_table w' = user_table w /\ rss_table w' = rss_table w.
Proof.
  induction chunks as [|c rest IH]; intros w w' r E.
  - injection E as <- <-. repeat split.
  - cbn [gorm.create_each] in E. unfold issue in E.
    destruct (fault w (ops w)).
    + injection E as <- <-. repeat split.
    + apply IH in E. destruct w. exact E.
Qed.

Lemma batchInsertNews_frame (l : list News) (w w' : World)
      (r : option error) :
  batchInsertNews l w = (r, w') ->
  same_setting w w' /\ logs w' = logs w
  /\ user_table w' = user_table w /\ rss_table w' = rss_table w.
Proof.
  intros E. destruct l as [|x l]; [injection E as <- <-; repeat split|].
  remember (x :: l) as l0 eqn:El.
  rewrite batchInsertNews_unfold in E by (subst; discriminate).
  unfold gorm.Transaction, issue in E.
  destruct (fault w (ops w)); [injection E as <- <-; repeat split|].
  unfold gorm.CreateInBatches in E.
  match type of E with
  | context [gorm.create_each ?c ?w1] =>
      destruct (gorm.create_each c w1) as [[e1|] w2] eqn:C
  end; apply create_each_frame in C;
    destruct C as ((F1 & F2 & F3 & F4) & L & U & S); cbn in *.
  - injection E as <- <-. cbn. repeat split; assumption.
  - destruct (fault w2 (ops w2)); injection E as <- <-; cbn;
      repeat split; assumption.
Qed.

Section ImportLoop.

Variable X : Externals.

(** One turn of the loop, whatever the store answers: a turn that does
    not abort the import accounts for its candidate exactly once, as
    imported, as skipped or as a lookup error; a turn that aborts does
    so on a failed batch write, with the driver's error wrapped. *)
Lemma import_turn_accounts (i : Z) (d : NewsJSONData) (a : Acc)
      (w : World) :
  match import_turn X i d a w with
  | Next a' w' =>
      same_setting w w'
      /\ exists new,
          logs w' = logs w ++ new
          /\ importedCount a' + skippedCount a' + lookup_errors new =
             importedCount a + skippedCount a + 1
  | Abort e a' w' =>
      same_setting w w' /\ same_tables w w'
      /\ exists c, e = fmt_Errorf "failed to batch insert news"
                                  (storage_fault c)
  end.
Proof.
  unfold import_turn.
  set (w1 := match time_Parse X layout (j_PublishedAt d) with
             | Some _ => w
             | None => log_Printf (LogBadTime (i + 1)) w
             end).
  assert (H1 : same_setting w w1 /\ same_tables w w1
               /\ exists pre, logs w1 = logs w ++ pre
                              /\ lookup_errors pre = 0).
  { subst w1. destruct (time_Parse X layout (j_PublishedAt d)).
    - repeat split. exists []. rewrite app_nil_r. split; reflexivity.
    - repeat split. exists [LogBadTime (i + 1)]. split; reflexivity. }
  clearbody w1.
  destruct H1 as ((F1 & F2 & F3 & F4) & (T1 & T2 & T3) & pre & L1 & L0).
  unfold gorm.FirstNews, issue.
  destruct (fault w1 (ops w1)) as [c|].
  - cbn. split; [repeat split; assumption|].
    eexists. rewrite L1, <- app_assoc. split; [reflexivity|].
    rewrite lookup_errors_snoc. cbn. lia.
  - cbn [news_table].
    destruct (find _ (news_table w1)) as [r|].
    + cbn. split; [repeat split; assumption|].
      eexists. rewrite L1, <- app_assoc. split; [reflexivity|].
      rewrite lookup_errors_snoc. cbn. lia.
    + destruct (100 <=? _)%nat.
      * match goal with
        | |- context [batchInsertNews ?l ?w2] =>
            destruct (batchInsertNews l w2) as [[e|] w3] eqn:B
        end.
        -- pose proof (batchInsertNews_frame _ _ _ _ B)
             as ((G1 & G2 & G3 & G4) & L & U & S).
           apply batchInsertNews_failure in B.
           destruct B as ((B1 & B2 & B3) & k & c & _ & _ & ->).
           cbn in *. split; [|split].
           ++ repeat split; congruence.
           ++ repeat split; congruence.
           ++ exists c. reflexivity.
        -- pose proof (batchInsertNews_frame _ _ _ _ B)
             as ((G1 & G2 & G3 & G4) & L & U & S).
           cbn in *. split; [repeat split; congruence|].
           exists pre. split; [congruence|lia].
      * cbn. split; [repeat split; assumption|].
        exists pre. split; [assumption|lia].
Qed.

(** The whole loop: the counters and the lookup errors add up to the
    number of candidates. *)
Lemma import_loop_accounts (items : list NewsJSONData) :
  forall (i : Z) (a a' : Acc) (w w' : World),
    import_loop X i items a w = Next a' w' ->
    same_setting w w'
    /\ exists new,
        logs w' = logs w ++ new
        /\ importedCount a' + skippedCount a' + lookup_errors new =
           importedCount a + skippedCount a
           + Z.of_nat (List.length items).
Proof.
  induction items as [|d rest IH]; intros i a a' w w' E.
  - injection E as <- <-. split; [repeat split|].
    exists []. rewrite app_nil_r. split; [reflexivity|]. cbn. lia.
  - cbn [import_loop] in E.
    pose proof (import_turn_accounts i d a w) as T.
    destruct (import_turn X i d a w) as [a1 w1|e a1 w1]; [|discriminate].
    apply IH in E. destruct E as ((F1 & F2 & F3 & F4) & n2 & L2 & E).
    destruct T as ((G1 & G2 & G3 & G4) & n1 & L1 & T).
    split; [repeat split; congruence|].
    exists (n1 ++ n2). rewrite L2, L1, <- app_assoc.
    split; [reflexivity|].
    rewrite lookup_errors_app. cbn [List.length]. lia.
Qed.

(** A loop that aborts does so on a failed batch write. *)
Lemma import_loop_abort (items : list NewsJSONData) :
  forall (i : Z) (a a' : Acc) (w w' : World) (e : error),
    import_loop X i items a w = Abort e a' w' ->
    exists c, e = fmt_Errorf "failed to batch insert news"
                             (storage_fault c).
Proof.
  induction items as [|d rest IH]; intros i a a' w w' e E.
  - discriminate.
  - cbn [import_loop] in E.
    pose proof (import_turn_accounts i d a w) as T.
    destruct (import_turn X i d a w) as [a1 w1|e1 a1 w1].
    + eapply IH; eassumption.
    + injection E as <- _ _. apply T.
Qed.

End ImportLoop.




Lemma filter_is_write_flush (l : list News) :
  filter is_write (flush_events l) = flush_events l.
Proof.
  unfold flush_events. cbn. f_equal.
  rewrite filter_app. cbn. f_equal.
  induction (gorm.slices 50 l) as [|c rest IH]; cbn; [reflexivity|].
  rewrite IH. reflexivity.
Qed.

Lemma snoc_not_nil {A : Type} (l : list A) (x : A) : l ++ [x] <> [].
Proof. destruct l; discriminate. Qed.

Section FreshImport.

Variable X : Externals.

(** A turn on a candidate the store does not know, with a store that
    answers every operation: the record joins the buffer, and the
    buffer is written and emptied when it has reached 100 records. *)
Lemma import_turn_fresh (i : Z) (d : NewsJSONData) (a : Acc) (w : World) :
  (forall n, fault w n = None) ->
  find (gorm.same_identity (j_GUID d) (j_Link d)) (news_table w) = None ->
  let buf := newsList a ++ [toNews d (publishedAt_of X d w)] in
  let full := (100 <=? List.length buf)%nat in
  exists w',
    import_turn X i d a w =
    Next (mkAcc (if full then [] else buf) (importedCount a + 1)
                (skippedCount a)) w'
    /\ news_table w' = (if full then news_table w ++ buf else news_table w)
    /\ filter is_write (trace w') =
       filter is_write (trace w) ++ (if full then flush_events buf else [])
    /\ same_setting w w'
    /\ user_table w' = user_table w /\ rss_table w' = rss_table w.
Proof.
  intros H F buf full. subst buf full.
  unfold import_turn, gorm.FirstNews, issue.
  destruct (time_Parse X layout (j_PublishedAt d)) eqn:P;
    cbn [fault ops news_table log_Printf]; rewrite H, F;
    destruct (100 <=? _)%nat.
  all: try (rewrite batchInsertNews_ok;
            [|apply snoc_not_nil|intros; apply H]).
  all: eexists; split; [reflexivity|]; cbn -[flush_events];
    rewrite ?filter_app, ?filter_is_write_flush; cbn -[flush_events];
    rewrite ?app_nil_r; repeat split.
Qed.



End FreshImport.

Lemma slices_of_batches {A : Type} (n : nat) (bs : list (list A))
      (rest : list A) :
  (0 < n)%nat ->
  Forall (fun b => List.length b = n) bs ->
  (List.length rest < n)%nat ->
  gorm.slices n (List.concat bs ++ rest) =
  bs ++ match rest with
        | [] => []
        | _ => [rest]
        end.
Proof.
  intros Hn HB Hr. induction HB as [|b bs Hb HB IH].
  - cbn [List.concat app]. destruct rest as [|x rest]; [reflexivity|].
    apply slices_short; [discriminate|lia].
  - cbn [List.concat]. rewrite <- app_assoc.
    rewrite slices_full by assumption. rewrite IH. reflexivity.
Qed.

Lemma SeedNewsFromJSON_empty_store (X : Externals) (s : SeedService)
      (path : string) (w : World) (items : list NewsJSONData) :
  db s = Some gormDB ->
  fault w (ops w) = None ->
  news_table w = [] ->
  files w path = NewsItems items ->
  SeedNewsFromJSON X s path w =
  import_finish
    (import_loop X 0 items (mkAcc [] 0 0) (import_ready path items w)).
Proof.
  intros Hdb Hf Hnews Hfile.
  unfold SeedNewsFromJSON, import_finish, import_ready.
  rewrite Hdb. unfold gorm.CountNews, issue, record, log_Printf.
  destruct w as [nt ut rt f o tr lg fl en nw].
  cbn [fault ops news_table user_table rss_table trace logs files environ
       now snd] in *.
  rewrite Hf, Hnews.
  cbn [fault ops news_table user_table rss_table trace logs files environ
       now snd List.length Z.of_nat Z.ltb Z.compare].
  rewrite Hfile.
  destruct (import_loop X 0 items _ _) as [a1 w1|e a1 w1]; [|reflexivity].
  destruct (0 <? List.length (newsList a1))%nat; [|reflexivity].
  destruct (batchInsertNews (newsList a1) w1) as [[e|] w2]; reflexivity.
Qed.



(** ** The import as a whole *)

(** C1. When the store holds at least one news row (and the count query
    is answered), the import returns [nil] after the count query alone:
    the file is not read, no lookup and no write is issued, the tables
    are unchanged, and the log shows the skip with the number of rows
    instead of imported and skipped counts. *)
Theorem import_skipped_when_news_exist :
  forall (X : Externals) (s : SeedService) (path : string) (w : World),
    db s = Some gormDB ->
    fault w (ops w) = None ->
    news_table w <> [] ->
    exists w',
      SeedNewsFromJSON X s path w = (None, w')
      /\ same_tables w w'
      /\ trace w' = trace w ++ [EvCountNews]
      /\ ops w' = S (ops w)
      /\ logs w' =
         logs w ++ [LogImportStart path;
                    LogImportSkipped (Z.of_nat (List.length (news_table w)))]
      /\ lookup_errors (logs w') = lookup_errors (logs w)
      /\ List.length (news_table w') = List.length (news_table w).
Proof.
  intros X s path w Hdb Hf Hnews.
  unfold SeedNewsFromJSON. rewrite Hdb.
  unfold gorm.CountNews, issue, log_Printf.
  destruct w as [nt ut rt f o tr lg fl en nw].
  cbn [fault ops news_table user_table rss_table trace logs files environ
       now] in *.
  rewrite Hf. destruct nt as [|r nt]; [congruence|].
  cbn [List.length Z.of_nat Z.ltb Z.compare].
  eexists. split; [reflexivity|]. cbn.
  rewrite <- app_assoc. repeat split.
  rewrite lookup_errors_app. cbn. lia.
Qed.

Lemma import_skipped_when_news_exist_witness :
  (db Sample.service = Some gormDB
   /\ news_table (Sample.world [Sample.stored "g1" "http://a"]
                               Sample.no_fault
                               [Sample.candidate "g2" "http://b"] "") <> [])
  /\ exists w',
      SeedNewsFromJSON Sample.externals Sample.service Sample.path
        (Sample.world [Sample.stored "g1" "http://a"] Sample.no_fault
                      [Sample.candidate "g2" "http://b"] "") = (None, w')
      /\ news_table w' = [Sample.stored "g1" "http://a"]
      /\ trace w' = [EvCountNews].
Proof.
  split; [split; [reflexivity|discriminate]|].
  destruct (import_skipped_when_news_exist Sample.externals Sample.service
              Sample.path
              (Sample.world [Sample.stored "g1" "http://a"] Sample.no_fault
                            [Sample.candidate "g2" "http://b"] "")
              eq_refl eq_refl ltac:(discriminate))
    as (w' & E & (T & _) & Tr & _).
  exists w'. repeat split; assumption.
Defined.

(** What the claim of the two-candidate example says does not hold: on
    the empty store, with every operation answered, the run on the two
    candidates with the same GUID reports two imported and none skipped,
    and both rows are stored. *)
Lemma same_guid_pair_counterexample :
  fst (SeedNewsFromJSON Sample.externals Sample.service Sample.path
         (Sample.world [] Sample.no_fault
            [Sample.candidate "g1" "http://a";
             Sample.candidate "g1" "http://b"] "")) = None
  /\ In (LogImportDone 2 0)
        (logs (snd (SeedNewsFromJSON Sample.externals Sample.service
                      Sample.path
                      (Sample.world [] Sample.no_fault
                         [Sample.candidate "g1" "http://a";
                          Sample.candidate "g1" "http://b"] ""))))
  /\ ~ In (LogImportDone 1 1)
          (logs (snd (SeedNewsFromJSON Sample.externals Sample.service
                        Sample.path
                        (Sample.world [] Sample.no_fault
                           [Sample.candidate "g1" "http://a";
                            Sample.candidate "g1" "http://b"] ""))))
  /\ map GUID
         (news_table (snd (SeedNewsFromJSON Sample.externals Sample.service
                             Sample.path
                             (Sample.world [] Sample.no_fault
                                [Sample.candidate "g1" "http://a";
                                 Sample.candidate "g1" "http://b"] ""))))
     = ["g1"; "g1"].
Proof.
  vm_compute. repeat split.
  - do 2 right. left. reflexivity.
  - intros H. repeat (destruct H as [H|H]; [discriminate H|]). exact H.
Qed.

(** C2, as the code has it.  The duplicate lookup consults the stored
    rows only, and the buffer is not written before it holds 100 records
    or the candidates are exhausted: on the empty store, with every
    operation answered, two candidates are both accepted whatever their
    GUIDs and links, the run reports two imported and none skipped, and
    both records are stored by one write at the end. *)
Theorem pair_on_empty_store_both_imported :
  forall (X : Externals) (s : SeedService) (path : string) (w : World)
         (d1 d2 : NewsJSONData),
    db s = Some gormDB ->
    (forall n, fault w n = None) ->
    news_table w = [] ->
    files w path = NewsItems [d1; d2] ->
    exists w',
      SeedNewsFromJSON X s path w = (None, w')
      /\ news_table w' = [toNews d1 (publishedAt_of X d1 w);
                          toNews d2 (publishedAt_of X d2 w)]
      /\ filter is_write (trace w') =
         filter is_write (trace w)
         ++ flush_events [toNews d1 (publishedAt_of X d1 w);
                          toNews d2 (publishedAt_of X d2 w)]
      /\ exists pre, logs w' = pre ++ [LogImportDone 2 0].
Proof.
  intros X s path w d1 d2 Hdb Hf Hnews Hfile.
  rewrite (SeedNewsFromJSON_empty_store X s path w _ Hdb (Hf _) Hnews Hfile).
  set (w0 := import_ready path [d1; d2] w).
  assert (H0 : forall n, fault w0 n = None) by (intros n; apply Hf).
  assert (N0 : news_table w0 = []) by exact Hnews.
  assert (F1 : find (gorm.same_identity (j_GUID d1) (j_Link d1))
                    (news_table w0) = None) by (rewrite N0; reflexivity).
  destruct (import_turn_fresh X 0 d1 (mkAcc [] 0 0) w0 H0 F1)
    as (w1 & E1 & T1 & W1 & (S1 & _ & _ & S4) & _).
  cbn [newsList app List.length Nat.leb importedCount skippedCount] in *.
  assert (H1 : forall n, fault w1 n = None)
    by (intros n; rewrite S1; apply H0).
  assert (F2 : find (gorm.same_identity (j_GUID d2) (j_Link d2))
                    (news_table w1) = None)
    by (rewrite T1, N0; reflexivity).
  destruct (import_turn_fresh X (0 + 1) d2
              (mkAcc [toNews d1 (publishedAt_of X d1 w0)] (0 + 1) 0)
              w1 H1 F2)
    as (w2 & E2 & T2 & W2 & (S1' & _ & _ & S4') & _).
  cbn [newsList app List.length Nat.leb importedCount skippedCount] in *.
  cbn [import_loop]. rewrite E1, E2. unfold import_finish.
  cbn [newsList List.length Nat.ltb Nat.leb importedCount skippedCount].
  rewrite batchInsertNews_ok;
    [|discriminate|intros k _; rewrite S1', S1; apply H0].
  assert (P1 : publishedAt_of X d1 w0 = publishedAt_of X d1 w)
    by reflexivity.
  assert (P2 : publishedAt_of X d2 w1 = publishedAt_of X d2 w)
    by (unfold publishedAt_of; rewrite S4; reflexivity).
  eexists. split; [reflexivity|].
  cbn -[flush_events]. rewrite T2, T1, N0, P1, P2.
  split; [reflexivity|]. split.
  - rewrite filter_app, filter_is_write_flush, W2, W1.
    subst w0. cbn -[flush_events].
    rewrite !filter_app. cbn -[flush_events].
    rewrite !app_nil_r. reflexivity.
  - eexists. reflexivity.
Qed.

Lemma pair_on_empty_store_both_imported_witness :
  (db Sample.service = Some gormDB
   /\ files (Sample.world [] Sample.no_fault
               [Sample.candidate "g1" "http://a";
                Sample.candidate "g1" "http://b"] "") Sample.path
      = NewsItems [Sample.candidate "g1" "http://a";
                   Sample.candidate "g1" "http://b"])
  /\ exists w',
      SeedNewsFromJSON Sample.externals Sample.service Sample.path
        (Sample.world [] Sample.no_fault
           [Sample.candidate "g1" "http://a";
            Sample.candidate "g1" "http://b"] "") = (None, w')
      /\ exists pre, logs w' = pre ++ [LogImportDone 2 0].
Proof.
  split; [split; reflexivity|].
  destruct (pair_on_empty_store_both_imported Sample.externals
              Sample.service Sample.path
              (Sample.world [] Sample.no_fault
                 [Sample.candidate "g1" "http://a";
                  Sample.candidate "g1" "http://b"] "")
              (Sample.candidate "g1" "http://a")
              (Sample.candidate "g1" "http://b")
              eq_refl (fun _ => eq_refl) eq_refl eq_refl)
    as (w' & E & _ & _ & L).
  exists w'. split; assumption.
Defined.

Lemma SeedNewsFromJSON_success_inv (X : Externals) (s : SeedService)
      (path : string) (w w' : World) :
  SeedNewsFromJSON X s path w = (None, w') ->
  news_table w = [] ->
  db s = Some gormDB /\ fault w (ops w) = None.
Proof.
  unfold SeedNewsFromJSON. intros E Hnews.
  destruct (db s) as [[]|]; [|discriminate]. split; [reflexivity|].
  unfold gorm.CountNews, issue in E.
  cbn [fault ops log_Printf] in E.
  destruct (fault w (ops w)); [discriminate|reflexivity].
Qed.

(** The report of a completed import of a file into the empty store:
    imported, skipped and failed lookups add up to the number of
    candidates. *)
Lemma import_report (X : Externals) (s : SeedService) (path : string)
      (w w' : World) (items : list NewsJSONData) :
  SeedNewsFromJSON X s path w = (None, w') ->
  news_table w = [] ->
  files w path = NewsItems items ->
  exists new imported skipped,
    logs w' =
    logs w
    ++ [LogImportStart path; LogParsed (Z.of_nat (List.length items))]
    ++ new ++ [LogImportDone imported skipped]
    /\ imported + skipped + lookup_errors new
       = Z.of_nat (List.length items).
Proof.
  intros E Hnews Hfile.
  destruct (SeedNewsFromJSON_success_inv _ _ _ _ _ E Hnews) as [Hdb Hf].
  rewrite (SeedNewsFromJSON_empty_store X s path w items Hdb Hf Hnews Hfile)
    in E.
  unfold import_finish in E.
  destruct (import_loop X 0 items (mkAcc [] 0 0) (import_ready path items w))
    as [a1 w1|e a1 w1] eqn:L; [|discriminate].
  apply import_loop_accounts in L. destruct L as (_ & new & L & C).
  cbn [importedCount skippedCount] in C.
  exists new, (importedCount a1), (skippedCount a1).
  split; [|lia].
  assert (Hl : logs w1 ++ [LogImportDone (importedCount a1) (skippedCount a1)]
               = logs w
                 ++ [LogImportStart path;
                     LogParsed (Z.of_nat (List.length items))]
                 ++ new
                 ++ [LogImportDone (importedCount a1) (skippedCount a1)]).
  { rewrite L. cbn. rewrite <- !app_assoc. reflexivity. }
  destruct (0 <? List.length (newsList a1))%nat.
  - destruct (batchInsertNews (newsList a1) w1) as [[e|] w2] eqn:B;
      [discriminate|].
    apply batchInsertNews_frame in B. destruct B as (_ & B & _).
    injection E as <-. cbn. rewrite B. exact Hl.
  - injection E as <-. cbn. exact Hl.
Qed.

(** C10. A candidate whose duplicate lookup fails with a storage error
    is dropped: the turn ends with the buffer, both counters and the
    tables as they were, no write issued and the error logged, and the
    loop goes on with the next candidate.  A completed import of a file
    into the empty store reports counts that, together with the number
    of failed lookups, add up to the number of candidates: the two counts
    sum to the candidate total exactly when no lookup failed, and to
    less otherwise. *)
Theorem lookup_error_drops_candidate :
  forall (X : Externals),
    (forall (i : Z) (d : NewsJSONData) (rest : list NewsJSONData) (a : Acc)
            (w : World) (c : nat),
        fault w (ops w) = Some c ->
        exists w1,
          import_turn X i d a w = Next a w1
          /\ import_loop X i (d :: rest) a w = import_loop X (i + 1) rest a w1
          /\ same_tables w w1
          /\ filter is_write (trace w1) = filter is_write (trace w)
          /\ exists pre, logs w1 = pre ++ [LogLookupError (storage_fault c)])
    /\ (forall (s : SeedService) (path : string) (w w' : World)
               (items : list NewsJSONData),
           SeedNewsFromJSON X s path w = (None, w') ->
           news_table w = [] ->
           files w path = NewsItems items ->
           exists new imported skipped,
             logs w' =
             logs w
             ++ [LogImportStart path;
                 LogParsed (Z.of_nat (List.length items))]
             ++ new ++ [LogImportDone imported skipped]
             /\ imported + skipped + lookup_errors new
                = Z.of_nat (List.length items)
             /\ imported + skipped <= Z.of_nat (List.length items)
             /\ (imported + skipped = Z.of_nat (List.length items)
                 <-> lookup_errors new = 0)).
Proof.
  intros X. split.
  - intros i d rest a w c Hf.
    assert (E : exists w1,
               import_turn X i d a w = Next a w1
               /\ same_tables w w1
               /\ filter is_write (trace w1) = filter is_write (trace w)
               /\ exists pre,
                   logs w1 = pre ++ [LogLookupError (storage_fault c)]).
    { unfold import_turn, gorm.FirstNews, issue.
      destruct (time_Parse X layout (j_PublishedAt d));
        cbn [fault ops news_table log_Printf]; rewrite Hf;
        eexists; (split; [reflexivity|]); cbn;
        rewrite filter_app, app_nil_r; repeat split;
        eexists; reflexivity. }
    destruct E as (w1 & E & T & W & L). exists w1.
    split; [exact E|]. split; [cbn [import_loop]; rewrite E; reflexivity|].
    repeat split; try apply T; assumption.
  - intros s path w w' items E Hnews Hfile.
    destruct (import_report X s path w w' items E Hnews Hfile)
      as (new & imported & skipped & L & C).
    exists new, imported, skipped.
    pose proof (lookup_errors_nonneg new).
    repeat split; try assumption; lia.
Qed.

Lemma lookup_error_drops_candidate_witness :
  (news_table (Sample.world [] (Sample.fault_at 2 7)
                 [Sample.numbered 0; Sample.numbered 1] "") = []
   /\ files (Sample.world [] (Sample.fault_at 2 7)
               [Sample.numbered 0; Sample.numbered 1] "") Sample.path
      = NewsItems [Sample.numbered 0; Sample.numbered 1])
  /\ exists w' new imported skipped,
      SeedNewsFromJSON Sample.externals Sample.service Sample.path
        (Sample.world [] (Sample.fault_at 2 7)
           [Sample.numbered 0; Sample.numbered 1] "") = (None, w')
      /\ logs w' =
         [LogImportStart Sample.path; LogParsed 2] ++ new
         ++ [LogImportDone imported skipped]
      /\ imported + skipped + lookup_errors new = 2.
Proof.
  split; [split; reflexivity|].
  set (w := Sample.world [] (Sample.fault_at 2 7)
              [Sample.numbered 0; Sample.numbered 1] "").
  assert (E : SeedNewsFromJSON Sample.externals Sample.service Sample.path w
              = (None, snd (SeedNewsFromJSON Sample.externals Sample.service
                              Sample.path w)))
    by (vm_compute; reflexivity).
  destruct (proj2 (lookup_error_drops_candidate Sample.externals)
              Sample.service Sample.path w _
              [Sample.numbered 0; Sample.numbered 1] E eq_refl eq_refl)
    as (new & imported & skipped & L & C & _).
  exists (snd (SeedNewsFromJSON Sample.externals Sample.service
                 Sample.path w)), new, imported, skipped.
  split; [exact E|]. split; [exact L|exact C].
Defined.

(** A run of two candidates in which the second lookup fails: one
    candidate is imported, none is skipped, and the counts sum to one of
    two. *)
Example lookup_error_run :
  SeedNewsFromJSON Sample.externals Sample.service Sample.path
    (Sample.world [] (Sample.fault_at 2 7)
       [Sample.numbered 0; Sample.numbered 1] "")
  = (None,
     mkWorld [toNews (Sample.numbered 0) 1704164645] [] []
             (Sample.fault_at 2 7) 6
             [EvCountNews; EvReadFile Sample.path;
              EvFirstNews "g" "http://l/"; EvFirstNews "gi" "http://l/i";
              EvBegin; EvCreateNews [toNews (Sample.numbered 0) 1704164645];
              EvCommit]
             [LogImportStart Sample.path; LogParsed 2;
              LogLookupError (storage_fault 7); LogImportDone 1 0]
             (files (Sample.world [] Sample.no_fault
                       [Sample.numbered 0; Sample.numbered 1] ""))
             (environ (Sample.world [] Sample.no_fault [] ""))
             1700000000).
Proof. vm_compute. reflexivity. Qed.

(** A run of 101 candidates in which the last repeats the GUID of the
    first: the first hundred are written when the buffer is full, so the
    last one finds a stored row and is skipped. *)
Example duplicate_after_flush :
  exists w',
    SeedNewsFromJSON Sample.externals Sample.service Sample.path
      (Sample.world [] Sample.no_fault
         (Sample.numbered_upto 100 ++ [Sample.candidate "g" "http://other"])
         "") = (None, w')
    /\ List.length (news_table w') = 100%nat
    /\ last (logs w') LogSeedStart = LogImportDone 100 1.
Proof. eexists. vm_compute. repeat split. Qed.

(** ** Admin bootstrap *)

Lemma SeedInitialAdmin_skip (X : Externals) (s : SeedService) (w : World) :
  db s = Some gormDB ->
  fault w (ops w) = None ->
  admins w <> [] ->
  SeedInitialAdmin X s w
  = (None, log_Printf LogAdminExists (snd (issue EvCountAdmins w))).
Proof.
  intros Hdb Hf Ha. unfold SeedInitialAdmin. rewrite Hdb.
  unfold gorm.CountAdmins, issue. rewrite Hf.
  unfold admins in Ha. cbn [user_table snd].
  destruct (filter gorm.is_admin (user_table w)); [congruence|].
  reflexivity.
Qed.

(** A bootstrap that returns [nil] either found an admin and changed
    nothing, or found none and added one account with role [admin]. *)
Lemma SeedInitialAdmin_success (X : Externals) (s : SeedService)
      (w w1 : World) :
  SeedInitialAdmin X s w = (None, w1) ->
  fault w1 = fault w
  /\ news_table w1 = news_table w /\ rss_table w1 = rss_table w
  /\ ((admins w <> [] /\ user_table w1 = user_table w)
      \/ (admins w = []
          /\ exists u, user_table w1 = user_table w ++ [u]
                       /\ Role u = "admin"
                       /\ Email u = getenv_or "ADMIN_EMAIL"
                                              "admin@easypeek.com" w
                       /\ IsValidEmail X (Email u) = true)).
Proof.
  unfold SeedInitialAdmin. intros E.
  destruct (db s); [|discriminate].
  unfold gorm.CountAdmins, issue in E.
  destruct (fault w (ops w)); [discriminate|].
  cbn [user_table] in E. fold (admins w) in E.
  destruct (admins w) as [|u0 us] eqn:A.
  - cbn [List.length Z.of_nat Z.ltb Z.compare] in E.
    unfold getenv_or in *. cbn [environ] in E.
    destruct (IsValidEmail X _) eqn:V1; [|discriminate].
    destruct (IsValidPassword X _); [|discriminate].
    destruct (IsValidUsername X _); [|discriminate].
    cbn [negb] in E.
    unfold gorm.FirstUser, gorm.CreateUser, issue in E.
    cbn [fault ops user_table] in E.
    destruct (fault w (S (ops w))).
    + cbn [fault ops] in E.
      destruct (fault w (S (S (ops w)))); [discriminate|].
      injection E as <-. cbn. repeat split. right. split; [reflexivity|].
      eexists. split; [reflexivity|]. cbn. repeat split. exact V1.
    + destruct (find _ (user_table w)); [discriminate|].
      cbn [fault ops] in E.
      destruct (fault w (S (S (ops w)))); [discriminate|].
      injection E as <-. cbn. repeat split. right. split; [reflexivity|].
      eexists. split; [reflexivity|]. cbn. repeat split. exact V1.
  - cbn [List.length Z.of_nat Z.ltb Z.compare] in E.
    injection E as <-. cbn. repeat split. left.
    split; [discriminate|reflexivity].
Qed.

Lemma admins_snoc (w : World) (ut : list User) (u : User) :
  user_table w = ut ++ [u] -> Role u = "admin" ->
  admins w = filter gorm.is_admin ut ++ [u].
Proof.
  intros E R. unfold admins. rewrite E, filter_app. cbn.
  unfold gorm.is_admin at 2. rewrite R. reflexivity.
Qed.

Lemma find_same_account_none (email username : string)
      (accounts : list User) :
  (forall u, In u accounts -> Email u <> email /\ Username u <> username) ->
  find (gorm.same_account email username) accounts = None.
Proof.
  intros H.
  destruct (find (gorm.same_account email username) accounts) as [u|] eqn:F;
    [|reflexivity].
  apply find_some in F. destruct F as [Hin Hu].
  destruct (H u Hin) as [H1 H2].
  unfold gorm.same_account in Hu. apply orb_prop in Hu.
  destruct Hu as [Hu|Hu]; apply String.eqb_eq in Hu; congruence.
Qed.

(** A bootstrap on a store without admin, with settings the validators
    accept, no account under the configured address or user name and
    the store answering: the account is inserted and [nil] returned. *)
Lemma SeedInitialAdmin_creates (X : Externals) (s : SeedService)
      (w : World) :
  db s = Some gormDB ->
  fault w (ops w) = None ->
  fault w (S (ops w)) = None ->
  fault w (S (S (ops w))) = None ->
  admins w = [] ->
  IsValidEmail X (getenv_or "ADMIN_EMAIL" "admin@easypeek.com" w) = true ->
  IsValidPassword X (getenv_or "ADMIN_PASSWORD" "admin123456" w) = true ->
  IsValidUsername X (getenv_or "ADMIN_USERNAME" "admin" w) = true ->
  (forall u, In u (user_table w) ->
             Email u <> getenv_or "ADMIN_EMAIL" "admin@easypeek.com" w
             /\ Username u <> getenv_or "ADMIN_USERNAME" "admin" w) ->
  exists w1,
    SeedInitialAdmin X s w = (None, w1)
    /\ user_table w1
       = user_table w
         ++ [mkUser (getenv_or "ADMIN_USERNAME" "admin" w)
                    (getenv_or "ADMIN_EMAIL" "admin@easypeek.com" w)
                    (hashPassword X
                       (getenv_or "ADMIN_PASSWORD" "admin123456" w))
                    "admin" "active"]
    /\ news_table w1 = news_table w /\ rss_table w1 = rss_table w
    /\ fault w1 = fault w /\ ops w1 = S (S (S (ops w)))
    /\ trace w1
       = trace w
         ++ [EvCountAdmins;
             EvFirstUser (getenv_or "ADMIN_EMAIL" "admin@easypeek.com" w)
                         (getenv_or "ADMIN_USERNAME" "admin" w);
             EvCreateUser
               (mkUser (getenv_or "ADMIN_USERNAME" "admin" w)
                       (getenv_or "ADMIN_EMAIL" "admin@easypeek.com" w)
                       (getenv_or "ADMIN_PASSWORD" "admin123456" w)
                       "admin" "active")].
Proof.
  intros Hdb F0 F1 F2 A V1 V2 V3 Hfree.
  apply find_same_account_none in Hfree.
  unfold SeedInitialAdmin, gorm.CountAdmins, gorm.FirstUser,
    gorm.CreateUser, issue, log_Printf, set_users in *.
  unfold admins, getenv_or in *. rewrite Hdb.
  destruct w as [nt ut rt f o tr lg fl en nw].
  cbn [fault ops news_table user_table rss_table trace logs files environ
       now] in *.
  rewrite F0, A.
  cbn [List.length Z.of_nat Z.ltb Z.compare fault ops news_table user_table
       rss_table trace logs files environ now].
  rewrite V1, V2, V3.
  cbn [negb fault ops news_table user_table rss_table trace logs files
       environ now].
  rewrite F1, Hfree.
  cbn [fault ops news_table user_table rss_table trace logs files environ
       now].
  rewrite F2. eexists. split; [reflexivity|]. cbn.
  rewrite <- !app_assoc. repeat split.
Qed.

(** C7. With the count query answered, the admin bootstrap returns
    [nil] and leaves the tables as they are whenever an account with role
    [admin] exists; when none exists and the configured address fails
    the validator it returns the validation error and creates no account;
    after a bootstrap that returned [nil] a second one returns [nil]
    and adds nothing; and on a store without admin, with settings the
    validators accept, no account under the configured address or user
    name and the store answering, the first bootstrap inserts the admin
    account and the second finds it, so that the two calls together
    create exactly one admin account. *)
Theorem admin_bootstrap_once :
  forall (X : Externals) (s : SeedService) (w : World),
    db s = Some gormDB ->
    fault w (ops w) = None ->
    (admins w <> [] ->
     exists w', SeedInitialAdmin X s w = (None, w')
                /\ same_tables w w'
                /\ trace w' = trace w ++ [EvCountAdmins])
    /\ (admins w = [] ->
        IsValidEmail X (getenv_or "ADMIN_EMAIL" "admin@easypeek.com" w)
        = false ->
        exists w',
          SeedInitialAdmin X s w
          = (Some (errors_New "invalid admin email format"), w')
          /\ same_tables w w'
          /\ trace w' = trace w ++ [EvCountAdmins])
    /\ (forall w1,
           SeedInitialAdmin X s w = (None, w1) ->
           fault w1 (ops w1) = None ->
           exists w2,
             SeedInitialAdmin X s w1 = (None, w2)
             /\ same_tables w1 w2
             /\ (admins w = [] ->
                 List.length (admins w2) = 1%nat
                 /\ List.length (user_table w2)
                    = S (List.length (user_table w))))
    /\ (admins w = [] ->
        IsValidEmail X (getenv_or "ADMIN_EMAIL" "admin@easypeek.com" w)
        = true ->
        IsValidPassword X (getenv_or "ADMIN_PASSWORD" "admin123456" w)
        = true ->
        IsValidUsername X (getenv_or "ADMIN_USERNAME" "admin" w) = true ->
        (forall u, In u (user_table w) ->
                   Email u <> getenv_or "ADMIN_EMAIL" "admin@easypeek.com" w
                   /\ Username u <> getenv_or "ADMIN_USERNAME" "admin" w) ->
        fault w (S (ops w)) = None ->
        fault w (S (S (ops w))) = None ->
        fault w (S (S (S (ops w)))) = None ->
        exists w1 w2,
          SeedInitialAdmin X s w = (None, w1)
          /\ SeedInitialAdmin X s w1 = (None, w2)
          /\ user_table w1
             = user_table w
               ++ [mkUser (getenv_or "ADMIN_USERNAME" "admin" w)
                          (getenv_or "ADMIN_EMAIL" "admin@easypeek.com" w)
                          (hashPassword X
                             (getenv_or "ADMIN_PASSWORD" "admin123456" w))
                          "admin" "active"]
          /\ user_table w2 = user_table w1
          /\ admins w2
             = [mkUser (getenv_or "ADMIN_USERNAME" "admin" w)
                       (getenv_or "ADMIN_EMAIL" "admin@easypeek.com" w)
                       (hashPassword X
                          (getenv_or "ADMIN_PASSWORD" "admin123456" w))
                       "admin" "active"]
          /\ trace w2
             = trace w
               ++ [EvCountAdmins;
                   EvFirstUser
                     (getenv_or "ADMIN_EMAIL" "admin@easypeek.com" w)
                     (getenv_or "ADMIN_USERNAME" "admin" w);
                   EvCreateUser
                     (mkUser (getenv_or "ADMIN_USERNAME" "admin" w)
                             (getenv_or "ADMIN_EMAIL" "admin@easypeek.com" w)
                             (getenv_or "ADMIN_PASSWORD" "admin123456" w)
                             "admin" "active");
                   EvCountAdmins]).
Proof.
  intros X s w Hdb Hf. split; [|split; [|split]].
  - intros Ha. rewrite SeedInitialAdmin_skip by assumption.
    eexists. split; [reflexivity|]. cbn. repeat split.
  - intros Ha Hv. unfold SeedInitialAdmin. rewrite Hdb.
    unfold gorm.CountAdmins, issue. rewrite Hf.
    cbn [user_table]. fold (admins w). rewrite Ha.
    cbn [List.length Z.of_nat Z.ltb Z.compare].
    unfold getenv_or in *. cbn [environ]. rewrite Hv. cbn [negb].
    eexists. split; [reflexivity|]. cbn. repeat split.
  - intros w1 E Hf1.
    apply SeedInitialAdmin_success in E.
    destruct E as (F & N & R & E).
    assert (A1 : admins w1 <> []).
    { destruct E as [[A U]|[A (u & U & Ru & _)]].
      - unfold admins in *. rewrite U. exact A.
      - rewrite (admins_snoc w1 _ u U Ru). apply snoc_not_nil. }
    rewrite SeedInitialAdmin_skip by assumption.
    eexists. split; [reflexivity|]. cbn. split; [repeat split|].
    intros A0. destruct E as [[A _]|[_ (u & U & Ru & _)]]; [congruence|].
    unfold admins in *. cbn. rewrite U, filter_app, A0, length_app. cbn.
    unfold gorm.is_admin. rewrite Ru. cbn. split; [reflexivity|].
    rewrite length_app. cbn. lia.
  - intros A V1 V2 V3 Hfree F1 F2 F3.
    destruct (SeedInitialAdmin_creates X s w Hdb Hf F1 F2 A V1 V2 V3 Hfree)
      as (w1 & E1 & U1 & N1 & R1 & Fw & O1 & T1).
    assert (A1 : admins w1
                 = [mkUser (getenv_or "ADMIN_USERNAME" "admin" w)
                           (getenv_or "ADMIN_EMAIL" "admin@easypeek.com" w)
                           (hashPassword X
                              (getenv_or "ADMIN_PASSWORD" "admin123456" w))
                           "admin" "active"]).
    { rewrite (admins_snoc w1 _ _ U1 eq_refl).
      fold (admins w). rewrite A. reflexivity. }
    assert (Hf1 : fault w1 (ops w1) = None) by (rewrite Fw, O1; exact F3).
    assert (A1' : admins w1 <> []) by (rewrite A1; discriminate).
    exists w1, (log_Printf LogAdminExists (snd (issue EvCountAdmins w1))).
    split; [exact E1|].
    split; [apply SeedInitialAdmin_skip; assumption|].
    split; [exact U1|]. split; [reflexivity|].
    split; [exact A1|].
    cbn. rewrite T1, <- app_assoc. reflexivity.
Qed.

Lemma admin_bootstrap_once_witness :
  ((db Sample.service = Some gormDB
    /\ admins (Sample.world [] Sample.no_fault [] "") = [])
   /\ exists w1 w2,
       SeedInitialAdmin Sample.externals Sample.service
         (Sample.world [] Sample.no_fault [] "") = (None, w1)
       /\ SeedInitialAdmin Sample.externals Sample.service w1 = (None, w2)
       /\ admins w2
          = [mkUser "admin" "admin@easypeek.com" "hash:admin123456" "admin"
                    "active"]
       /\ user_table w2 = user_table w1)
  /\ ((db Sample.service = Some gormDB
       /\ IsValidEmail Sample.externals
            (getenv_or "ADMIN_EMAIL" "admin@easypeek.com"
               (Sample.world [] Sample.no_fault [] "not-an-email")) = false)
      /\ exists w',
          SeedInitialAdmin Sample.externals Sample.service
            (Sample.world [] Sample.no_fault [] "not-an-email")
          = (Some (errors_New "invalid admin email format"), w')
          /\ same_tables (Sample.world [] Sample.no_fault [] "not-an-email")
                         w').
Proof.
  split.
  - split; [split; reflexivity|].
    destruct (admin_bootstrap_once Sample.externals Sample.service
                (Sample.world [] Sample.no_fault [] "")
                eq_refl eq_refl) as (_ & _ & _ & H).
    destruct (H eq_refl eq_refl eq_refl eq_refl
                (fun u (Hin : In u []) => match Hin with end)
                eq_refl eq_refl eq_refl)
      as (w1 & w2 & E1 & E2 & _ & U2 & A2 & _).
    exists w1, w2. split; [exact E1|]. split; [exact E2|].
    split; [exact A2|exact U2].
  - split; [split; reflexivity|].
    destruct (admin_bootstrap_once Sample.externals Sample.service
                (Sample.world [] Sample.no_fault [] "not-an-email")
                eq_refl eq_refl) as (_ & H & _).
    destruct (H eq_refl eq_refl) as (w' & E & T & _).
    exists w'. split; assumption.
Defined.

(** Two bootstraps in a row on a store without accounts, with the
    default address: one account, created by the first. *)
Example admin_bootstrap_twice :
  let first := SeedInitialAdmin Sample.externals Sample.service
                 (Sample.world [] Sample.no_fault [] "") in
  let second := SeedInitialAdmin Sample.externals Sample.service
                  (snd first) in
  fst first = None /\ fst second = None
  /\ user_table (snd second)
     = [mkUser "admin" "admin@easypeek.com" "hash:admin123456" "admin"
               "active"]
  /\ trace (snd second)
     = [EvCountAdmins; EvFirstUser "admin@easypeek.com" "admin";
        EvCreateUser (mkUser "admin" "admin@easypeek.com" "admin123456"
                             "admin" "active");
        EvCountAdmins].
Proof. vm_compute. repeat split. Qed.

(** ** Storage faults *)

Lemma olf_refl (w : World) : only_lookups_failed w w.
Proof.
  split; [reflexivity|]. exists []. rewrite app_nil_r. cbn.
  split; [reflexivity|]. split; [lia|].
  intros k e H. destruct k; discriminate.
Qed.

Lemma olf_trans (w w1 w2 : World) :
  only_lookups_failed w w1 -> only_lookups_failed w1 w2 ->
  only_lookups_failed w w2.
Proof.
  intros (F1 & n1 & T1 & O1 & H1) (F2 & n2 & T2 & O2 & H2).
  split; [congruence|]. exists (n1 ++ n2).
  unfold storage_ops in *. rewrite filter_app, length_app.
  split; [rewrite T2, T1, app_assoc; reflexivity|]. split; [lia|].
  intros k e Hn Hf.
  destruct (Nat.lt_ge_cases k (List.length (filter is_storage n1)))
    as [Hk|Hk].
  - rewrite nth_error_app1 in Hn by exact Hk. eapply H1; eassumption.
  - rewrite nth_error_app2 in Hn by exact Hk.
    eapply H2; [exact Hn|]. rewrite F1, O1.
    replace (ops w + List.length (filter is_storage n1)
             + (k - List.length (filter is_storage n1)))%nat
      with (ops w + k)%nat by lia.
    exact Hf.
Qed.

Lemma olf_log (l : LogEntry) (w : World) :
  only_lookups_failed w (log_Printf l w).
Proof. apply (olf_refl w). Qed.

Lemma olf_record (p : string) (w : World) :
  only_lookups_failed w (record (EvReadFile p) w).
Proof.
  split; [reflexivity|]. exists [EvReadFile p]. cbn.
  split; [reflexivity|]. split; [lia|].
  intros k e H. destruct k; discriminate.
Qed.

Lemma olf_issue (e : Event) (w : World) :
  fault w (ops w) = None \/ is_lookup e = true ->
  is_storage e = true ->
  only_lookups_failed w (snd (issue e w)).
Proof.
  intros H S. split; [reflexivity|]. exists [e]. cbn. rewrite S. cbn.
  split; [reflexivity|]. split; [lia|].
  intros [|k] e' Hn Hf; [|destruct k; discriminate].
  injection Hn as <-. rewrite Nat.add_0_r in Hf.
  destruct H as [H|H]; [congruence|exact H].
Qed.

Lemma storage_ops_flush (l : list News) :
  storage_ops (flush_events l) = flush_events l.
Proof.
  unfold storage_ops, flush_events. cbn. f_equal.
  rewrite filter_app. cbn. f_equal.
  induction (gorm.slices 50 l) as [|c rest IH]; cbn; [reflexivity|].
  rewrite IH. reflexivity.
Qed.

Lemma length_flush_events (l : list News) :
  List.length (flush_events l)
  = (List.length (gorm.slices 50 l) + 2)%nat.
Proof.
  unfold flush_events. cbn. rewrite length_app, length_map. cbn. lia.
Qed.

Lemma olf_batch (l : list News) (w w' : World) :
  batchInsertNews l w = (None, w') -> only_lookups_failed w w'.
Proof.
  intros E. destruct l as [|x l]; [injection E as <-; apply olf_refl|].
  remember (x :: l) as l0 eqn:El.
  assert (Hl : l0 <> []) by (subst; discriminate).
  pose proof (batchInsertNews_success_inv _ _ _ Hl E) as H.
  rewrite (batchInsertNews_ok _ _ Hl H) in E. injection E as <-.
  split; [reflexivity|]. exists (flush_events l0).
  rewrite storage_ops_flush, length_flush_events.
  split; [reflexivity|]. split; [reflexivity|].
  intros k e Hn Hf. exfalso. apply Hf, H.
  rewrite <- length_flush_events. apply nth_error_Some. congruence.
Qed.

Section Faults.

Variable X : Externals.

Lemma olf_import_turn (i : Z) (d : NewsJSONData) (a a' : Acc)
      (w w' : World) :
  import_turn X i d a w = Next a' w' -> only_lookups_failed w w'.
Proof.
  unfold import_turn.
  set (w1 := match time_Parse X layout (j_PublishedAt d) with
             | Some _ => w
             | None => log_Printf (LogBadTime (i + 1)) w
             end).
  assert (H1 : only_lookups_failed w w1).
  { subst w1. destruct (time_Parse X layout (j_PublishedAt d));
      [apply olf_refl|apply olf_log]. }
  clearbody w1.
  pose proof (olf_issue (EvFirstNews (j_GUID d) (j_Link d)) w1
                (or_intror eq_refl) eq_refl) as H2.
  pose proof (olf_trans _ _ _ H1 H2) as H3. clear H1 H2.
  unfold gorm.FirstNews.
  destruct (issue (EvFirstNews (j_GUID d) (j_Link d)) w1) as [f w2].
  cbn [snd] in H3. intros E.
  destruct f as [c|].
  - injection E as _ <-. eapply olf_trans; [exact H3|apply olf_log].
  - destruct (find _ (news_table w2)).
    + injection E as _ <-. eapply olf_trans; [exact H3|apply olf_log].
    + destruct (100 <=? _)%nat.
      * match type of E with
        | context [batchInsertNews ?l ?w0] =>
            destruct (batchInsertNews l w0) as [[e|] w3] eqn:B
        end; [discriminate|].
        injection E as _ <-.
        eapply olf_trans; [exact H3|eapply olf_batch; exact B].
      * injection E as _ <-. exact H3.
Qed.

Lemma olf_import_loop (items : list NewsJSONData) :
  forall (i : Z) (a a' : Acc) (w w' : World),
    import_loop X i items a w = Next a' w' -> only_lookups_failed w w'.
Proof.
  induction items as [|d rest IH]; intros i a a' w w' E.
  - injection E as _ <-. apply olf_refl.
  - cbn [import_loop] in E.
    destruct (import_turn X i d a w) as [a1 w1|e a1 w1] eqn:T;
      [|discriminate].
    eapply olf_trans; [eapply olf_import_turn; exact T|].
    eapply IH; exact E.
Qed.

(** An import that returns [nil] has met no storage fault other than
    in duplicate lookups. *)
Lemma olf_SeedNewsFromJSON (s : SeedService) (path : string)
      (w w' : World) :
  SeedNewsFromJSON X s path w = (None, w') -> only_lookups_failed w w'.
Proof.
  unfold SeedNewsFromJSON. intros E.
  destruct (db s); [|discriminate].
  pose proof (olf_log (LogImportStart path) w) as H0.
  set (w0 := log_Printf (LogImportStart path) w) in *. clearbody w0.
  unfold gorm.CountNews in E.
  destruct (issue EvCountNews w0) as [f w1] eqn:I.
  assert (H1 : fault w0 (ops w0) = f) by (unfold issue in I; congruence).
  destruct f as [c|]; [discriminate|].
  pose proof (olf_issue EvCountNews w0 (or_introl H1) eq_refl) as H2.
  rewrite I in H2. cbn [snd] in H2.
  pose proof (olf_trans _ _ _ H0 H2) as H3. clear H0 H2.
  destruct (0 <? _).
  - injection E as <-. eapply olf_trans; [exact H3|apply olf_log].
  - pose proof (olf_record path w1) as H4.
    pose proof (olf_trans _ _ _ H3 H4) as H5. clear H3 H4.
    set (w2 := record (EvReadFile path) w1) in *. clearbody w2.
    destruct (files w2 path) as [| |items]; try discriminate.
    destruct (import_loop X 0 items _ _) as [a1 w3|e a1 w3] eqn:L;
      [|discriminate].
    apply olf_import_loop in L.
    assert (H6 : only_lookups_failed w w3).
    { eapply olf_trans; [exact H5|].
      eapply olf_trans; [apply olf_log|exact L]. }
    destruct (0 <? List.length (newsList a1))%nat.
    + destruct (batchInsertNews (newsList a1) w3) as [[e|] w4] eqn:B;
        [discriminate|].
      injection E as <-.
      eapply olf_trans; [exact H6|].
      eapply olf_trans; [eapply olf_batch; exact B|apply olf_log].
    + injection E as <-. eapply olf_trans; [exact H6|apply olf_log].
Qed.

(** The errors of the import wrap their cause. *)
Lemma SeedNewsFromJSON_errors (s : SeedService) (path : string)
      (w w' : World) (e : error) :
  SeedNewsFromJSON X s path w = (Some e, w') ->
  e = errors_New "database connection not initialized"
  \/ (exists c, fault w (ops w) = Some c
                /\ e = fmt_Errorf "failed to check existing news count"
                                  (storage_fault c))
  \/ e = fmt_Errorf "failed to read JSON file" (os_ReadFile_error path)
  \/ e = fmt_Errorf "failed to parse JSON data" json_Unmarshal_error
  \/ (exists c, e = fmt_Errorf "failed to batch insert news"
                               (storage_fault c))
  \/ (exists c, e = fmt_Errorf "failed to insert remaining news"
                               (storage_fault c)).
Proof.
  unfold SeedNewsFromJSON. intros E.
  destruct (db s); [|injection E as <- _; left; reflexivity].
  unfold gorm.CountNews, issue in E. cbn [fault ops log_Printf] in E.
  destruct (fault w (ops w)) as [c|] eqn:F.
  { injection E as <- _. right. left. exists c. split; reflexivity. }
  destruct (0 <? _); [discriminate|].
  cbn [files record] in E.
  match type of E with
  | context [match ?f path with _ => _ end] => destruct (f path)
  end.
  - injection E as <- _. do 2 right. left. reflexivity.
  - injection E as <- _. do 3 right. left. reflexivity.
  - destruct (import_loop X 0 items _ _) as [a1 w3|e1 a1 w3] eqn:L.
    + destruct (0 <? List.length (newsList a1))%nat; [|discriminate].
      destruct (batchInsertNews (newsList a1) w3) as [[e2|] w4] eqn:B;
        [|discriminate].
      injection E as <- _.
      apply batchInsertNews_failure in B.
      destruct B as (_ & k & c & _ & _ & ->).
      do 5 right. exists c. reflexivity.
    + injection E as <- _. apply import_loop_abort in L.
      do 4 right. left. exact L.
Qed.

End Faults.

(** What the claim says of RSS seeding does not hold: with the creation
    of the first default source failing, [SeedRSSources] returns [nil];
    the failure is in the log, the first source is not stored and the
    second is. *)
Lemma rss_create_fault_counterexample :
  fault (Sample.world [] (Sample.fault_at 1 7) [] "") 1 = Some 7%nat
  /\ fst (SeedRSSources Sample.service
            (Sample.world [] (Sample.fault_at 1 7) [] "")) = None
  /\ logs (snd (SeedRSSources Sample.service
                  (Sample.world [] (Sample.fault_at 1 7) [] "")))
     = [LogRSSFailed (RName (nth 0 defaultSources
                                 (mkRSSSource "" "" "" "" false "" 0 0)))
                     (storage_fault 7);
        LogRSSCreated (RName (nth 1 defaultSources
                                  (mkRSSSource "" "" "" "" false "" 0 0)))]
  /\ trace (snd (SeedRSSources Sample.service
                   (Sample.world [] (Sample.fault_at 1 7) [] "")))
     = EvCountRSS :: map EvCreateRSS defaultSources
  /\ rss_table (snd (SeedRSSources Sample.service
                       (Sample.world [] (Sample.fault_at 1 7) [] "")))
     = skipn 1 defaultSources.
Proof. vm_compute. repeat split. Qed.

Lemma create_sources_two (s1 s2 : RSSSource) (w : World) :
  rss_table w = [] ->
  s1 <> s2 ->
  forall k src,
    nth_error [s1; s2] k = Some src ->
    match fault w (ops w + k) with
    | Some c =>
        In (LogRSSFailed (RName src) (storage_fault c))
           (logs (create_sources [s1; s2] w))
        /\ ~ In src (rss_table (create_sources [s1; s2] w))
    | None =>
        In (LogRSSCreated (RName src)) (logs (create_sources [s1; s2] w))
        /\ In src (rss_table (create_sources [s1; s2] w))
    end.
Proof.
  intros Hr Hne k src Hn.
  destruct w as [nt ut rt f o tr lg fl en nw]. cbn in Hr. subst rt.
  unfold create_sources, gorm.CreateRSS, issue, log_Printf, set_rss.
  cbn [fault ops news_table user_table rss_table trace logs files environ
       now].
  destruct k as [|[|[|k]]]; cbn in Hn; try discriminate;
    injection Hn as <-;
    rewrite ?Nat.add_0_r, ?Nat.add_1_r;
    destruct (f o) as [c0|] eqn:F0;
    cbn [fault ops news_table user_table rss_table trace logs files
         environ now];
    destruct (f (S o)) as [c1|] eqn:F1;
    cbn [fault ops news_table user_table rss_table trace logs files
         environ now app];
    (split; [rewrite ?in_app_iff; cbn; tauto|]);
    cbn; intuition congruence.
Qed.

(** C6, as the code has it.  A missing connection fails every seed
    operation, and so does a failed count query, wrapped by the import
    and returned as it is by the two bootstrap operations; every error
    of the import wraps its cause, and an import that returns [nil] has
    met no storage fault other than in duplicate lookups.  The creation
    of a default RSS source is outside this: with the connection present
    and the count query answering zero, [SeedRSSources] returns [nil]
    whatever the store answers to the creations, and a creation that
    fails is logged and its source left out while the other is still
    attempted. *)
Theorem storage_faults_surfaced :
  forall (X : Externals) (s : SeedService) (path : string) (w : World),
    (db s = None ->
     fst (SeedNewsFromJSON X s path w)
     = Some (errors_New "database connection not initialized")
     /\ fst (SeedInitialAdmin X s w)
        = Some (errors_New "database connection not initialized")
     /\ fst (SeedRSSources s w)
        = Some (errors_New "database connection not initialized"))
    /\ (forall c,
           db s = Some gormDB -> fault w (ops w) = Some c ->
           fst (SeedNewsFromJSON X s path w)
           = Some (fmt_Errorf "failed to check existing news count"
                              (storage_fault c))
           /\ fst (SeedInitialAdmin X s w) = Some (storage_fault c)
           /\ fst (SeedRSSources s w) = Some (storage_fault c))
    /\ (forall w',
           SeedNewsFromJSON X s path w = (None, w') ->
           only_lookups_failed w w')
    /\ (forall e w',
           SeedNewsFromJSON X s path w = (Some e, w') ->
           e = errors_New "database connection not initialized"
           \/ (exists c, fault w (ops w) = Some c
                         /\ e = fmt_Errorf
                                  "failed to check existing news count"
                                  (storage_fault c))
           \/ e = fmt_Errorf "failed to read JSON file"
                             (os_ReadFile_error path)
           \/ e = fmt_Errorf "failed to parse JSON data"
                             json_Unmarshal_error
           \/ (exists c, e = fmt_Errorf "failed to batch insert news"
                                        (storage_fault c))
           \/ (exists c, e = fmt_Errorf "failed to insert remaining news"
                                        (storage_fault c)))
    /\ (db s = Some gormDB -> fault w (ops w) = None -> rss_table w = [] ->
        exists w',
          SeedRSSources s w = (None, w')
          /\ forall k src,
              nth_error defaultSources k = Some src ->
              match fault w (ops w + 1 + k) with
              | Some c =>
                  In (LogRSSFailed (RName src) (storage_fault c)) (logs w')
                  /\ ~ In src (rss_table w')
              | None =>
                  In (LogRSSCreated (RName src)) (logs w')
                  /\ In src (rss_table w')
              end).
Proof.
  intros X s path w. split; [|split; [|split; [|split]]].
  - intros Hdb. unfold SeedNewsFromJSON, SeedInitialAdmin, SeedRSSources.
    rewrite Hdb. repeat split.
  - intros c Hdb Hf.
    unfold SeedNewsFromJSON, SeedInitialAdmin, SeedRSSources.
    rewrite Hdb.
    unfold gorm.CountNews, gorm.CountAdmins, gorm.CountRSS, issue.
    cbn [fault ops log_Printf]. rewrite Hf. repeat split.
  - apply olf_SeedNewsFromJSON.
  - intros e w' E. eapply SeedNewsFromJSON_errors. exact E.
  - intros Hdb Hf Hr. unfold SeedRSSources. rewrite Hdb.
    unfold gorm.CountRSS, issue. rewrite Hf. cbn [rss_table].
    rewrite Hr. cbn [List.length Z.of_nat Z.ltb Z.compare].
    eexists. split; [reflexivity|].
    intros k src Hn.
    match goal with
    | |- context [create_sources defaultSources ?w0] =>
        pose proof (create_sources_two
                      (nth 0 defaultSources (mkRSSSource "" "" "" "" false "" 0 0))
                      (nth 1 defaultSources (mkRSSSource "" "" "" "" false "" 0 0))
                      w0 eq_refl ltac:(discriminate) k src Hn) as H
    end.
    cbn [fault ops] in H.
    replace (ops w + 1 + k)%nat with (S (ops w) + k)%nat by lia.
    exact H.
Qed.

Lemma storage_faults_surfaced_witness :
  (db Sample.service = Some gormDB
   /\ fault (Sample.world [] (Sample.fault_at 0 7) [] "") 0 = Some 7%nat)
  /\ fst (SeedNewsFromJSON Sample.externals Sample.service Sample.path
            (Sample.world [] (Sample.fault_at 0 7) [] ""))
     = Some (fmt_Errorf "failed to check existing news count"
                        (storage_fault 7))
  /\ fst (SeedInitialAdmin Sample.externals Sample.service
            (Sample.world [] (Sample.fault_at 0 7) [] ""))
     = Some (storage_fault 7)
  /\ fst (SeedRSSources Sample.service
            (Sample.world [] (Sample.fault_at 0 7) [] ""))
     = Some (storage_fault 7).
Proof.
  split; [split; reflexivity|].
  destruct (storage_faults_surfaced Sample.externals Sample.service
              Sample.path (Sample.world [] (Sample.fault_at 0 7) [] ""))
    as (_ & H & _).
  exact (H 7%nat eq_refl eq_refl).
Defined.

(** * Further properties of the seed service *)

(** ** Rows written by an import, whatever the store answers *)

Lemma batchInsertNews_success (l : list News) (w w' : World) :
  batchInsertNews l w = (None, w') ->
  news_table w' = news_table w ++ l
  /\ user_table w' = user_table w /\ rss_table w' = rss_table w.
Proof.
  intros E. destruct l as [|x l].
  - injection E as <-. rewrite app_nil_r. repeat split.
  - remember (x :: l) as l0 eqn:El.
    assert (Hl : l0 <> []) by (subst; discriminate).
    pose proof (batchInsertNews_success_inv _ _ _ Hl E) as H.
    rewrite (batchInsertNews_ok _ _ Hl H) in E. injection E as <-.
    repeat split.
Qed.

Lemma length_concat_hundreds (bs : list (list News)) :
  Forall (fun b => List.length b = 100%nat) bs ->
  List.length (List.concat bs) = (100 * List.length bs)%nat.
Proof.
  induction 1 as [|b bs Hb _ IH]; [reflexivity|].
  cbn [List.concat List.length]. rewrite length_app, Hb, IH. lia.
Qed.

Lemma from_file_cons (d : NewsJSONData) (items : list NewsJSONData)
      (l : list News) :
  Forall (from_file items) l -> Forall (from_file (d :: items)) l.
Proof.
  apply Forall_impl. intros n (d' & t & Hin & ->).
  exists d', t. split; [right; exact Hin|reflexivity].
Qed.

Section Rows.

Variable X : Externals.

(** One turn: what it writes is nothing or a full buffer of 100 records,
    and what it adds to the records in flight is nothing or the record of
    its candidate. *)
Lemma import_turn_rows (i : Z) (d : NewsJSONData) (a : Acc) (w : World) :
  (List.length (newsList a) < 100)%nat ->
  match import_turn X i d a w with
  | Next a' w' =>
      exists flushed delta,
        news_table w' = news_table w ++ flushed
        /\ (flushed = [] \/ List.length flushed = 100%nat)
        /\ flushed ++ newsList a' = newsList a ++ delta
        /\ (delta = [] \/ delta = [toNews d (publishedAt_of X d w)])
        /\ importedCount a' = importedCount a + Z.of_nat (List.length delta)
        /\ (List.length (newsList a') < 100)%nat
        /\ user_table w' = user_table w /\ rss_table w' = rss_table w
  | Abort e a' w' => same_tables w w'
  end.
Proof.
  intros Hlen. unfold import_turn.
  set (w1 := match time_Parse X layout (j_PublishedAt d) with
             | Some _ => w
             | None => log_Printf (LogBadTime (i + 1)) w
             end).
  assert (H1 : same_tables w w1)
    by (subst w1; destruct (time_Parse X layout (j_PublishedAt d));
        repeat split).
  clearbody w1. destruct H1 as (T1 & T2 & T3).
  unfold gorm.FirstNews, issue.
  destruct (fault w1 (ops w1)) as [c|].
  - exists [], []. cbn. rewrite !app_nil_r, Z.add_0_r.
    repeat split; auto.
  - cbn [news_table].
    destruct (find _ (news_table w1)) as [r|].
    + exists [], []. cbn. rewrite !app_nil_r, Z.add_0_r.
      repeat split; auto.
    + destruct (100 <=? _)%nat eqn:Full.
      * apply Nat.leb_le in Full.
        match goal with
        | |- context [batchInsertNews ?l ?w2] =>
            destruct (batchInsertNews l w2) as [[e|] w3] eqn:B
        end.
        -- apply batchInsertNews_failure in B.
           destruct B as ((B1 & B2 & B3) & _).
           cbn [news_table user_table rss_table] in *.
           repeat split; congruence.
        -- apply batchInsertNews_success in B.
           destruct B as (B1 & B2 & B3).
           cbn [news_table user_table rss_table newsList importedCount] in *.
           exists (newsList a ++ [toNews d (publishedAt_of X d w)]),
             [toNews d (publishedAt_of X d w)].
           rewrite app_nil_r.
           repeat split; try congruence; auto.
           ++ right. rewrite length_app in *. cbn in *. lia.
           ++ cbn. lia.
      * apply Nat.leb_gt in Full.
        exists [], [toNews d (publishedAt_of X d w)]. cbn.
        rewrite app_nil_r. repeat split; auto.
Qed.

(** The loop: the rows written are whole buffers of 100 records, the
    records written or still in flight all come from the candidates, and
    the imported count is their number. *)
Lemma import_loop_rows (items : list NewsJSONData) :
  forall (i : Z) (a : Acc) (w : World),
    (List.length (newsList a) < 100)%nat ->
    exists bs delta,
      Forall (fun b => List.length b = 100%nat) bs
      /\ Forall (from_file items) delta
      /\ match import_loop X i items a w with
         | Next a' w' =>
             news_table w' = news_table w ++ List.concat bs
             /\ List.concat bs ++ newsList a' = newsList a ++ delta
             /\ importedCount a'
                = importedCount a + Z.of_nat (List.length delta)
             /\ (List.length (newsList a') < 100)%nat
             /\ user_table w' = user_table w /\ rss_table w' = rss_table w
         | Abort e a' w' =>
             news_table w' = news_table w ++ List.concat bs
             /\ (exists rest,
                    List.concat bs ++ rest = newsList a ++ delta)
             /\ user_table w' = user_table w /\ rss_table w' = rss_table w
         end.
Proof.
  induction items as [|d items IH]; intros i a w Hlen.
  - exists [], []. cbn. rewrite !app_nil_r, Z.add_0_r.
    repeat split; auto.
  - cbn [import_loop].
    pose proof (import_turn_rows i d a w Hlen) as T.
    destruct (import_turn X i d a w) as [a1 w1|e a1 w1].
    + destruct T as (flushed & delta1 & T1 & Hfl & Hbuf & Hd & Hi & Hl1
                     & U1 & R1).
      destruct (IH (i + 1) a1 w1 Hl1) as (bs2 & delta2 & B2 & D2 & H).
      exists (match flushed with [] => bs2 | _ => flushed :: bs2 end),
        (delta1 ++ delta2).
      assert (Hc : List.concat
                     (match flushed with [] => bs2 | _ => flushed :: bs2 end)
                   = flushed ++ List.concat bs2)
        by (destruct flushed; reflexivity).
      split; [|split].
      * destruct Hfl as [->|Hfl]; [exact B2|].
        destruct flushed; [discriminate|]. constructor; assumption.
      * apply Forall_app. split; [|apply from_file_cons; exact D2].
        destruct Hd as [->| ->]; constructor; [|constructor].
        exists d, (publishedAt_of X d w). split; [left|]; reflexivity.
      * rewrite Hc.
        destruct (import_loop X (i + 1) items a1 w1) as [a' w'|e a' w'].
        -- destruct H as (T & Hb & Hi2 & Hl2 & U & R).
           split; [rewrite T, T1, app_assoc; reflexivity|].
           split.
           { rewrite <- app_assoc, Hb, app_assoc, Hbuf, app_assoc.
             reflexivity. }
           split; [rewrite Hi2, Hi, length_app; lia|].
           repeat split; congruence.
        -- destruct H as (T & (rest & Hb) & U & R).
           split; [rewrite T, T1, app_assoc; reflexivity|].
           split.
           { exists rest.
             rewrite <- app_assoc, Hb, app_assoc, Hbuf, app_assoc.
             reflexivity. }
           split; congruence.
    + destruct T as (T1 & T2 & T3).
      exists [], []. cbn. rewrite !app_nil_r.
      repeat split; auto. exists (newsList a). reflexivity.
Qed.

(** The whole import, for any world and any answers of the store: the
    other tables are untouched and the news table grows by whole buffers
    of 100 records followed, on success only, by the remainder; every
    added row comes from an element of the file; on success the reported
    imported count is the number of rows added. *)
Lemma SeedNewsFromJSON_rows (s : SeedService) (path : string)
      (w w' : World) (r : option error) :
  SeedNewsFromJSON X s path w = (r, w') ->
  user_table w' = user_table w
  /\ rss_table w' = rss_table w
  /\ exists bs rest,
      news_table w' = news_table w ++ List.concat bs ++ rest
      /\ Forall (fun b => List.length b = 100%nat) bs
      /\ Forall (from_file (items_of w path)) (List.concat bs ++ rest)
      /\ match r with
         | Some _ => rest = []
         | None =>
             (news_table w <> [] /\ bs = [] /\ rest = [])
             \/ (news_table w = []
                 /\ exists pre skipped,
                     logs w'
                     = pre ++ [LogImportDone
                                 (Z.of_nat
                                    (List.length (List.concat bs ++ rest)))
                                 skipped])
         end.
Proof.
  unfold SeedNewsFromJSON, items_of, gorm.CountNews, issue, record,
    log_Printf.
  destruct w as [nt ut rt f o tr lg fl en nw].
  cbn [fault ops news_table user_table rss_table trace logs files environ
       now].
  intros E.
  destruct (db s).
  2:{ injection E as <- <-. cbn. repeat split.
      exists [], []. cbn. rewrite app_nil_r. repeat split; constructor. }
  destruct (f o).
  { injection E as <- <-. cbn. repeat split.
    exists [], []. cbn. rewrite app_nil_r. repeat split; constructor. }
  destruct nt as [|r0 nt].
  2:{ cbn [List.length Z.of_nat Z.ltb Z.compare] in E.
      injection E as <- <-. cbn. repeat split.
      exists [], []. cbn. rewrite app_nil_r. repeat split; try constructor.
      repeat split. discriminate. }
  cbn [List.length Z.of_nat Z.ltb Z.compare] in E.
  cbn [fault ops news_table user_table rss_table trace logs files environ
       now] in E.
  destruct (fl path) as [| |items] eqn:F.
  1,2: injection E as <- <-; cbn; repeat split;
    exists [], []; cbn; repeat split; constructor.
  match type of E with
  | context [import_loop X 0 items ?a0 ?w0] =>
      destruct (import_loop_rows items 0 a0 w0 ltac:(cbn; lia))
        as (bs & delta & B & D & H);
      destruct (import_loop X 0 items a0 w0) as [a1 w1|e a1 w1]
  end.
  - destruct H as (T & Hb & Hi & Hl & U & R).
    cbn [news_table user_table rss_table newsList importedCount app] in *.
    destruct (newsList a1) as [|x buf] eqn:Buf.
    + cbn [List.length Nat.ltb Nat.leb] in E. injection E as <- <-.
      cbn. repeat split; try assumption.
      exists bs, []. rewrite app_nil_r in *.
      repeat split; try assumption; try congruence.
      right. split; [reflexivity|].
      exists (logs w1), (skippedCount a1). rewrite Hi, Hb. reflexivity.
    + cbn [List.length Nat.ltb Nat.leb] in E.
      destruct (batchInsertNews (x :: buf) w1) as [[e|] w2] eqn:Bt.
      * injection E as <- <-.
        apply batchInsertNews_failure in Bt.
        destruct Bt as ((B1 & B2 & B3) & _).
        split; [congruence|]. split; [congruence|].
        exists bs, []. rewrite app_nil_r. cbn [app].
        repeat split; try assumption; try congruence.
        rewrite Forall_forall in *. intros n Hn. apply D.
        rewrite <- Hb. apply in_or_app. left. exact Hn.
      * injection E as <- <-.
        pose proof (batchInsertNews_frame _ _ _ _ Bt) as (_ & L & _).
        apply batchInsertNews_success in Bt.
        destruct Bt as (B1 & B2 & B3). cbn.
        split; [congruence|]. split; [congruence|].
        exists bs, (x :: buf).
        repeat split; try assumption; try congruence.
        right. split; [reflexivity|].
        exists (logs w1), (skippedCount a1).
        rewrite L, Hi, Hb. reflexivity.
  - destruct H as (T & (rest & Hb) & U & R).
    cbn [news_table user_table rss_table newsList app] in *.
    injection E as <- <-.
    split; [congruence|]. split; [congruence|].
    exists bs, []. rewrite app_nil_r. cbn [app].
    repeat split; try assumption.
    rewrite Forall_forall in *. intros n Hn. apply D.
    rewrite <- Hb. apply in_or_app. left. exact Hn.
Qed.

End Rows.

(** X1. An import into the empty store that returns [nil] reports as
    imported exactly the number of rows it has stored, whatever lookups
    failed on the way, and every stored row is the record of an element
    of the file. *)
Theorem import_report_counts_rows :
  forall (X : Externals) (s : SeedService) (path : string) (w w' : World),
    SeedNewsFromJSON X s path w = (None, w') ->
    news_table w = [] ->
    exists imported skipped pre,
      logs w' = pre ++ [LogImportDone imported skipped]
      /\ Z.of_nat (List.length (news_table w')) = imported
      /\ Forall (from_file (items_of w path)) (news_table w').
Proof.
  intros X s path w w' E Hn.
  destruct (SeedNewsFromJSON_rows X s path w w' None E)
    as (_ & _ & bs & rest & T & _ & D & [[C _]|[_ (pre & skipped & L)]]);
    [congruence|].
  rewrite Hn in T. cbn [app] in T.
  exists (Z.of_nat (List.length (List.concat bs ++ rest))), skipped, pre.
  rewrite T. repeat split; assumption.
Qed.

Lemma import_report_counts_rows_witness :
  news_table (Sample.world [] (Sample.fault_at 2 7)
                [Sample.numbered 0; Sample.numbered 1] "") = []
  /\ exists w' imported skipped pre,
      SeedNewsFromJSON Sample.externals Sample.service Sample.path
        (Sample.world [] (Sample.fault_at 2 7)
           [Sample.numbered 0; Sample.numbered 1] "") = (None, w')
      /\ logs w' = pre ++ [LogImportDone imported skipped]
      /\ Z.of_nat (List.length (news_table w')) = imported.
Proof.
  split; [reflexivity|].
  set (w := Sample.world [] (Sample.fault_at 2 7)
              [Sample.numbered 0; Sample.numbered 1] "").
  assert (E : SeedNewsFromJSON Sample.externals Sample.service Sample.path w
              = (None, snd (SeedNewsFromJSON Sample.externals Sample.service
                              Sample.path w)))
    by (vm_compute; reflexivity).
  destruct (import_report_counts_rows Sample.externals Sample.service
              Sample.path w _ E eq_refl)
    as (imported & skipped & pre & L & C & _).
  exists (snd (SeedNewsFromJSON Sample.externals Sample.service
                 Sample.path w)), imported, skipped, pre.
  split; [exact E|]. split; [exact L|exact C].
Defined.

(** X2. An import that returns an error has added to the news table a
    whole number of buffers of 100 records, none of them partial, and
    has left the other tables as they were: what a failed import leaves
    behind is the full batches committed before the failure. *)
Theorem failed_import_keeps_whole_batches :
  forall (X : Externals) (s : SeedService) (path : string) (w w' : World)
         (e : error),
    SeedNewsFromJSON X s path w = (Some e, w') ->
    exists k : nat,
      List.length (news_table w')
      = (List.length (news_table w) + 100 * k)%nat
      /\ firstn (List.length (news_table w)) (news_table w') = news_table w
      /\ user_table w' = user_table w
      /\ rss_table w' = rss_table w.
Proof.
  intros X s path w w' e E.
  destruct (SeedNewsFromJSON_rows X s path w w' (Some e) E)
    as (U & R & bs & rest & T & B & _ & ->).
  exists (List.length bs). rewrite T, app_nil_r.
  rewrite length_app, (length_concat_hundreds bs B).
  repeat split; try assumption.
  rewrite firstn_app, Nat.sub_diag, firstn_all. cbn.
  apply app_nil_r.
Qed.

Lemma failed_import_keeps_whole_batches_witness :
  exists w' k,
    SeedNewsFromJSON Sample.externals Sample.service Sample.path
      (Sample.world [] (Sample.fault_at 155 9) (Sample.numbered_upto 150) "")
    = (Some (fmt_Errorf "failed to insert remaining news" (storage_fault 9)),
       w')
    /\ List.length (news_table w') = (0 + 100 * k)%nat
    /\ k = 1%nat.
Proof.
  set (w := Sample.world [] (Sample.fault_at 155 9)
              (Sample.numbered_upto 150) "").
  assert (E : SeedNewsFromJSON Sample.externals Sample.service Sample.path w
              = (Some (fmt_Errorf "failed to insert remaining news"
                                  (storage_fault 9)),
                 snd (SeedNewsFromJSON Sample.externals Sample.service
                        Sample.path w)))
    by (vm_compute; reflexivity).
  destruct (failed_import_keeps_whole_batches Sample.externals
              Sample.service Sample.path w _ _ E) as (k & L & _).
  exists (snd (SeedNewsFromJSON Sample.externals Sample.service
                 Sample.path w)), k.
  split; [exact E|]. split; [exact L|].
  assert (L' : List.length
                 (news_table (snd (SeedNewsFromJSON Sample.externals
                                     Sample.service Sample.path w)))
               = 100%nat) by (vm_compute; reflexivity).
  rewrite L' in L. cbn [news_table w Sample.world List.length] in L. lia.
Defined.

(** X3. Whatever the store answers and however the import ends, it only
    appends to the news table: the rows that were there stay first and
    unchanged, every added row is the record of an element of the file
    under the given path, and the user and RSS tables are untouched. *)
Theorem import_only_appends_file_records :
  forall (X : Externals) (s : SeedService) (path : string) (w : World),
    exists added,
      news_table (snd (SeedNewsFromJSON X s path w)) = news_table w ++ added
      /\ Forall (from_file (items_of w path)) added
      /\ (forall n, In n added ->
                    exists d, In d (items_of w path)
                              /\ GUID n = j_GUID d /\ Link n = j_Link d)
      /\ user_table (snd (SeedNewsFromJSON X s path w)) = user_table w
      /\ rss_table (snd (SeedNewsFromJSON X s path w)) = rss_table w.
Proof.
  intros X s path w.
  destruct (SeedNewsFromJSON X s path w) as [r w'] eqn:E.
  destruct (SeedNewsFromJSON_rows X s path w w' r E)
    as (U & R & bs & rest & T & _ & D & _).
  exists (List.concat bs ++ rest). cbn [snd].
  repeat split; try assumption.
  intros n Hn. rewrite Forall_forall in D.
  destruct (D n Hn) as (d & t & Hin & ->).
  exists d. repeat split. exact Hin.
Qed.

(** X4. On the empty store, with the count query answered, a file that
    cannot be read or does not parse makes the import fail with the
    matching wrapped error right after the read: no lookup and no write
    is issued and the tables are as before. *)
Theorem import_rejects_bad_file :
  forall (X : Externals) (s : SeedService) (path : string) (w : World),
    db s = Some gormDB ->
    fault w (ops w) = None ->
    news_table w = [] ->
    (forall items, files w path <> NewsItems items) ->
    exists w',
      SeedNewsFromJSON X s path w
      = (Some (match files w path with
               | Unreadable =>
                   fmt_Errorf "failed to read JSON file"
                              (os_ReadFile_error path)
               | _ => fmt_Errorf "failed to parse JSON data"
                                 json_Unmarshal_error
               end), w')
      /\ same_tables w w'
      /\ trace w' = trace w ++ [EvCountNews; EvReadFile path]
      /\ ops w' = S (ops w).
Proof.
  intros X s path w Hdb Hf Hn Hfile.
  unfold SeedNewsFromJSON, gorm.CountNews, issue, record, log_Printf.
  rewrite Hdb.
  destruct w as [nt ut rt f o tr lg fl en nw].
  cbn [fault ops news_table user_table rss_table trace logs files environ
       now] in *.
  rewrite Hf, Hn.
  cbn [fault ops news_table user_table rss_table trace logs files environ
       now List.length Z.of_nat Z.ltb Z.compare].
  destruct (fl path) as [| |items] eqn:F.
  - eexists. split; [reflexivity|]. cbn. rewrite <- app_assoc.
    repeat split.
  - eexists. split; [reflexivity|]. cbn. rewrite <- app_assoc.
    repeat split.
  - exfalso. apply (Hfile items). reflexivity.
Qed.

Lemma import_rejects_bad_file_witness :
  (db Sample.service = Some gormDB
   /\ forall items,
       files (Fixture.world [] [] Sample.no_fault Malformed) Sample.path
       <> NewsItems items)
  /\ exists w',
      SeedNewsFromJSON Sample.externals Sample.service Sample.path
        (Fixture.world [] [] Sample.no_fault Malformed)
      = (Some (fmt_Errorf "failed to parse JSON data" json_Unmarshal_error),
         w')
      /\ trace w' = [EvCountNews; EvReadFile Sample.path].
Proof.
  assert (H : forall items,
             files (Fixture.world [] [] Sample.no_fault Malformed)
                   Sample.path <> NewsItems items)
    by (intros items; vm_compute; discriminate).
  split; [split; [reflexivity|exact H]|].
  destruct (import_rejects_bad_file Sample.externals Sample.service
              Sample.path (Fixture.world [] [] Sample.no_fault Malformed)
              eq_refl eq_refl eq_refl H) as (w' & E & _ & T & _).
  exists w'. split; [exact E|exact T].
Defined.

(** X5. [SeedAllData] needs its file only on the empty store: with the
    count query answered and [converted_news_data.json] unreadable, it
    returns [nil] and changes no table when news exist, and fails with
    the read error wrapped twice, again changing no table, when the news
    table is empty. *)
Theorem seed_all_data_missing_file :
  forall (X : Externals) (s : SeedService) (w : World),
    db s = Some gormDB ->
    fault w (ops w) = None ->
    files w "converted_news_data.json" = Unreadable ->
    exists w',
      SeedAllData X s w
      = (match news_table w with
         | [] =>
             Some (fmt_Errorf "failed to seed news data"
                     (fmt_Errorf "failed to read JSON file"
                        (os_ReadFile_error "converted_news_data.json")))
         | _ => None
         end, w')
      /\ same_tables w w'.
Proof.
  intros X s w Hdb Hf Hfile.
  unfold SeedAllData, SeedNewsFromJSON, gorm.CountNews, issue, record,
    log_Printf.
  rewrite Hdb.
  destruct w as [nt ut rt f o tr lg fl en nw].
  cbn [fault ops news_table user_table rss_table trace logs files environ
       now] in *.
  rewrite Hf. destruct nt as [|r nt].
  - cbn [fault ops news_table user_table rss_table trace logs files environ
         now List.length Z.of_nat Z.ltb Z.compare].
    rewrite Hfile. eexists. split; [reflexivity|]. repeat split.
  - cbn [fault ops news_table user_table rss_table trace logs files environ
         now List.length Z.of_nat Z.ltb Z.compare].
    eexists. split; [reflexivity|]. repeat split.
Qed.

Lemma seed_all_data_missing_file_witness :
  (db Sample.service = Some gormDB
   /\ files (Fixture.world [] [] Sample.no_fault Unreadable)
            "converted_news_data.json" = Unreadable)
  /\ exists w',
      SeedAllData Sample.externals Sample.service
        (Fixture.world [] [] Sample.no_fault Unreadable)
      = (Some (fmt_Errorf "failed to seed news data"
                 (fmt_Errorf "failed to read JSON file"
                    (os_ReadFile_error "converted_news_data.json"))), w')
      /\ same_tables (Fixture.world [] [] Sample.no_fault Unreadable) w'.
Proof.
  split; [split; reflexivity|].
  exact (seed_all_data_missing_file Sample.externals Sample.service
           (Fixture.world [] [] Sample.no_fault Unreadable)
           eq_refl eq_refl eq_refl).
Defined.

(** ** Admin bootstrap, whatever the store answers *)

(** X6. However the admin bootstrap ends, it never touches the news and
    RSS tables; when it returns an error the user table is unchanged;
    when it returns [nil] the user table is unchanged or has gained
    exactly one account, with role [admin] and status [active], and that
    only if there was no admin before. *)
Theorem admin_bootstrap_outcome :
  forall (X : Externals) (s : SeedService) (w : World),
    news_table (snd (SeedInitialAdmin X s w)) = news_table w
    /\ rss_table (snd (SeedInitialAdmin X s w)) = rss_table w
    /\ match fst (SeedInitialAdmin X s w) with
       | Some _ => user_table (snd (SeedInitialAdmin X s w)) = user_table w
       | None =>
           user_table (snd (SeedInitialAdmin X s w)) = user_table w
           \/ (admins w = []
               /\ exists u,
                   user_table (snd (SeedInitialAdmin X s w))
                   = user_table w ++ [u]
                   /\ Role u = "admin" /\ UStatus u = "active")
       end.
Proof.
  intros X s w.
  unfold SeedInitialAdmin, gorm.CountAdmins, gorm.FirstUser,
    gorm.CreateUser, issue, log_Printf, set_users, getenv_or, admins.
  destruct w as [nt ut rt f o tr lg fl en nw].
  cbn [fault ops news_table user_table rss_table trace logs files environ
       now].
  destruct (db s); [|cbn; auto].
  destruct (f o); [cbn; auto|].
  destruct (filter gorm.is_admin ut) eqn:A;
    cbn [List.length Z.of_nat Z.ltb Z.compare]; [|cbn; auto].
  destruct (IsValidEmail X _); [|cbn; auto].
  destruct (IsValidPassword X _); [|cbn; auto].
  destruct (IsValidUsername X _); [|cbn; auto].
  cbn [negb fault ops news_table user_table rss_table trace logs files
       environ now].
  destruct (f (S o)).
  - cbn [fault ops news_table user_table rss_table trace logs files environ
         now].
    destruct (f (S (S o))); cbn; repeat split; auto.
    right. split; [reflexivity|]. eexists. repeat split.
  - destruct (find _ ut); [cbn; auto|].
    cbn [fault ops news_table user_table rss_table trace logs files environ
         now].
    destruct (f (S (S o))); cbn; repeat split; auto.
    right. split; [reflexivity|]. eexists. repeat split.
Qed.

(** X7. With no admin yet and valid settings, an existing account with
    the configured address or user name, found by an answered lookup,
    makes the bootstrap fail with 'admin email or username already
    exists'; no insert is issued and the tables are unchanged. *)
Theorem admin_bootstrap_conflict :
  forall (X : Externals) (s : SeedService) (w : World) (u : User),
    db s = Some gormDB ->
    fault w (ops w) = None ->
    fault w (S (ops w)) = None ->
    admins w = [] ->
    IsValidEmail X (getenv_or "ADMIN_EMAIL" "admin@easypeek.com" w) = true ->
    IsValidPassword X (getenv_or "ADMIN_PASSWORD" "admin123456" w) = true ->
    IsValidUsername X (getenv_or "ADMIN_USERNAME" "admin" w) = true ->
    In u (user_table w) ->
    Email u = getenv_or "ADMIN_EMAIL" "admin@easypeek.com" w
    \/ Username u = getenv_or "ADMIN_USERNAME" "admin" w ->
    exists w',
      SeedInitialAdmin X s w
      = (Some (errors_New "admin email or username already exists"), w')
      /\ same_tables w w'
      /\ trace w'
         = trace w
           ++ [EvCountAdmins;
               EvFirstUser (getenv_or "ADMIN_EMAIL" "admin@easypeek.com" w)
                           (getenv_or "ADMIN_USERNAME" "admin" w)].
Proof.
  intros X s w u Hdb F0 F1 A V1 V2 V3 Hin Hu.
  assert (Hfind : exists u',
             find (gorm.same_account
                     (getenv_or "ADMIN_EMAIL" "admin@easypeek.com" w)
                     (getenv_or "ADMIN_USERNAME" "admin" w))
                  (user_table w) = Some u').
  { destruct (find _ (user_table w)) as [u'|] eqn:E; [eauto|].
    pose proof (find_none _ _ E u Hin) as H.
    unfold gorm.same_account in H. apply orb_false_iff in H.
    destruct H as [H1 H2].
    apply String.eqb_neq in H1. apply String.eqb_neq in H2. tauto. }
  destruct Hfind as [u' Hfind].
  unfold SeedInitialAdmin, gorm.CountAdmins, gorm.FirstUser, issue,
    log_Printf in *.
  unfold admins, getenv_or in *. rewrite Hdb.
  destruct w as [nt ut rt f o tr lg fl en nw].
  cbn [fault ops news_table user_table rss_table trace logs files environ
       now] in *.
  rewrite F0, A.
  cbn [List.length Z.of_nat Z.ltb Z.compare fault ops news_table user_table
       rss_table trace logs files environ now].
  rewrite V1, V2, V3.
  cbn [negb fault ops news_table user_table rss_table trace logs files
       environ now].
  rewrite F1, Hfind.
  eexists. split; [reflexivity|]. cbn. rewrite <- app_assoc.
  repeat split.
Qed.

Lemma admin_bootstrap_conflict_witness :
  (db Sample.service = Some gormDB
   /\ In (Fixture.account "bob" "admin@easypeek.com")
         (user_table (Fixture.world
                        [Fixture.account "bob" "admin@easypeek.com"] []
                        Sample.no_fault Unreadable)))
  /\ exists w',
      SeedInitialAdmin Sample.externals Sample.service
        (Fixture.world [Fixture.account "bob" "admin@easypeek.com"] []
                       Sample.no_fault Unreadable)
      = (Some (errors_New "admin email or username already exists"), w')
      /\ same_tables
           (Fixture.world [Fixture.account "bob" "admin@easypeek.com"] []
                          Sample.no_fault Unreadable) w'.
Proof.
  split; [split; [reflexivity|left; reflexivity]|].
  destruct (admin_bootstrap_conflict Sample.externals Sample.service
              (Fixture.world [Fixture.account "bob" "admin@easypeek.com"] []
                             Sample.no_fault Unreadable)
              (Fixture.account "bob" "admin@easypeek.com")
              eq_refl eq_refl eq_refl eq_refl eq_refl eq_refl eq_refl
              (or_introl eq_refl) (or_introl eq_refl))
    as (w' & E & T & _).
  exists w'. split; [exact E|exact T].
Defined.

(** X8. The uniqueness lookup of the bootstrap is only heeded when it
    finds an account: when the store answers it with an error, the
    bootstrap goes on to insert the admin account, whatever accounts the
    user table holds, and returns [nil] if the insert is answered. *)
Theorem admin_bootstrap_ignores_lookup_error :
  forall (X : Externals) (s : SeedService) (w : World) (c : nat),
    db s = Some gormDB ->
    fault w (ops w) = None ->
    fault w (S (ops w)) = Some c ->
    fault w (S (S (ops w))) = None ->
    admins w = [] ->
    IsValidEmail X (getenv_or "ADMIN_EMAIL" "admin@easypeek.com" w) = true ->
    IsValidPassword X (getenv_or "ADMIN_PASSWORD" "admin123456" w) = true ->
    IsValidUsername X (getenv_or "ADMIN_USERNAME" "admin" w) = true ->
    exists w',
      SeedInitialAdmin X s w = (None, w')
      /\ user_table w'
         = user_table w
           ++ [mkUser (getenv_or "ADMIN_USERNAME" "admin" w)
                      (getenv_or "ADMIN_EMAIL" "admin@easypeek.com" w)
                      (hashPassword X
                         (getenv_or "ADMIN_PASSWORD" "admin123456" w))
                      "admin" "active"].
Proof.
  intros X s w c Hdb F0 F1 F2 A V1 V2 V3.
  unfold SeedInitialAdmin, gorm.CountAdmins, gorm.FirstUser,
    gorm.CreateUser, issue, log_Printf, set_users in *.
  unfold admins, getenv_or in *. rewrite Hdb.
  destruct w as [nt ut rt f o tr lg fl en nw].
  cbn [fault ops news_table user_table rss_table trace logs files environ
       now] in *.
  rewrite F0, A.
  cbn [List.length Z.of_nat Z.ltb Z.compare fault ops news_table user_table
       rss_table trace logs files environ now].
  rewrite V1, V2, V3.
  cbn [negb fault ops news_table user_table rss_table trace logs files
       environ now].
  rewrite F1.
  cbn [fault ops news_table user_table rss_table trace logs files environ
       now].
  rewrite F2. eexists. split; reflexivity.
Qed.

Lemma admin_bootstrap_ignores_lookup_error_witness :
  (db Sample.service = Some gormDB
   /\ fault (Fixture.world [Fixture.account "bob" "admin@easypeek.com"] []
                           (Sample.fault_at 1 5) Unreadable) 1
      = Some 5%nat)
  /\ exists w',
      SeedInitialAdmin Sample.externals Sample.service
        (Fixture.world [Fixture.account "bob" "admin@easypeek.com"] []
                       (Sample.fault_at 1 5) Unreadable) = (None, w')
      /\ map Email (user_table w')
         = ["admin@easypeek.com"; "admin@easypeek.com"].
Proof.
  split; [split; reflexivity|].
  destruct (admin_bootstrap_ignores_lookup_error Sample.externals
              Sample.service
              (Fixture.world [Fixture.account "bob" "admin@easypeek.com"] []
                             (Sample.fault_at 1 5) Unreadable)
              5%nat eq_refl eq_refl eq_refl eq_refl eq_refl eq_refl eq_refl
              eq_refl) as (w' & E & U).
  exists w'. split; [exact E|]. rewrite U. reflexivity.
Defined.

(** X9. When the bootstrap creates the account, the row it stores holds
    the password as hashed by the model's hook, while the line it logs
    carries the password itself, next to the user name and address taken
    from the environment or the defaults. *)
Theorem admin_bootstrap_logs_password :
  forall (X : Externals) (s : SeedService) (w w' : World),
    SeedInitialAdmin X s w = (None, w') ->
    admins w = [] ->
    user_table w'
    = user_table w
      ++ [mkUser (getenv_or "ADMIN_USERNAME" "admin" w)
                 (getenv_or "ADMIN_EMAIL" "admin@easypeek.com" w)
                 (hashPassword X (getenv_or "ADMIN_PASSWORD" "admin123456" w))
                 "admin" "active"]
    /\ logs w'
       = logs w
         ++ [LogAdminCreated (getenv_or "ADMIN_USERNAME" "admin" w)
                             (getenv_or "ADMIN_EMAIL" "admin@easypeek.com" w)
                             (getenv_or "ADMIN_PASSWORD" "admin123456" w)].
Proof.
  intros X s w w'.
  unfold SeedInitialAdmin, gorm.CountAdmins, gorm.FirstUser,
    gorm.CreateUser, issue, log_Printf, set_users, getenv_or, admins.
  destruct w as [nt ut rt f o tr lg fl en nw].
  cbn [fault ops news_table user_table rss_table trace logs files environ
       now].
  intros E A. rewrite A in E.
  destruct (db s); [|discriminate].
  destruct (f o); [discriminate|].
  cbn [List.length Z.of_nat Z.ltb Z.compare] in E.
  destruct (IsValidEmail X _); [|discriminate].
  destruct (IsValidPassword X _); [|discriminate].
  destruct (IsValidUsername X _); [|discriminate].
  cbn [negb fault ops news_table user_table rss_table trace logs files
       environ now] in E.
  destruct (f (S o)).
  - cbn [fault ops news_table user_table rss_table trace logs files environ
         now] in E.
    destruct (f (S (S o))); [discriminate|].
    injection E as <-. split; reflexivity.
  - destruct (find _ ut); [discriminate|].
    cbn [fault ops news_table user_table rss_table trace logs files environ
         now] in E.
    destruct (f (S (S o))); [discriminate|].
    injection E as <-. split; reflexivity.
Qed.

Lemma admin_bootstrap_logs_password_witness :
  admins (Fixture.world [] [] Sample.no_fault Unreadable) = []
  /\ exists w',
      SeedInitialAdmin Sample.externals Sample.service
        (Fixture.world [] [] Sample.no_fault Unreadable) = (None, w')
      /\ map Password (user_table w') = ["hash:admin123456"]
      /\ logs w' = [LogAdminCreated "admin" "admin@easypeek.com"
                                    "admin123456"].
Proof.
  split; [reflexivity|].
  set (w := Fixture.world [] [] Sample.no_fault Unreadable).
  assert (E : SeedInitialAdmin Sample.externals Sample.service w
              = (None, snd (SeedInitialAdmin Sample.externals
                              Sample.service w)))
    by (vm_compute; reflexivity).
  destruct (admin_bootstrap_logs_password Sample.externals Sample.service
              w _ E eq_refl) as (U & L).
  exists (snd (SeedInitialAdmin Sample.externals Sample.service w)).
  split; [exact E|]. split; [rewrite U|rewrite L]; reflexivity.
Defined.

(** X10. With no admin yet and a valid address, a password or a user
    name the validators reject ends the bootstrap with the matching
    error, the password being checked first; the store has only been
    asked for the count and the tables are unchanged. *)
Theorem admin_bootstrap_rejects_credentials :
  forall (X : Externals) (s : SeedService) (w : World),
    db s = Some gormDB ->
    fault w (ops w) = None ->
    admins w = [] ->
    IsValidEmail X (getenv_or "ADMIN_EMAIL" "admin@easypeek.com" w) = true ->
    IsValidPassword X (getenv_or "ADMIN_PASSWORD" "admin123456" w)
    && IsValidUsername X (getenv_or "ADMIN_USERNAME" "admin" w) = false ->
    exists w',
      SeedInitialAdmin X s w
      = (Some (errors_New
                 (if IsValidPassword X
                       (getenv_or "ADMIN_PASSWORD" "admin123456" w)
                  then "invalid admin username format"
                  else "admin password must contain at least one letter and one number")),
         w')
      /\ same_tables w w'
      /\ trace w' = trace w ++ [EvCountAdmins].
Proof.
  intros X s w Hdb F0 A V1 V.
  unfold SeedInitialAdmin, gorm.CountAdmins, issue, log_Printf in *.
  unfold admins, getenv_or in *. rewrite Hdb.
  destruct w as [nt ut rt f o tr lg fl en nw].
  cbn [fault ops news_table user_table rss_table trace logs files environ
       now] in *.
  rewrite F0, A.
  cbn [List.length Z.of_nat Z.ltb Z.compare fault ops news_table user_table
       rss_table trace logs files environ now].
  rewrite V1. cbn [negb].
  destruct (IsValidPassword X _); cbn [negb andb] in *.
  - rewrite V. cbn [negb]. eexists. split; [reflexivity|]. repeat split.
  - eexists. split; [reflexivity|]. repeat split.
Qed.

Lemma admin_bootstrap_rejects_credentials_witness :
  (db Sample.service = Some gormDB
   /\ IsValidPassword
        (mkExternals (fun _ _ => None) Sample.has_at (fun _ => false)
                     (fun _ => true) (fun p => p))
        (getenv_or "ADMIN_PASSWORD" "admin123456"
           (Fixture.world [] [] Sample.no_fault Unreadable)) = false)
  /\ exists w',
      SeedInitialAdmin
        (mkExternals (fun _ _ => None) Sample.has_at (fun _ => false)
                     (fun _ => true) (fun p => p))
        Sample.service (Fixture.world [] [] Sample.no_fault Unreadable)
      = (Some (errors_New
                 "admin password must contain at least one letter and one number"),
         w')
      /\ trace w' = [EvCountAdmins].
Proof.
  split; [split; reflexivity|].
  destruct (admin_bootstrap_rejects_credentials
              (mkExternals (fun _ _ => None) Sample.has_at (fun _ => false)
                           (fun _ => true) (fun p => p))
              Sample.service (Fixture.world [] [] Sample.no_fault Unreadable)
              eq_refl eq_refl eq_refl eq_refl eq_refl)
    as (w' & E & _ & T).
  exists w'. split; [exact E|exact T].
Defined.

(** ** RSS bootstrap *)

(** X11. When an RSS source exists and the count query is answered,
    [SeedRSSources] returns [nil] after the count alone: no source is
    created, the tables are unchanged and the skip is logged. *)
Theorem rss_seed_skipped_when_sources_exist :
  forall (s : SeedService) (w : World),
    db s = Some gormDB ->
    fault w (ops w) = None ->
    rss_table w <> [] ->
    exists w',
      SeedRSSources s w = (None, w')
      /\ same_tables w w'
      /\ trace w' = trace w ++ [EvCountRSS]
      /\ logs w' = logs w ++ [LogRSSExist].
Proof.
  intros s w Hdb F0 Hr.
  unfold SeedRSSources, gorm.CountRSS, issue, log_Printf. rewrite Hdb.
  destruct w as [nt ut rt f o tr lg fl en nw].
  cbn [fault ops news_table user_table rss_table trace logs files environ
       now] in *.
  rewrite F0. destruct rt as [|x l]; [congruence|].
  cbn [List.length Z.of_nat Z.ltb Z.compare].
  eexists. split; [reflexivity|]. cbn. repeat split.
Qed.

Lemma rss_seed_skipped_when_sources_exist_witness :
  (db Sample.service = Some gormDB
   /\ rss_table (Fixture.world [] (firstn 1 defaultSources)
                               Sample.no_fault Unreadable) <> [])
  /\ exists w',
      SeedRSSources Sample.service
        (Fixture.world [] (firstn 1 defaultSources) Sample.no_fault
                       Unreadable) = (None, w')
      /\ rss_table w' = firstn 1 defaultSources.
Proof.
  split; [split; [reflexivity|discriminate]|].
  destruct (rss_seed_skipped_when_sources_exist Sample.service
              (Fixture.world [] (firstn 1 defaultSources) Sample.no_fault
                             Unreadable)
              eq_refl eq_refl ltac:(discriminate))
    as (w' & E & (_ & _ & R) & _).
  exists w'. split; [exact E|exact R].
Defined.

(** X12. However [SeedRSSources] ends, the news and user tables are
    untouched and the RSS table has only gained default sources, each at
    most once and in the order of the list; it issues at most three
    storage operations, and it returns an error only when the connection
    is missing or the count query fails, in which case it has added
    nothing. *)
Theorem rss_seed_outcome :
  forall (s : SeedService) (w : World),
    news_table (snd (SeedRSSources s w)) = news_table w
    /\ user_table (snd (SeedRSSources s w)) = user_table w
    /\ (ops (snd (SeedRSSources s w)) <= ops w + 3)%nat
    /\ exists (keep : RSSSource -> bool),
        rss_table (snd (SeedRSSources s w))
        = rss_table w ++ filter keep defaultSources
        /\ match fst (SeedRSSources s w) with
           | Some _ =>
               filter keep defaultSources = []
               /\ (db s = None \/ fault w (ops w) <> None)
           | None => True
           end.
Proof.
  intros s w.
  unfold SeedRSSources, gorm.CountRSS, issue, log_Printf.
  destruct w as [nt ut rt f o tr lg fl en nw].
  cbn [fault ops news_table user_table rss_table trace logs files environ
       now].
  destruct (db s).
  2:{ cbn. repeat split; [lia|]. exists (fun _ => false). cbn.
      rewrite app_nil_r. repeat split. left. reflexivity. }
  destruct (f o) eqn:F0.
  { cbn. repeat split; [lia|]. exists (fun _ => false). cbn.
    rewrite app_nil_r. repeat split. right. discriminate. }
  destruct rt as [|x rt].
  2:{ cbn. repeat split; [lia|]. exists (fun _ => false). cbn.
      rewrite app_nil_r. repeat split. }
  cbn [List.length Z.of_nat Z.ltb Z.compare fst snd].
  unfold defaultSources, create_sources, gorm.CreateRSS, issue, log_Printf,
    set_rss.
  cbn [fault ops news_table user_table rss_table trace logs files environ
       now].
  destruct (f (S o));
    cbn [fault ops news_table user_table rss_table trace logs files environ
         now];
    destruct (f (S (S o)));
    cbn [fault ops news_table user_table rss_table trace logs files environ
         now app];
    (repeat split; [lia|]).
  - exists (fun _ => false). split; [reflexivity|exact I].
  - exists (fun r => String.eqb (RURL r) "http://rss.163.com/rss/tech_index.xml").
    split; [reflexivity|exact I].
  - exists (fun r => negb (String.eqb (RURL r)
                             "http://rss.163.com/rss/tech_index.xml")).
    split; [reflexivity|exact I].
  - exists (fun _ => true). split; [reflexivity|exact I].
Qed.

(** * Further properties of the news handlers *)

Lemma Atoi_range (s : string) (n : Z) :
  strconv.Atoi s = Some n -> strconv.minInt <= n <= strconv.maxInt.
Proof.
  unfold strconv.Atoi. destruct s as [|a r]; [discriminate|]. cbv zeta.
  set (neg := Ascii.eqb a "-").
  set (digits_part := if neg || Ascii.eqb a "+" then r else String a r).
  destruct digits_part as [|a0 r0]; [discriminate|].
  destruct (strconv.digits (String a0 r0) 0) as [m|]; [|discriminate].
  destruct ((strconv.minInt <=? (if neg then - m else m))
            && ((if neg then - m else m) <=? strconv.maxInt)) eqn:B;
    [|discriminate].
  intros E. injection E as <-.
  apply andb_prop in B. destruct B as [B1 B2].
  apply Z.leb_le in B1. apply Z.leb_le in B2. split; assumption.
Qed.

Lemma uint_of_int (n : Z) :
  strconv.minInt <= n <= strconv.maxInt ->
  uint n = if n <? 0 then n + 18446744073709551616 else n.
Proof.
  unfold uint, strconv.minInt, strconv.maxInt. intros H.
  destruct (Z.ltb_spec n 0).
  - rewrite <- (Z_mod_plus_full n 1 18446744073709551616).
    apply Z.mod_small. lia.
  - apply Z.mod_small. lia.
Qed.

Lemma digits_lower_bound (s : string) :
  forall acc n, 0 <= acc -> strconv.digits s acc = Some n -> acc <= n.
Proof.
  induction s as [|a r IH]; intros acc n Ha E; cbn [strconv.digits] in E.
  - injection E as <-. lia.
  - unfold strconv.digit in E.
    destruct (_ && _) eqn:B; [|discriminate].
    apply andb_prop in B. destruct B as [B1 _]. apply Z.leb_le in B1.
    apply IH in E; lia.
Qed.

(** X13. An identifier that is a negative number is not rejected by the
    handlers that read [:id] with [Atoi]: converted to [uint] it wraps, so
    [GetNewsByID] and [DeleteNews] ask the service for the identifier
    plus [2^64]; identifiers that are not numbers are answered with
    'Invalid news ID' whatever the service. *)
Theorem news_id_wraps_when_negative :
  forall (C U R : Type) (ToResponse : News -> R)
         (svc : NewsItemService C U) (c : gin.Context),
    match strconv.Atoi (gin.Param c "id") with
    | None =>
        GetNewsByID C U R ToResponse svc c = ReplyBadRequest "Invalid news ID"
        /\ DeleteNews C U R svc c = ReplyBadRequest "Invalid news ID"
    | Some n =>
        let asked := if n <? 0 then n + 18446744073709551616 else n in
        0 <= asked < 18446744073709551616
        /\ GetNewsByID C U R ToResponse svc c
           = match item_GetNewsByID svc asked with
             | Failed msg =>
                 if String.eqb msg "news not found" then ReplyNotFound msg
                 else ReplyInternalServerError msg
             | Done news => ReplySuccess (ToResponse news)
             end
        /\ DeleteNews C U R svc c
           = match item_DeleteNews svc asked with
             | Some msg =>
                 if String.eqb msg "news not found or already deleted"
                 then ReplyNotFound msg
                 else ReplyInternalServerError msg
             | None => ReplySuccessMessage "News deleted successfully"
             end
    end.
Proof.
  intros C U R ToResponse svc c.
  unfold GetNewsByID, DeleteNews.
  destruct (strconv.Atoi (gin.Param c "id")) as [n|] eqn:E;
    [|split; reflexivity].
  pose proof (Atoi_range _ _ E) as Hr.
  rewrite (uint_of_int n Hr). cbv zeta.
  split; [|split; reflexivity].
  unfold strconv.minInt, strconv.maxInt in Hr.
  destruct (Z.ltb_spec n 0); lia.
Qed.

(** X14. [UpdateNews] answers with the updated record exactly when the
    identifier is a number, the body binds, the service finds the record
    under that identifier and the update of that record succeeds; the
    answer is then the record as the update left it.  In particular no
    update reaches the service for a record the lookup did not return. *)
Theorem update_news_success :
  forall (C U R : Type) (ToResponse : News -> R)
         (svc : NewsItemService C U) (c : Request U) (data : R),
    UpdateNews C U R ToResponse svc c = ReplySuccess data <->
    exists n req news news',
      strconv.Atoi (gin.Param (ctx c) "id") = Some n
      /\ body c = Bound req
      /\ item_GetNewsByID svc (uint n) = Done news
      /\ item_UpdateNews svc news req = Done news'
      /\ data = ToResponse news'.
Proof.
  intros C U R ToResponse svc c data. unfold UpdateNews. split.
  - destruct (strconv.Atoi _) as [n|]; [|discriminate].
    destruct (body c) as [msg|req]; [discriminate|].
    destruct (item_GetNewsByID svc (uint n)) as [news|msg] eqn:G.
    + destruct (item_UpdateNews svc news req) as [news'|msg] eqn:Up;
        [|discriminate].
      intros E. injection E as <-.
      exists n, req, news, news'. repeat split; assumption.
    + destruct (String.eqb msg "news not found"); discriminate.
  - intros (n & req & news & news' & -> & -> & -> & -> & ->). reflexivity.
Qed.

(** X15. [GetNewsByEventID] reads its identifier as an unsigned 32-bit
    number: it asks the service only for identifiers between 0 and
    [2^32 - 1], and answers 'Invalid event ID', whatever the service,
    to anything else, a sign included. *)
Theorem event_id_is_unsigned_32_bit :
  forall (C U R : Type) (ToResponse : News -> R)
         (svc : NewsItemService C U) (c : gin.Context),
    (match ParseUint32 (gin.Param c "event_id") with
     | None =>
         GetNewsByEventID C U R ToResponse svc c
         = ReplyBadRequest "Invalid event ID"
     | Some n =>
         0 <= n <= 4294967295
         /\ GetNewsByEventID C U R ToResponse svc c
            = match item_GetNewsByEventID svc n with
              | Failed msg => ReplyInternalServerError msg
              | Done newsList => ReplySuccessList (map ToResponse newsList)
              end
     end)
    /\ (forall rest,
           ParseUint32 (String "-" rest) = None
           /\ ParseUint32 (String "+" rest) = None)
    /\ ParseUint32 "" = None
    /\ ParseUint32 "4294967296" = None
    /\ ParseUint32 "4294967295" = Some 4294967295.
Proof.
  intros C U R ToResponse svc c. split; [|split; [|repeat split]].
  - unfold GetNewsByEventID.
    destruct (ParseUint32 (gin.Param c "event_id")) as [n|] eqn:E;
      [|reflexivity].
    split; [|reflexivity].
    unfold ParseUint32 in E.
    destruct (gin.Param c "event_id") as [|a r]; [discriminate|].
    destruct (strconv.digits (String a r) 0) as [m|] eqn:D; [|discriminate].
    destruct (Z.leb_spec m 4294967295); [|discriminate].
    injection E as <-. apply digits_lower_bound in D; lia.
  - intros rest. split; reflexivity.
Qed.

(** X16. [CreateNews] answers with a created record only when the body
    binds, the context holds a [uint] under [user_id] and the service
    creates the record for that user; a body that does not bind is
    answered with a bad request before the user is looked at, and a
    request without [user_id] is answered 'User not authenticated'
    whatever the service. *)
Theorem create_news_needs_user :
  forall (C U R : Type) (ToResponse : News -> R)
         (svc : NewsItemService C U) (c : Request C),
    (forall data,
        CreateNews C U R ToResponse svc c = ReplySuccess data <->
        exists req creatorID news,
          body c = Bound req
          /\ keys c "user_id" = Some (UintValue creatorID)
          /\ item_CreateNews svc req creatorID = Done news
          /\ data = ToResponse news)
    /\ (forall msg,
           body c = BindError msg ->
           CreateNews C U R ToResponse svc c
           = ReplyBadRequest ("Invalid request data: " ++ msg))
    /\ (forall req,
           body c = Bound req -> keys c "user_id" = None ->
           CreateNews C U R ToResponse svc c
           = ReplyUnauthorized "User not authenticated").
Proof.
  intros C U R ToResponse svc c. unfold CreateNews. split; [|split].
  - intros data. split.
    + destruct (body c) as [msg|req]; [discriminate|].
      destruct (keys c "user_id") as [[creatorID|]|]; try discriminate.
      destruct (item_CreateNews svc req creatorID) as [news|msg] eqn:Cr.
      * intros E. injection E as <-.
        exists req, creatorID, news. repeat split; assumption.
      * destruct (String.eqb msg _); discriminate.
    + intros (req & creatorID & news & -> & -> & -> & ->). reflexivity.
  - intros msg ->. reflexivity.
  - intros req -> ->. reflexivity.
Qed.

Lemma create_news_needs_user_witness :
  keys (mkRequest (gin.mkContext [] []) (Bound tt) (fun _ => None)) "user_id"
  = None
  /\ CreateNews unit unit News (fun n => n) Fixture.item_service
       (mkRequest (gin.mkContext [] []) (Bound tt) (fun _ => None))
     = ReplyUnauthorized "User not authenticated".
Proof.
  split; [reflexivity|].
  exact (proj2 (proj2 (create_news_needs_user unit unit News (fun n => n)
                         Fixture.item_service
                         (mkRequest (gin.mkContext [] []) (Bound tt)
                                    (fun _ => None))))
           tt eq_refl eq_refl).
Defined.

(** [UpdateNewsEventAssociation] never passes an empty list of
    identifiers to the service: it is answered 'News IDs cannot be
    empty'.  When the service succeeds the message says 'removed' exactly
    when no event identifier was given, and of the service's errors only
    the 'nothing updated' one is answered as a bad request. *)
Theorem event_association_replies :
  forall (C U R : Type) (svc : NewsItemService C U)
         (c : Request AssociationRequest) (req : AssociationRequest),
    body c = Bound req ->
    UpdateNewsEventAssociation C U R svc c
    = match NewsIDs req with
      | [] => ReplyBadRequest "News IDs cannot be empty"
      | _ :: _ =>
          match item_UpdateNewsEventAssociationByIDs svc (NewsIDs req)
                  (EventID req) with
          | Some msg =>
              if String.eqb msg nothing_updated then ReplyBadRequest msg
              else ReplyInternalServerError msg
          | None =>
              ReplySuccessMessage
                (match EventID req with
                 | None => "News event association removed successfully"
                 | Some _ => "News event association updated successfully"
                 end)
          end
      end.
Proof.
  intros C U R svc c req Hb. unfold UpdateNewsEventAssociation.
  rewrite Hb. destruct (NewsIDs req); reflexivity.
Qed.

Lemma event_association_replies_witness :
  body (mkRequest (gin.mkContext [] [])
                  (Bound (mkAssociationRequest [] (Some 3)))
                  (fun _ => None))
  = Bound (mkAssociationRequest [] (Some 3))
  /\ UpdateNewsEventAssociation unit unit News Fixture.item_service
       (mkRequest (gin.mkContext [] [])
                  (Bound (mkAssociationRequest [] (Some 3)))
                  (fun _ => None))
     = ReplyBadRequest "News IDs cannot be empty".
Proof.
  split; [reflexivity|].
  exact (event_association_replies unit unit News Fixture.item_service
           (mkRequest (gin.mkContext [] [])
                      (Bound (mkAssociationRequest [] (Some 3)))
                      (fun _ => None))
           (mkAssociationRequest [] (Some 3)) eq_refl).
Defined.

(** The identifier [-1] reaches the service as [2^64 - 1]. *)
Example news_id_minus_one :
  GetNewsByID unit unit Z (fun _ => 0)
    (mkNewsItemService unit unit (fun _ _ => Failed "")
       (fun n => Failed (if n =? 18446744073709551615 then "asked for 2^64-1"
                         else "asked for another"))
       (fun n _ => Done n) (fun _ => None) (fun _ => Done [])
       (fun _ _ => None) (fun _ => Done []))
    (Fixture.with_param "id" "-1")
  = ReplyInternalServerError "asked for 2^64-1".
Proof. vm_compute. reflexivity. Qed.

(** * Properties of the routes *)

Lemma endpoint_dec (a b : Method * string) : {a = b} + {a <> b}.
Proof.
  decide equality; [apply string_dec|decide equality].
Defined.

(** X17. Every route under [/api/v1/admin] runs, in this order, the
    logger, the recovery, CORS, the authentication and the admin check
    before its handler, and nothing else. *)
Theorem admin_routes_guarded :
  forall r : Route,
    In r SetupRoutes ->
    String.prefix "/api/v1/admin" (route_path r) = true ->
    route_chain r
    = [Logger; Recovery; CORSMiddleware; AuthMiddleware; AdminAuthMiddleware].
Proof.
  assert (H : Forall
                (fun r =>
                   String.prefix "/api/v1/admin" (route_path r) = true ->
                   route_chain r
                   = [Logger; Recovery; CORSMiddleware; AuthMiddleware;
                      AdminAuthMiddleware]) SetupRoutes).
  { vm_compute.
    repeat (constructor; [intros H; try discriminate H; reflexivity|]).
    constructor. }
  intros r Hin. rewrite Forall_forall in H. apply H. exact Hin.
Qed.

Lemma admin_routes_guarded_witness :
  In (handle DELETE
        (Group (Use (Use (Group (Group (Use gin_Default CORSMiddleware)
                                       "/api/v1") "/admin")
                         AuthMiddleware) AdminAuthMiddleware) "/users")
        "/:id" "adminHandler.DeleteUser") SetupRoutes
  /\ route_chain
       (handle DELETE
          (Group (Use (Use (Group (Group (Use gin_Default CORSMiddleware)
                                         "/api/v1") "/admin")
                           AuthMiddleware) AdminAuthMiddleware) "/users")
          "/:id" "adminHandler.DeleteUser")
     = [Logger; Recovery; CORSMiddleware; AuthMiddleware; AdminAuthMiddleware].
Proof.
  assert (Hin : In (handle DELETE
                      (Group (Use (Use (Group (Group (Use gin_Default
                                                          CORSMiddleware)
                                                     "/api/v1") "/admin")
                                       AuthMiddleware) AdminAuthMiddleware)
                             "/users")
                      "/:id" "adminHandler.DeleteUser") SetupRoutes).
  { unfold SetupRoutes. cbv zeta. do 55 right. left. reflexivity. }
  split; [exact Hin|].
  apply (admin_routes_guarded _ Hin). reflexivity.
Defined.

(** X18. Every route runs the logger, the recovery and CORS first.
    Every route that is not a GET runs the authentication, except the
    four public ones (register, login, and the view and share counters
    of an event), and no GET route of the news handlers does.  Where a
    route has a role check, the authentication runs before it. *)
Theorem routes_authentication :
  forall r : Route,
    In r SetupRoutes ->
    firstn 3 (route_chain r) = [Logger; Recovery; CORSMiddleware]
    /\ (route_method r <> GET ->
        existsb is_auth (route_chain r) = true
        \/ In (route_path r)
              ["/api/v1/auth/register"; "/api/v1/auth/login";
               "/api/v1/events/:id/view"; "/api/v1/events/:id/share"])
    /\ (route_method r = GET ->
        String.prefix "/api/v1/news" (route_path r) = true ->
        existsb is_auth (route_chain r) = false)
    /\ (existsb is_role_check (route_chain r) = true ->
        existsb is_auth (before_role_check (route_chain r)) = true).
Proof.
  assert (H : Forall
                (fun r =>
                   firstn 3 (route_chain r)
                   = [Logger; Recovery; CORSMiddleware]
                   /\ (route_method r <> GET ->
                       existsb is_auth (route_chain r) = true
                       \/ In (route_path r)
                             ["/api/v1/auth/register"; "/api/v1/auth/login";
                              "/api/v1/events/:id/view";
                              "/api/v1/events/:id/share"])
                   /\ (route_method r = GET ->
                       String.prefix "/api/v1/news" (route_path r) = true ->
                       existsb is_auth (route_chain r) = false)
                   /\ (existsb is_role_check (route_chain r) = true ->
                       existsb is_auth (before_role_check (route_chain r))
                       = true)) SetupRoutes).
  { vm_compute.
    repeat (constructor;
            [split; [reflexivity|];
             split; [intros H; try (exfalso; apply H; reflexivity);
                     try (left; reflexivity); cbn; tauto|];
             split; intros; try discriminate; reflexivity|]).
    constructor. }
  intros r Hin. rewrite Forall_forall in H. apply H. exact Hin.
Qed.

Lemma routes_authentication_witness :
  In (handle PUT
        (Use (Group (Group (Group (Use gin_Default CORSMiddleware) "/api/v1")
                           "/news") "") AuthMiddleware)
        "/event-association" "newsHandler.UpdateNewsEventAssociation")
     SetupRoutes
  /\ existsb is_auth
       (route_chain
          (handle PUT
             (Use (Group (Group (Group (Use gin_Default CORSMiddleware)
                                       "/api/v1") "/news") "")
                  AuthMiddleware)
             "/event-association" "newsHandler.UpdateNewsEventAssociation"))
     = true.
Proof.
  assert (Hin : In (handle PUT
                      (Use (Group (Group (Group (Use gin_Default
                                                     CORSMiddleware)
                                                "/api/v1") "/news") "")
                           AuthMiddleware)
                      "/event-association"
                      "newsHandler.UpdateNewsEventAssociation") SetupRoutes).
  { unfold SetupRoutes. cbv zeta. do 18 right. left. reflexivity. }
  split; [exact Hin|].
  destruct (proj1 (proj2 (routes_authentication _ Hin))) as [H|H].
  - discriminate.
  - exact H.
  - cbn in H. exfalso. intuition discriminate.
Defined.

(** X19. No two registrations of [SetupRoutes] have the same method and
    path. *)
Theorem routes_are_distinct :
  NoDup (map (fun r => (route_method r, route_path r)) SetupRoutes).
Proof.
  assert (H : nodup endpoint_dec
                (map (fun r => (route_method r, route_path r)) SetupRoutes)
              = map (fun r => (route_method r, route_path r)) SetupRoutes)
    by (vm_compute; reflexivity).
  rewrite <- H. apply NoDup_nodup.
Qed.

(** * What the duplicate lookup guarantees *)

Lemma find_none_fresh (d : NewsJSONData) (t : Time) (rows : list News) :
  find (gorm.same_identity (j_GUID d) (j_Link d)) rows = None ->
  fresh rows (toNews d t).
Proof.
  intros F r Hin. pose proof (find_none _ _ F r Hin) as H.
  unfold gorm.same_identity in H. apply orb_false_iff in H.
  destruct H as [H1 H2].
  apply String.eqb_neq in H1. apply String.eqb_neq in H2.
  split; assumption.
Qed.

Lemma cross_fresh_app (stored : list News) (bs1 bs2 : list (list News)) :
  cross_fresh stored bs1 ->
  cross_fresh (stored ++ List.concat bs1) bs2 ->
  cross_fresh stored (bs1 ++ bs2).
Proof.
  revert stored. induction bs1 as [|b bs1 IH]; intros stored H1 H2.
  - cbn in *. rewrite app_nil_r in H2. exact H2.
  - cbn in *. destruct H1 as [Hb H1]. split; [exact Hb|].
    apply IH; [exact H1|]. rewrite <- app_assoc. exact H2.
Qed.

Section Dedup.

Variable X : Externals.

Lemma import_turn_dedup (i : Z) (d : NewsJSONData) (a : Acc) (w : World) :
  Forall (fresh (news_table w)) (newsList a) ->
  (List.length (newsList a) < 100)%nat ->
  match import_turn X i d a w with
  | Next a' w' =>
      (news_table w' = news_table w
       /\ Forall (fresh (news_table w)) (newsList a')
       /\ (List.length (newsList a') < 100)%nat)
      \/ (exists b, news_table w' = news_table w ++ b
                    /\ Forall (fresh (news_table w)) b
                    /\ List.length b = 100%nat
                    /\ newsList a' = [])
  | Abort e a' w' => news_table w' = news_table w
  end.
Proof.
  intros Hbuf Hlen. unfold import_turn.
  set (w1 := match time_Parse X layout (j_PublishedAt d) with
             | Some _ => w
             | None => log_Printf (LogBadTime (i + 1)) w
             end).
  assert (T1 : news_table w1 = news_table w)
    by (subst w1; destruct (time_Parse X layout (j_PublishedAt d));
        reflexivity).
  clearbody w1.
  unfold gorm.FirstNews, issue.
  destruct (fault w1 (ops w1)) as [c|].
  - left. cbn. repeat split; assumption.
  - cbn [news_table].
    destruct (find _ (news_table w1)) as [r|] eqn:F.
    + left. cbn. repeat split; assumption.
    + rewrite T1 in F.
      pose proof (find_none_fresh d (publishedAt_of X d w) _ F) as Hn.
      assert (Hbuf' : Forall (fresh (news_table w))
                             (newsList a ++ [toNews d (publishedAt_of X d w)]))
        by (apply Forall_app; split; [exact Hbuf|constructor; auto]).
      destruct (100 <=? _)%nat eqn:Full.
      * apply Nat.leb_le in Full.
        match goal with
        | |- context [batchInsertNews ?l ?w2] =>
            destruct (batchInsertNews l w2) as [[e|] w3] eqn:B
        end.
        -- apply batchInsertNews_failure in B.
           destruct B as ((B1 & _) & _).
           cbn [news_table] in B1. congruence.
        -- apply batchInsertNews_success in B. destruct B as (B1 & _).
           cbn [news_table] in B1. right. eexists.
           split; [|split; [|split]].
           ++ rewrite B1, T1. reflexivity.
           ++ exact Hbuf'.
           ++ rewrite length_app in *. cbn [List.length] in *. lia.
           ++ reflexivity.
      * apply Nat.leb_gt in Full. left. cbn. repeat split; assumption.
Qed.

(** The loop: the rows it writes are buffers of exactly 100 records, and
    each buffer holds only records that are fresh with respect to the
    rows stored before it. *)
Lemma import_loop_dedup (items : list NewsJSONData) :
  forall (i : Z) (a : Acc) (w : World),
    Forall (fresh (news_table w)) (newsList a) ->
    (List.length (newsList a) < 100)%nat ->
    exists bs,
      cross_fresh (news_table w) bs
      /\ Forall (fun b => List.length b = 100%nat) bs
      /\ match import_loop X i items a w with
         | Next a' w' =>
             news_table w' = news_table w ++ List.concat bs
             /\ Forall (fresh (news_table w')) (newsList a')
             /\ (List.length (newsList a') < 100)%nat
         | Abort e a' w' => news_table w' = news_table w ++ List.concat bs
         end.
Proof.
  induction items as [|d items IH]; intros i a w Hbuf Hlen.
  - exists []. cbn. rewrite app_nil_r. repeat split; auto.
  - cbn [import_loop].
    pose proof (import_turn_dedup i d a w Hbuf Hlen) as T.
    destruct (import_turn X i d a w) as [a1 w1|e a1 w1].
    + destruct T as [(T1 & B1 & L1)|(b & T1 & Hb & Lb & B1)].
      * rewrite <- T1 in B1.
        destruct (IH (i + 1) a1 w1 B1 L1) as (bs & C & H100 & H).
        exists bs. rewrite T1 in C, H.
        split; [exact C|]. split; [exact H100|exact H].
      * assert (B1' : Forall (fresh (news_table w1)) (newsList a1))
          by (rewrite B1; constructor).
        assert (L1 : (List.length (newsList a1) < 100)%nat)
          by (rewrite B1; cbn; lia).
        destruct (IH (i + 1) a1 w1 B1' L1) as (bs & C & H100 & H).
        exists (b :: bs). rewrite T1 in C.
        split; [split; assumption|].
        split; [constructor; assumption|].
        cbn [List.concat]. rewrite app_assoc, <- T1. exact H.
    + exists []. cbn. rewrite app_nil_r.
      split; [exact I|]. split; [constructor|exact T].
Qed.

End Dedup.

(** X20. What the duplicate lookup guarantees, whatever the store
    answers and however the import ends: cut the rows the import has
    added into consecutive sub-lists of 100 (the last one possibly
    shorter); then every record of a sub-list differs in GUID and in
    link from every row that stands before that sub-list, the rows
    present at the start and the earlier sub-lists.  Records of one
    sub-list are not compared with each other. *)
Theorem import_batches_are_fresh :
  forall (X : Externals) (s : SeedService) (path : string) (w : World),
    news_table (snd (SeedNewsFromJSON X s path w))
    = news_table w
      ++ skipn (List.length (news_table w))
               (news_table (snd (SeedNewsFromJSON X s path w)))
    /\ cross_fresh (news_table w)
         (gorm.slices 100
            (skipn (List.length (news_table w))
                   (news_table (snd (SeedNewsFromJSON X s path w))))).
Proof.
  intros X s path w.
  assert (H : exists bs rest,
             news_table (snd (SeedNewsFromJSON X s path w))
             = news_table w ++ List.concat bs ++ rest
             /\ Forall (fun b => List.length b = 100%nat) bs
             /\ (List.length rest < 100)%nat
             /\ cross_fresh (news_table w) bs
             /\ Forall (fresh (news_table w ++ List.concat bs)) rest).
  { unfold SeedNewsFromJSON, gorm.CountNews, issue, record, log_Printf.
    destruct w as [nt ut rt f o tr lg fl en nw].
    cbn [fault ops news_table user_table rss_table trace logs files environ
         now].
    assert (Nil : exists (bs : list (list News)) (rest : list News),
               nt = nt ++ List.concat bs ++ rest
               /\ Forall (fun b => List.length b = 100%nat) bs
               /\ (List.length rest < 100)%nat
               /\ cross_fresh nt bs
               /\ Forall (fresh (nt ++ List.concat bs)) rest).
    { exists [], []. cbn. rewrite app_nil_r.
      repeat split; try constructor; try lia. }
    destruct (db s); [|exact Nil].
    destruct (f o); [exact Nil|].
    destruct nt as [|r0 nt].
    2:{ cbn [List.length Z.of_nat Z.ltb Z.compare]. exact Nil. }
    cbn [List.length Z.of_nat Z.ltb Z.compare].
    cbn [fault ops news_table user_table rss_table trace logs files environ
         now].
    destruct (fl path) as [| |items]; try exact Nil.
    match goal with
    | |- context [import_loop X 0 items ?a0 ?w0] =>
        destruct (import_loop_dedup X items 0 a0 w0 ltac:(constructor)
                    ltac:(cbn; lia))
          as (bs & C & H100 & H);
        destruct (import_loop X 0 items a0 w0) as [a1 w1|e a1 w1]
    end.
    - destruct H as (T & B & L). cbn [news_table app] in T, C.
      rewrite T in B.
      destruct (newsList a1) as [|x buf] eqn:Buf.
      + cbn [List.length Nat.ltb Nat.leb snd]. exists bs, [].
        cbn [app]. rewrite app_nil_r.
        repeat split; try assumption; try constructor; try (cbn; lia).
      + cbn [List.length Nat.ltb Nat.leb].
        destruct (batchInsertNews (x :: buf) w1) as [[e|] w2] eqn:Bt.
        * apply batchInsertNews_failure in Bt.
          destruct Bt as ((B1 & _) & _). cbn [snd].
          exists bs, []. cbn [app]. rewrite app_nil_r.
          repeat split; try assumption; try constructor; try (cbn; lia).
          rewrite B1. exact T.
        * apply batchInsertNews_success in Bt. destruct Bt as (B1 & _).
          cbn [snd news_table]. exists bs, (x :: buf). cbn [app].
          repeat split; try assumption.
          rewrite B1, T. reflexivity.
    - cbn [news_table app snd] in *. exists bs, [].
      rewrite app_nil_r.
      repeat split; try assumption; try constructor; try (cbn; lia). }
  destruct H as (bs & rest & T & H100 & Lr & C & Fr).
  assert (Sk : skipn (List.length (news_table w))
                     (news_table (snd (SeedNewsFromJSON X s path w)))
               = List.concat bs ++ rest).
  { rewrite T, skipn_app, skipn_all, Nat.sub_diag. reflexivity. }
  rewrite Sk. split; [exact T|].
  rewrite (slices_of_batches 100 bs rest ltac:(lia) H100 Lr).
  apply cross_fresh_app; [exact C|].
  destruct rest; cbn; [exact I|]. split; [exact Fr|exact I].
Qed.

(** The guarantee is not empty: a table in which the 101st row repeats
    the GUID of the first does not satisfy it. *)
Example cross_fresh_excludes_later_duplicate :
  ~ cross_fresh []
      (gorm.slices 100
         (Sample.stored_upto 100 ++ [Sample.stored "g" "http://other"])).
Proof.
  intros H.
  assert (S : gorm.slices 100
                (Sample.stored_upto 100 ++ [Sample.stored "g" "http://other"])
              = [Sample.stored_upto 100; [Sample.stored "g" "http://other"]]).
  { rewrite slices_full by (reflexivity || lia). f_equal. }
  rewrite S in H. cbn [cross_fresh app] in H.
  destruct H as (_ & H & _). inversion H as [|n l Hn _]; subst.
  destruct (Hn (Sample.stored "g" "http://l/") (or_introl eq_refl))
    as [Hg _].
  apply Hg. reflexivity.
Qed.
